(** * OrderLimitPlacer: limit-order scripts for the 1inch protocol on Polygon

    A shallow embedding of the repository's TypeScript sources
    ([config.ts], [lib/order.ts], [lib/quote.ts], [lib/blockchain.ts],
    [lib/generate-order.ts], [test/fill.ts]) and the properties its
    specification states about them.

    Conventions of the embedding:
    - a [bigint] is a [Z]; [/] and [%] on bigints are [Z.quot] and [Z.rem]
      (truncation towards zero), [|] is [Z.lor], [<<] is [Z.shiftl];
    - a JavaScript string is a [string], read as a sequence of code units
      below 256;
    - a function that may throw returns a [Result];
    - an [async] function that talks to the RPC node, the wallet, the HTTP
      filler service, the clock or the random generator runs in the monad
      [M], which threads the outside world and lists every call made. *)

From Stdlib Require Import ZArith Lia List String Ascii Bool.
Import ListNotations.

Local Open Scope string_scope.
Local Open Scope Z_scope.

(** ** JavaScript primitives used by the sources *)

Module JS.

Definition chars (s : string) : list ascii := list_ascii_of_string s.
Definition str (l : list ascii) : string := string_of_list_ascii l.

Definition code (c : ascii) : Z := Z.of_N (N_of_ascii c).

(** *** Digits *)

Definition digitChars : list ascii := chars "0123456789abcdef".

Definition digitChar (d : Z) : ascii := nth (Z.to_nat d) digitChars "0"%char.

(** Value of a character read as a digit, letters in either case. *)
Definition digitValue (c : ascii) : option Z :=
  let n := code c in
  if (48 <=? n) && (n <=? 57) then Some (n - 48)
  else if (97 <=? n) && (n <=? 122) then Some (n - 87)
  else if (65 <=? n) && (n <=? 90) then Some (n - 55)
  else None.

Definition digitIn (radix : Z) (c : ascii) : option Z :=
  match digitValue c with
  | Some d => if d <? radix then Some d else None
  | None => None
  end.

Definition isDigitIn (radix : Z) (c : ascii) : bool :=
  match digitIn radix c with Some _ => true | None => false end.

(** Most significant digit first. *)
Definition fromDigits (radix : Z) (ds : list Z) (acc : Z) : Z :=
  fold_left (fun a d => a * radix + d) ds acc.

Fixpoint toDigits (fuel : nat) (radix n : Z) (acc : list Z) : list Z :=
  match fuel with
  | O => n :: acc
  | S fuel' =>
      if n <? radix then n :: acc
      else toDigits fuel' radix (n / radix) (n mod radix :: acc)
  end.

(** Every division by a radix of at least two removes a binary digit, so
    [Z.log2 n] steps are enough. *)
Definition digitsOf (radix n : Z) : list Z :=
  toDigits (Z.to_nat (Z.log2 n)) radix n [].

Fixpoint parseDigits (radix : Z) (cs : list ascii) (acc : Z) : option Z :=
  match cs with
  | [] => Some acc
  | c :: cs' =>
      match digitIn radix c with
      | Some d => parseDigits radix cs' (acc * radix + d)
      | None => None
      end
  end.

Definition parseNonEmptyDigits (radix : Z) (cs : list ascii) : option Z :=
  match cs with
  | [] => None
  | _ => parseDigits radix cs 0
  end.

(** [BigInt.prototype.toString(radix)] and [Number.prototype.toString()] on
    integers. *)
Definition toString (radix n : Z) : string :=
  if n <? 0 then String "-" (str (map digitChar (digitsOf radix (- n))))
  else str (map digitChar (digitsOf radix n)).

(** *** Strings *)

Definition length (s : string) : nat := String.length s.

Definition startsWith (s p : string) : bool := String.prefix p s.

(** [s.slice(from, to)] for non-negative indices. *)
Definition slice (from to : nat) (s : string) : string :=
  str (firstn (to - from) (skipn from (chars s))).

(** [s.slice(from)] for a non-negative index. *)
Definition sliceFrom (from : nat) (s : string) : string :=
  str (skipn from (chars s)).

(** [s.padStart(n, fill)] and [s.padEnd(n, fill)] with a one-character
    filler. *)
Definition padStart (n : nat) (fill : ascii) (s : string) : string :=
  str (repeat fill (n - String.length s) ++ chars s)%list.

Definition padEnd (n : nat) (fill : ascii) (s : string) : string :=
  str (chars s ++ repeat fill (n - String.length s))%list.

Fixpoint dropWhile {A} (p : A -> bool) (l : list A) : list A :=
  match l with
  | [] => []
  | x :: l' => if p x then dropWhile p l' else l
  end.

Definition dropWhileEnd {A} (p : A -> bool) (l : list A) : list A :=
  rev (dropWhile p (rev l)).

(** [s.replace(/0+$/, "")]. *)
Definition stripTrailingZeros (s : string) : string :=
  str (dropWhileEnd (Ascii.eqb "0") (chars s)).

(** The characters [StrWhiteSpaceChar] accepts, among code units below
    256: TAB, LF, VT, FF, CR, SP and NBSP. *)
Definition isWhiteSpace (c : ascii) : bool :=
  let n := code c in
  ((9 <=? n) && (n <=? 13)) || (n =? 32) || (n =? 160).

Definition trim (cs : list ascii) : list ascii :=
  dropWhileEnd isWhiteSpace (dropWhile isWhiteSpace cs).

Definition lowerChar (c : ascii) : ascii :=
  let n := code c in
  if (65 <=? n) && (n <=? 90) then ascii_of_N (Z.to_N (n + 32)) else c.

(** [s.toLowerCase()] on code units below 128. *)
Definition toLowerCase (s : string) : string := str (map lowerChar (chars s)).

(** *** Conversions from strings *)

(** [BigInt(s)] for a string: [StringToBigInt] trims white space, reads
    the empty string as zero, a decimal literal with an optional sign, or
    an unsigned literal with a [0x], [0o] or [0b] prefix.  [None] is the
    [SyntaxError]. *)
Definition BigInt (s : string) : option Z :=
  match trim (chars s) with
  | [] => Some 0
  | c :: rest =>
      if Ascii.eqb c "+" then parseNonEmptyDigits 10 rest
      else if Ascii.eqb c "-" then option_map Z.opp (parseNonEmptyDigits 10 rest)
      else
        match rest with
        | p :: ds =>
            if Ascii.eqb c "0" && (Ascii.eqb p "x" || Ascii.eqb p "X")
            then parseNonEmptyDigits 16 ds
            else if Ascii.eqb c "0" && (Ascii.eqb p "o" || Ascii.eqb p "O")
            then parseNonEmptyDigits 8 ds
            else if Ascii.eqb c "0" && (Ascii.eqb p "b" || Ascii.eqb p "B")
            then parseNonEmptyDigits 2 ds
            else parseDigits 10 (c :: rest) 0
        | [] => parseDigits 10 [c] 0
        end
  end.

Fixpoint takeWhile {A} (p : A -> bool) (l : list A) : list A :=
  match l with
  | [] => []
  | x :: l' => if p x then x :: takeWhile p l' else []
  end.

(** [parseInt(s, 16)]: leading white space and a sign are skipped, then an
    optional [0x], then the longest run of hexadecimal digits is read;
    [None] is [NaN]. *)
Definition parseInt16 (s : string) : option Z :=
  let cs := dropWhile isWhiteSpace (chars s) in
  let '(neg, cs) :=
    match cs with
    | c :: rest =>
        if Ascii.eqb c "-" then (true, rest)
        else if Ascii.eqb c "+" then (false, rest)
        else (false, cs)
    | [] => (false, cs)
    end in
  let cs :=
    match cs with
    | c :: p :: rest =>
        if Ascii.eqb c "0" && (Ascii.eqb p "x" || Ascii.eqb p "X") then rest else cs
    | _ => cs
    end in
  match parseNonEmptyDigits 16 (takeWhile (isDigitIn 16) cs) with
  | Some n => Some (if neg then - n else n)
  | None => None
  end.

End JS.

(** ** Results of functions that may throw *)

(** The exceptions the sources raise or let through; each carries its
    message.  [Rejection] is a promise rejected by the outside world. *)
Inductive Exn : Type :=
| Error (message : string)
| SyntaxError (message : string)
| TypeError (message : string)
| RangeError (message : string)
| Rejection (message : string).

(** [error instanceof Error ? error.message : String(error)]. *)
Definition exnMessage (e : Exn) : string :=
  match e with
  | Error m | SyntaxError m | TypeError m | RangeError m | Rejection m => m
  end.

(** [Exit] is [process.exit(code)]. *)
Inductive Result (A : Type) : Type :=
| Ok (a : A)
| Throw (e : Exn)
| Exit (code : Z).

Arguments Ok {A} a.
Arguments Throw {A} e.
Arguments Exit {A} code.

Definition bindR {A B} (r : Result A) (k : A -> Result B) : Result B :=
  match r with
  | Ok a => k a
  | Throw e => Throw e
  | Exit c => Exit c
  end.

(** [BigInt(s)], throwing where the string is no integer literal. *)
Definition toBigInt (s : string) : Result Z :=
  match JS.BigInt s with
  | Some n => Ok n
  | None => Throw (SyntaxError ("Cannot convert " ++ s ++ " to a BigInt"))
  end.

Definition Hex : Type := string.

(** ** config.ts *)

Module Config.

Definition POLYGON_CHAIN_ID : Z := 137.

Definition LIMIT_ORDER_PROTOCOL_ADDRESS : Hex :=
  "0x111111125421ca6dc452d289314280a0f8842a65".

Record TokenInfo : Type := {
  address : Hex;
  decimals : nat;
  symbol : string
}.

Definition USDC : TokenInfo :=
  {| address := "0x3c499c542cEF5E3811e1192ce70d8cC03d5c3359";
     decimals := 6; symbol := "USDC" |}.

Definition USDT : TokenInfo :=
  {| address := "0xc2132D05D31c914a87C6611C10748AEb04B58e8F";
     decimals := 6; symbol := "USDT" |}.

Definition BRLA : TokenInfo :=
  {| address := "0xE6A537a407488807F0bbeb0038B79004f19DDDFb";
     decimals := 18; symbol := "BRLA" |}.

(** [Object.values(TOKENS)], in declaration order. *)
Definition TOKENS : list TokenInfo := [USDC; USDT; BRLA].

Record OrderConfig : Type := {
  makerAsset : TokenInfo;
  takerAsset : TokenInfo;
  expirationMinutes : Z
}.

Definition ORDER_CONFIG : OrderConfig :=
  {| makerAsset := USDC; takerAsset := BRLA; expirationMinutes := 60 |}.

Definition getTokenByAddress (addr : string) : option TokenInfo :=
  let lowerAddress := JS.toLowerCase addr in
  find (fun token => String.eqb (JS.toLowerCase (address token)) lowerAddress)
       TOKENS.

(** An absent or empty [symbol] is falsy. *)
Definition formatTokenAmount
    (amount : Z) (decimals : nat) (symbol : option string) : string :=
  let divisor := 10 ^ Z.of_nat decimals in
  let whole := Z.quot amount divisor in
  let fraction := Z.rem amount divisor in
  let fractionStr :=
    JS.stripTrailingZeros (JS.padStart decimals "0" (JS.toString 10 fraction)) in
  let formatted :=
    match fractionStr with
    | EmptyString => JS.toString 10 whole
    | _ => JS.toString 10 whole ++ "." ++ fractionStr
    end in
  match symbol with
  | Some (String c s) => formatted ++ " " ++ String c s
  | _ => formatted
  end.

End Config.

(** The reading of a formatted amount the round trip of the specification
    refers to: [W] or [W.F], with [F] of at most [decimals] digits padded
    with zeros on the right, is the integer [W * 10^decimals + F].  It is
    what viem's [parseUnits] computes on such inputs. *)
Module AmountReading.

Fixpoint splitDot (cs : list ascii) : list ascii * option (list ascii) :=
  match cs with
  | [] => ([], None)
  | c :: cs' =>
      if Ascii.eqb c "." then ([], Some cs')
      else let '(i, f) := splitDot cs' in (c :: i, f)
  end.

Definition parseTokenAmount (s : string) (decimals : nat) : option Z :=
  let '(integer, fraction) := splitDot (JS.chars s) in
  let fraction := match fraction with Some f => f | None => [] end in
  if (decimals <? List.length fraction)%nat then None
  else
    match integer with
    | [] => None
    | _ =>
        JS.parseDigits 10
          (integer ++ JS.chars (JS.padEnd decimals "0" (JS.str fraction)))%list 0
    end.

(** The digits after the decimal point, when there is one. *)
Definition fractionalPart (s : string) : option string :=
  option_map JS.str (snd (splitDot (JS.chars s))).

Definition endsWithZero (s : string) : bool :=
  match rev (JS.chars s) with
  | c :: _ => Ascii.eqb c "0"
  | [] => false
  end.

End AmountReading.

(** ** The outside world *)

(** viem's [Account] and [WalletClient], as far as the sources look into
    them: the address of an account, and whether a wallet client has one. *)
Record Account : Type := { accountAddress : Hex }.

Record WalletClient : Type := { account : option Account }.

(** [receipt.status] is the string ["success"] or ["reverted"]. *)
Record TransactionReceipt : Type := { status : string }.

(** A response of the filler service: [response.ok],
    [response.statusText] and the string properties of the JSON object
    [response.json()] resolves to ([None] when the body is no JSON). *)
Record HttpResponse : Type := {
  ok : bool;
  statusText : string;
  json : option (list (string * string))
}.

(** The SDK's [LimitOrder] is a data class: the fields it was given and the
    salt drawn when it was built.  A [MakerTraits] object is identified
    with the uint256 it encodes. *)
Module LimitOrder.
Record t : Type := {
  salt : Z;
  maker : Hex;
  receiver : Hex;
  makerAsset : Hex;
  takerAsset : Hex;
  makingAmount : Z;
  takingAmount : Z;
  makerTraits : Z
}.
End LimitOrder.

(** [order.getTypedData(chainId)]: the EIP-712 payload of an order. *)
Record TypedData : Type := {
  domainChainId : Z;
  message : LimitOrder.t
}.

(** The calls that leave the process.  [R] is the type the awaited promise
    resolves to. *)
Inductive Call : Type -> Type :=
| ReadBalanceOf (token owner : Hex) : Call Z
| ReadAllowance (token owner spender : Hex) : Call Z
| WriteApprove (token spender : Hex) (amount : Z) (from : Account) : Call Hex
| WaitForTransactionReceipt (hash : Hex) : Call TransactionReceipt
| SignTypedData (from : Account) (data : TypedData) : Call Hex
| EstimateGas (from to data : Hex) : Call Z
| SendTransaction (to data : Hex) (from : Account) (gas : Z) : Call Hex
| FetchQuote (url amountUSDC : string) : Call HttpResponse
| DateNow : Call Z
| MathRandom40 : Call Z
| BuildSalt : Call Z.

Inductive Outcome (R : Type) : Type :=
| Resolved (r : R)
| Rejected (message : string).

Arguments Resolved {R} r.
Arguments Rejected {R} message.

(** A world answers every call and moves on. *)
Class World (W : Type) : Type :=
  perform : forall R : Type, Call R -> W -> Outcome R * W.

Inductive Event : Type :=
| Performed (R : Type) (c : Call R) (o : Outcome R)
| Logged (line : string).

Arguments Performed {R} c o.

(** What running a computation gives: its result, the world afterwards and
    the calls and console lines it produced, in order. *)
Record Ran (W A : Type) : Type := {
  result : Result A;
  after : W;
  events : list Event
}.

Arguments result {W A} _.
Arguments after {W A} _.
Arguments events {W A} _.

(** State, exceptions and a log of what was done. *)
Definition M (W A : Type) : Type := W -> Ran W A.

Definition ret {W A} (a : A) : M W A :=
  fun w => {| result := Ok a; after := w; events := [] |}.

Definition lift {W A} (r : Result A) : M W A :=
  fun w => {| result := r; after := w; events := [] |}.

Definition throw {W A} (e : Exn) : M W A := lift (Throw e).

Definition processExit {W A} (c : Z) : M W A := lift (Exit c).

Definition bind {W A B} (m : M W A) (k : A -> M W B) : M W B :=
  fun w =>
    let ran := m w in
    match result ran with
    | Ok a =>
        let ran' := k a (after ran) in
        {| result := result ran';
           after := after ran';
           events := (events ran ++ events ran')%list |}
    | Throw e => {| result := Throw e; after := after ran; events := events ran |}
    | Exit c => {| result := Exit c; after := after ran; events := events ran |}
    end.

(** [await] of a call: the world answers, the call and its outcome are
    recorded, a rejection is thrown. *)
Definition await {W} `{World W} {R} (c : Call R) : M W R :=
  fun w =>
    let '(o, w') := perform R c w in
    {| result :=
         match o with
         | Resolved r => Ok r
         | Rejected m => Throw (Rejection m)
         end;
       after := w';
       events := [Performed c o] |}.

(** [console.log(line)]. *)
Definition consoleLog {W} (line : string) : M W unit :=
  fun w => {| result := Ok tt; after := w; events := [Logged line] |}.

(** [try { body } catch (error) { handler }]. *)
Definition tryCatch {W A} (body : M W A) (handler : Exn -> M W A) : M W A :=
  fun w =>
    let ran := body w in
    match result ran with
    | Throw e =>
        let ran' := handler e (after ran) in
        {| result := result ran';
           after := after ran';
           events := (events ran ++ events ran')%list |}
    | _ => ran
    end.

Notation "x <- m ;; k" := (bind m (fun x => k))
  (at level 61, m at next level, right associativity).
Notation "m ;;; k" := (bind m (fun _ => k))
  (at level 61, right associativity).

(** The pure functions of viem and of the 1inch SDK the sources call. *)
Record DecodedError : Type := {
  errorName : string;
  (** [decoded.args], each argument by its [String(a)] rendering *)
  args : option (list string)
}.

(** ** lib/abi.ts *)

Module Abi.

(** A parameter is a name with a type; a tuple lists the name and type of
    its components. *)
Inductive AbiParameter : Type :=
| Param (name type : string)
| Tuple (name : string) (components : list (string * string)).

Inductive AbiItem : Type :=
| AbiFunction (name : string) (inputs outputs : list AbiParameter)
              (stateMutability : string)
| AbiError (name : string) (inputs : list AbiParameter).

Definition LIMIT_ORDER_PROTOCOL_ABI : list AbiItem :=
  [ AbiFunction "fillOrder"
      [ Tuple "order"
          [ ("salt", "uint256"); ("maker", "uint256");
            ("receiver", "uint256"); ("makerAsset", "uint256");
            ("takerAsset", "uint256"); ("makingAmount", "uint256");
            ("takingAmount", "uint256"); ("makerTraits", "uint256") ];
        Param "r" "bytes32"; Param "vs" "bytes32";
        Param "amount" "uint256"; Param "takerTraits" "uint256" ]
      [ Param "" "uint256"; Param "" "uint256"; Param "" "bytes32" ]
      "payable";
    AbiFunction "remainingInvalidatorForOrder"
      [ Param "maker" "address"; Param "orderHash" "bytes32" ]
      [ Param "" "uint256" ]
      "view";
    AbiError "BadSignature" [];
    AbiError "OrderExpired" [];
    AbiError "InvalidatedOrder" [];
    AbiError "TakingAmountExceeded" [];
    AbiError "MakingAmountTooLow" [];
    AbiError "PrivateOrder" [];
    AbiError "PredicateIsNotTrue" [];
    AbiError "TransferFromMakerToTakerFailed" [];
    AbiError "TransferFromTakerToMakerFailed" [] ].

(** The custom errors the ABI lists, with the number of their inputs. *)
Definition knownErrors (abi : list AbiItem) : list (string * nat) :=
  flat_map (fun item =>
              match item with
              | AbiError name inputs => [(name, List.length inputs)]
              | AbiFunction _ _ _ _ => []
              end) abi.

End Abi.

(** The order struct [fillOrder] takes. *)
Module OrderStruct.
Record t : Type := {
  salt : Z;
  maker : Z;
  receiver : Z;
  makerAsset : Z;
  takerAsset : Z;
  makingAmount : Z;
  takingAmount : Z;
  makerTraits : Z
}.
End OrderStruct.

(** viem's [maxUint256]. *)
Definition maxUint256 : Z := 2 ^ 256 - 1.

Class Libraries : Type := {
  (** viem *)
  parseUnits : string -> nat -> Result Z;
  formatUnits : Z -> nat -> string;
  privateKeyToAccount : Hex -> Result Account;
  encodeFillOrder :
    list Abi.AbiItem -> OrderStruct.t -> Hex -> Hex -> Z -> Z -> Result Hex;
  decodeErrorResult : list Abi.AbiItem -> Hex -> Result DecodedError;
  (** 1inch limit-order SDK *)
  SDKAddress : Hex -> Result Hex;
  MakerTraits_default : Z;
  withExpiration : Z -> Z -> Result Z;
  withNonce : Z -> Z -> Result Z
}.

(** [process.env], read once at start-up: [config.ts] refuses to load
    without the two URLs. *)
Class Environment : Type := {
  POLYGON_RPC_URL : string;
  FILLER_API_URL : string;
  MAKER_PRIVATE_KEY : option string;
  TAKER_PRIVATE_KEY : option string
}.

(** ** lib/order.ts *)

Module Order.

Module OrderParams.
Record t : Type := {
  makerAsset : Hex;
  takerAsset : Hex;
  makingAmount : Z;
  takingAmount : Z;
  maker : Hex;
  receiver : option Hex;
  expirationMinutes : option Z
}.
End OrderParams.

(** What [order.build()] returns.  The numeric fields stand for their
    value: [toString()] renders a bigint in decimal and leaves a decimal
    string as it is. *)
Module OrderData.
Record t : Type := {
  salt : Z;
  maker : Hex;
  receiver : Hex;
  makerAsset : Hex;
  takerAsset : Hex;
  makingAmount : Z;
  takingAmount : Z;
  makerTraits : Z
}.
End OrderData.

Module SignedOrder.
Record t : Type := {
  order : LimitOrder.t;
  signature : Hex;
  orderHash : string;
  orderData : OrderData.t
}.
End SignedOrder.

Module OrderFields.
Record t : Type := {
  salt : string;
  maker : string;
  receiver : string;
  makerAsset : string;
  takerAsset : string;
  makingAmount : string;
  takingAmount : string;
  makerTraits : string
}.
End OrderFields.

Module OrderOutput.
Record t : Type := {
  orderHash : string;
  signature : Hex;
  order : OrderFields.t
}.
End OrderOutput.

Record CompactSignature : Type := { r : Hex; vs : Hex }.

Definition build (order : LimitOrder.t) : OrderData.t :=
  {| OrderData.salt := LimitOrder.salt order;
     OrderData.maker := LimitOrder.maker order;
     OrderData.receiver := LimitOrder.receiver order;
     OrderData.makerAsset := LimitOrder.makerAsset order;
     OrderData.takerAsset := LimitOrder.takerAsset order;
     OrderData.makingAmount := LimitOrder.makingAmount order;
     OrderData.takingAmount := LimitOrder.takingAmount order;
     OrderData.makerTraits := LimitOrder.makerTraits order |}.

Definition getTypedData (order : LimitOrder.t) (chainId : Z) : TypedData :=
  {| domainChainId := chainId; message := order |}.

Definition computeOrderHash (order : LimitOrder.t) : string :=
  "0x" ++ JS.padStart 64 "0" (JS.toString 16 (LimitOrder.salt order)).

Definition formatOrderOutput (signedOrder : SignedOrder.t) : OrderOutput.t :=
  let signature := SignedOrder.signature signedOrder in
  let orderHash := SignedOrder.orderHash signedOrder in
  let orderData := SignedOrder.orderData signedOrder in
  {| OrderOutput.orderHash := orderHash;
     OrderOutput.signature := signature;
     OrderOutput.order :=
       {| OrderFields.salt := JS.toString 10 (OrderData.salt orderData);
          OrderFields.maker := OrderData.maker orderData;
          OrderFields.receiver := OrderData.receiver orderData;
          OrderFields.makerAsset := OrderData.makerAsset orderData;
          OrderFields.takerAsset := OrderData.takerAsset orderData;
          OrderFields.makingAmount :=
            JS.toString 10 (OrderData.makingAmount orderData);
          OrderFields.takingAmount :=
            JS.toString 10 (OrderData.takingAmount orderData);
          OrderFields.makerTraits :=
            JS.toString 10 (OrderData.makerTraits orderData) |} |}.

(** [v === 28], where [v] may be [NaN]. *)
Definition is28 (v : option Z) : bool :=
  match v with Some n => n =? 28 | None => false end.

Definition parseSignatureToCompact (signature : Hex) : Result CompactSignature :=
  let sig :=
    if JS.startsWith signature "0x" then JS.sliceFrom 2 signature
    else signature in
  if negb (Nat.eqb (JS.length sig) 130) then
    Throw (Error ("Invalid signature length: expected 130 hex chars, got "
                  ++ JS.toString 10 (Z.of_nat (JS.length sig))))
  else
    let r := "0x" ++ JS.slice 0 64 sig in
    let s := JS.slice 64 128 sig in
    let v := JS.parseInt16 (JS.slice 128 130 sig) in
    bindR (toBigInt ("0x" ++ s)) (fun sBigInt =>
    let vsBigInt :=
      if is28 v then Z.lor sBigInt (Z.shiftl 1 255) else sBigInt in
    let vs := "0x" ++ JS.padStart 64 "0" (JS.toString 16 vsBigInt) in
    Ok {| r := r; vs := vs |}).

Section Effects.

Context {lib : Libraries} {W : Type} `{World W}.

Definition buildMakerTraits (expirationMinutes : Z) : M W Z :=
  now <- await DateNow ;;
  let expirationTimestamp := now / 1000 + expirationMinutes * 60 in
  nonce <- await MathRandom40 ;;
  traits <- lift (withExpiration MakerTraits_default expirationTimestamp) ;;
  lift (withNonce traits nonce).

Definition createLimitOrder (params : OrderParams.t) : M W LimitOrder.t :=
  let expirationMinutes :=
    match OrderParams.expirationMinutes params with
    | Some m => m
    | None => 60 * 24
    end in
  makerTraits <- buildMakerTraits expirationMinutes ;;
  makerAsset <- lift (SDKAddress (OrderParams.makerAsset params)) ;;
  takerAsset <- lift (SDKAddress (OrderParams.takerAsset params)) ;;
  maker <- lift (SDKAddress (OrderParams.maker params)) ;;
  receiver <- lift (SDKAddress
                      match OrderParams.receiver params with
                      | Some a => a
                      | None => OrderParams.maker params
                      end) ;;
  salt <- await BuildSalt ;;
  ret {| LimitOrder.salt := salt;
         LimitOrder.maker := maker;
         LimitOrder.receiver := receiver;
         LimitOrder.makerAsset := makerAsset;
         LimitOrder.takerAsset := takerAsset;
         LimitOrder.makingAmount := OrderParams.makingAmount params;
         LimitOrder.takingAmount := OrderParams.takingAmount params;
         LimitOrder.makerTraits := makerTraits |}.

Definition signOrder (order : LimitOrder.t) (walletClient : WalletClient)
  : M W Hex :=
  match account walletClient with
  | None => throw (Error "Wallet client must have an account")
  | Some acct =>
      let typedData := getTypedData order Config.POLYGON_CHAIN_ID in
      await (SignTypedData acct typedData)
  end.

Definition generateSignedOrder
    (params : OrderParams.t) (walletClient : WalletClient)
  : M W SignedOrder.t :=
  order <- createLimitOrder params ;;
  signature <- signOrder order walletClient ;;
  let orderHash := computeOrderHash order in
  let orderData := build order in
  ret {| SignedOrder.order := order;
         SignedOrder.signature := signature;
         SignedOrder.orderHash := orderHash;
         SignedOrder.orderData := orderData |}.

End Effects.

End Order.

(** ** lib/quote.ts, with the rate written in the source *)

Module QuoteHardcoded.

Record QuoteResult : Type := {
  inputAmount : Z;
  outputAmount : Z;
  inputToken : Config.TokenInfo;
  outputToken : Config.TokenInfo
}.

Section Effects.

Context {W : Type}.

Definition fetchQuoteFromApi (inputAmountRaw : Z) : M W Z :=
  let rateNumerator := 5 in
  let decimalAdjustment := 10 ^ 12 in
  ret (inputAmountRaw * rateNumerator * decimalAdjustment).

Definition getQuote (inputAmountRaw : Z) : M W QuoteResult :=
  let inputToken := Config.makerAsset Config.ORDER_CONFIG in
  let outputToken := Config.takerAsset Config.ORDER_CONFIG in
  outputAmount <- fetchQuoteFromApi inputAmountRaw ;;
  ret {| inputAmount := inputAmountRaw;
         outputAmount := outputAmount;
         inputToken := inputToken;
         outputToken := outputToken |}.

End Effects.

End QuoteHardcoded.

(** ** lib/quote.ts, asking the filler service *)

Module QuoteApi.

Record QuoteResult : Type := {
  inputAmount : Z;
  outputAmount : Z;
  (** [data.rate], [None] when the response has none *)
  rate : option string;
  inputToken : Config.TokenInfo;
  outputToken : Config.TokenInfo
}.

Fixpoint property (name : string) (object : list (string * string))
  : option string :=
  match object with
  | [] => None
  | (k, v) :: object' => if String.eqb k name then Some v else property name object'
  end.

Section Effects.

Context {lib : Libraries} {env : Environment} {W : Type} `{World W}.

(** [await response.json()]. *)
Definition responseJson (response : HttpResponse)
  : M W (list (string * string)) :=
  match json response with
  | Some object => ret object
  | None => throw (SyntaxError "Unexpected end of JSON input")
  end.

(** [BigInt(x)] of a property that may be absent. *)
Definition propertyToBigInt (x : option string) : M W Z :=
  match x with
  | Some s => lift (toBigInt s)
  | None => throw (TypeError "Cannot convert undefined to a BigInt")
  end.

Definition getQuote (inputAmountRaw : Z) : M W QuoteResult :=
  let inputToken := Config.makerAsset Config.ORDER_CONFIG in
  let outputToken := Config.takerAsset Config.ORDER_CONFIG in
  let amountUSDC := formatUnits inputAmountRaw (Config.decimals inputToken) in
  response <- await (FetchQuote (FILLER_API_URL ++ "/quote") amountUSDC) ;;
  if negb (ok response) then
    error <- responseJson response ;;
    throw (Error ("Quote failed: " ++
                  match property "error" error with
                  | Some e => e
                  | None => statusText response
                  end))
  else
    data <- responseJson response ;;
    inputAmount <- propertyToBigInt (property "inputAmount" data) ;;
    outputAmount <- propertyToBigInt (property "expectedOutput" data) ;;
    ret {| inputAmount := inputAmount;
           outputAmount := outputAmount;
           rate := property "rate" data;
           inputToken := inputToken;
           outputToken := outputToken |}.

End Effects.

End QuoteApi.

(** ** lib/blockchain.ts *)

Module Blockchain.

Record ApprovalResult : Type := {
  approved : bool;
  txHash : option Hex
}.

Record BalanceCheck : Type := {
  sufficient : bool;
  balance : Z
}.

Section Effects.

Context {lib : Libraries} {W : Type} `{World W}.

Definition createAccountFromPrivateKey (privateKey : Hex) : Result Account :=
  privateKeyToAccount privateKey.

Definition createPolygonWalletClient (acct : Account) : WalletClient :=
  {| account := Some acct |}.

Definition getTokenBalance (tokenAddress owner : Hex) : M W Z :=
  balance <- await (ReadBalanceOf tokenAddress owner) ;;
  ret balance.

Definition getTokenAllowance (tokenAddress owner spender : Hex) : M W Z :=
  allowance <- await (ReadAllowance tokenAddress owner spender) ;;
  ret allowance.

(** [amount] defaults to [maxUint256]. *)
Definition approveToken
    (walletClient : WalletClient) (tokenAddress spender : Hex)
    (amount : option Z) : M W Hex :=
  let amount := match amount with Some a => a | None => maxUint256 end in
  match account walletClient with
  | None => throw (Error "Wallet client must have an account")
  | Some acct =>
      hash <- await (WriteApprove tokenAddress spender amount acct) ;;
      await (WaitForTransactionReceipt hash) ;;;
      ret hash
  end.

Definition ensureTokenApproval
    (walletClient : WalletClient) (tokenAddress owner : Hex)
    (requiredAmount : Z) : M W ApprovalResult :=
  currentAllowance <-
    getTokenAllowance tokenAddress owner Config.LIMIT_ORDER_PROTOCOL_ADDRESS ;;
  if currentAllowance >=? requiredAmount then
    ret {| approved := true; txHash := None |}
  else
    txHash <- approveToken walletClient tokenAddress
                Config.LIMIT_ORDER_PROTOCOL_ADDRESS None ;;
    ret {| approved := true; txHash := Some txHash |}.

Definition validateSufficientBalance
    (tokenAddress owner : Hex) (requiredAmount : Z) : M W BalanceCheck :=
  balance <- getTokenBalance tokenAddress owner ;;
  ret {| sufficient := balance >=? requiredAmount; balance := balance |}.

End Effects.

End Blockchain.

(** A string is truthy unless it is empty. *)
Definition truthy (s : option string) : bool :=
  match s with
  | Some (String _ _) => true
  | _ => false
  end.

(** [`${x}`] of a string that may be [undefined]. *)
Definition display (s : option string) : string :=
  match s with Some v => v | None => "undefined" end.

(** ** lib/generate-order.ts *)

Module GenerateOrder.

Record GenerateOrderOptions : Type := {
  makerPrivateKey : Hex;
  amountStr : string;
  skipApproval : option bool;
  silent : option bool
}.

Record GenerateOrderResult : Type := {
  order : Order.OrderOutput.t;
  quote : QuoteApi.QuoteResult;
  makerAddress : Hex
}.

Section Effects.

Context {lib : Libraries} {env : Environment} {W : Type} `{World W}.

Definition log (silent : bool) (line : string) : M W unit :=
  if negb silent then consoleLog line else ret tt.

Definition generateOrder (options : GenerateOrderOptions)
  : M W GenerateOrderResult :=
  let makerPrivateKey := makerPrivateKey options in
  let amountStr := amountStr options in
  let skipApproval :=
    match skipApproval options with Some b => b | None => false end in
  let silent := match silent options with Some b => b | None => false end in
  let makerToken := Config.makerAsset Config.ORDER_CONFIG in
  let takerToken := Config.takerAsset Config.ORDER_CONFIG in
  let expirationMinutes := Config.expirationMinutes Config.ORDER_CONFIG in
  let fmt amount (token : Config.TokenInfo) :=
    Config.formatTokenAmount amount (Config.decimals token)
                             (Some (Config.symbol token)) in
  makingAmountRaw <- lift (parseUnits amountStr (Config.decimals makerToken)) ;;
  if makingAmountRaw <=? 0 then
    throw (Error "Amount must be greater than zero.")
  else
  log silent "Getting quote..." ;;;
  quote <- QuoteApi.getQuote makingAmountRaw ;;
  let makingAmount := QuoteApi.inputAmount quote in
  let takingAmount := QuoteApi.outputAmount quote in
  log silent ("      Input:  " ++ fmt makingAmount makerToken) ;;;
  log silent ("      Output: " ++ fmt takingAmount takerToken) ;;;
  log silent ("      Rate:   " ++ display (QuoteApi.rate quote) ++ " BRLA/USDC") ;;;
  makerAccount <- lift (Blockchain.createAccountFromPrivateKey makerPrivateKey) ;;
  let walletClient := Blockchain.createPolygonWalletClient makerAccount in
  log silent "" ;;;
  log silent ("Maker Address: " ++ accountAddress makerAccount) ;;;
  log silent ("Order: " ++ Config.symbol makerToken ++ " -> "
              ++ Config.symbol takerToken) ;;;
  log silent ("Expiration: " ++ JS.toString 10 expirationMinutes ++ " minutes") ;;;
  log silent "" ;;;
  log silent "Checking maker balance..." ;;;
  check <- Blockchain.validateSufficientBalance
             (Config.address makerToken) (accountAddress makerAccount)
             makingAmount ;;
  let sufficient := Blockchain.sufficient check in
  let balance := Blockchain.balance check in
  log silent ("      Balance: " ++ fmt balance makerToken) ;;;
  if negb sufficient then
    throw (Error ("Insufficient " ++ Config.symbol makerToken
                  ++ " balance. Required: " ++ fmt makingAmount makerToken
                  ++ ", Available: " ++ fmt balance makerToken))
  else
  log silent "      Balance OK" ;;;
  (if negb skipApproval then
     log silent "" ;;;
     log silent "Checking/setting approval..." ;;;
     approval <- Blockchain.ensureTokenApproval walletClient
                   (Config.address makerToken) (accountAddress makerAccount)
                   makingAmount ;;
     let txHash := Blockchain.txHash approval in
     if truthy txHash then
       log silent ("      Approval transaction: " ++ display txHash)
     else
       log silent "      Already approved"
   else ret tt) ;;;
  log silent "" ;;;
  log silent "Generating and signing order..." ;;;
  let orderParams :=
    {| Order.OrderParams.makerAsset := Config.address makerToken;
       Order.OrderParams.takerAsset := Config.address takerToken;
       Order.OrderParams.makingAmount := makingAmount;
       Order.OrderParams.takingAmount := takingAmount;
       Order.OrderParams.maker := accountAddress makerAccount;
       Order.OrderParams.receiver := None;
       Order.OrderParams.expirationMinutes := Some expirationMinutes |} in
  signedOrder <- Order.generateSignedOrder orderParams walletClient ;;
  let order := Order.formatOrderOutput signedOrder in
  log silent "      Order signed successfully" ;;;
  ret {| order := order;
         quote := quote;
         makerAddress := accountAddress makerAccount |}.

End Effects.

End GenerateOrder.

(** ** test/fill.ts *)

Module Fill.

Record FillResult : Type := {
  success : bool;
  txHash : option Hex;
  error : option string
}.

Definition buildOrderStruct (order : Order.OrderFields.t)
  : Result OrderStruct.t :=
  bindR (toBigInt (Order.OrderFields.salt order)) (fun salt =>
  bindR (toBigInt (Order.OrderFields.maker order)) (fun maker =>
  bindR (toBigInt (Order.OrderFields.receiver order)) (fun receiver =>
  bindR (toBigInt (Order.OrderFields.makerAsset order)) (fun makerAsset =>
  bindR (toBigInt (Order.OrderFields.takerAsset order)) (fun takerAsset =>
  bindR (toBigInt (Order.OrderFields.makingAmount order)) (fun makingAmount =>
  bindR (toBigInt (Order.OrderFields.takingAmount order)) (fun takingAmount =>
  bindR (toBigInt (Order.OrderFields.makerTraits order)) (fun makerTraits =>
  Ok {| OrderStruct.salt := salt;
        OrderStruct.maker := maker;
        OrderStruct.receiver := receiver;
        OrderStruct.makerAsset := makerAsset;
        OrderStruct.takerAsset := takerAsset;
        OrderStruct.makingAmount := makingAmount;
        OrderStruct.takingAmount := takingAmount;
        OrderStruct.makerTraits := makerTraits |})))))))).

Section Pure.

Context {lib : Libraries}.

Definition buildFillOrderData (order : Order.OrderOutput.t) (takingAmount : Z)
  : Result Hex :=
  bindR (buildOrderStruct (Order.OrderOutput.order order)) (fun orderStruct =>
  bindR (Order.parseSignatureToCompact (Order.OrderOutput.signature order))
        (fun compact =>
  encodeFillOrder Abi.LIMIT_ORDER_PROTOCOL_ABI orderStruct
                  (Order.r compact) (Order.vs compact) takingAmount 0)).

Definition decodeRevertError (errorData : option string) : string :=
  match errorData with
  | None => "Unknown error (no revert data)"
  | Some data =>
      if String.eqb data "" || String.eqb data "0x" then
        "Unknown error (no revert data)"
      else
        match decodeErrorResult Abi.LIMIT_ORDER_PROTOCOL_ABI data with
        | Ok decoded =>
            match args decoded with
            | Some (a :: rest) =>
                errorName decoded ++ "(" ++ String.concat ", " (a :: rest) ++ ")"
            | _ => errorName decoded ++ "()"
            end
        | _ =>
            let selector := JS.slice 0 10 data in
            "Unknown error with selector " ++ selector
        end
  end.

End Pure.

Section Effects.

Context {lib : Libraries} {W : Type} `{World W}.

Definition executeFill (order : Order.OrderOutput.t) (takerPrivateKey : Hex)
  : M W FillResult :=
  takerAccount <- lift (Blockchain.createAccountFromPrivateKey takerPrivateKey) ;;
  let walletClient := Blockchain.createPolygonWalletClient takerAccount in
  let fields := Order.OrderOutput.order order in
  takingAmount <- lift (toBigInt (Order.OrderFields.takingAmount fields)) ;;
  takerAsset <- lift (toBigInt (Order.OrderFields.takerAsset fields)) ;;
  let takerAssetAddress :=
    "0x" ++ JS.padStart 40 "0" (JS.toString 16 takerAsset) in
  match Config.getTokenByAddress takerAssetAddress with
  | None =>
      ret {| success := false; txHash := None;
             error := Some ("Unknown taker asset: " ++ takerAssetAddress) |}
  | Some takerToken =>
      check <- Blockchain.validateSufficientBalance
                 (Config.address takerToken) (accountAddress takerAccount)
                 takingAmount ;;
      consoleLog ("Taker balance: " ++
                  Config.formatTokenAmount (Blockchain.balance check)
                    (Config.decimals takerToken)
                    (Some (Config.symbol takerToken))) ;;;
      if negb (Blockchain.sufficient check) then
        ret {| success := false; txHash := None;
               error := Some ("Insufficient " ++ Config.symbol takerToken
                              ++ " balance") |}
      else
      approval <- Blockchain.ensureTokenApproval walletClient
                    (Config.address takerToken) (accountAddress takerAccount)
                    takingAmount ;;
      let approvalTx := Blockchain.txHash approval in
      (if truthy approvalTx then
         consoleLog ("Approval tx: " ++ display approvalTx)
       else ret tt) ;;;
      fillData <- lift (buildFillOrderData order takingAmount) ;;
      tryCatch
        (gasEstimate <- await (EstimateGas (accountAddress takerAccount)
                                 Config.LIMIT_ORDER_PROTOCOL_ADDRESS fillData) ;;
         txHash <- await (SendTransaction Config.LIMIT_ORDER_PROTOCOL_ADDRESS
                            fillData takerAccount
                            (gasEstimate + Z.quot gasEstimate 10)) ;;
         receipt <- await (WaitForTransactionReceipt txHash) ;;
         if String.eqb (status receipt) "success" then
           ret {| success := true; txHash := Some txHash; error := None |}
         else
           ret {| success := false; txHash := Some txHash;
                  error := Some "Transaction reverted" |})
        (fun error =>
           let message := exnMessage error in
           ret {| success := false; txHash := None; error := Some message |})
  end.

End Effects.

End Fill.

(** ** The fill test that builds its own order (hard-coded quote) *)

Module FillTest.

Definition TEST_MAKING_AMOUNT : string := "1".

Section Effects.

Context {lib : Libraries} {env : Environment} {W : Type} `{World W}.

Definition getRequiredEnv (name : string) (value : option string)
  : M W string :=
  if negb (truthy value) then
    consoleLog ("Error: " ++ name ++ " environment variable is required.") ;;;
    processExit 1
  else ret (display value).

Definition getMakerPrivateKey : M W Hex :=
  key <- getRequiredEnv "MAKER_PRIVATE_KEY" MAKER_PRIVATE_KEY ;;
  ret (if JS.startsWith key "0x" then key else "0x" ++ key).

Definition generateTestOrder : M W Order.OrderOutput.t :=
  makerPrivateKey <- getMakerPrivateKey ;;
  let makerToken := Config.makerAsset Config.ORDER_CONFIG in
  let takerToken := Config.takerAsset Config.ORDER_CONFIG in
  let expirationMinutes := Config.expirationMinutes Config.ORDER_CONFIG in
  let fmt amount (token : Config.TokenInfo) :=
    Config.formatTokenAmount amount (Config.decimals token)
                             (Some (Config.symbol token)) in
  makingAmountRaw <-
    lift (parseUnits TEST_MAKING_AMOUNT (Config.decimals makerToken)) ;;
  quote <- QuoteHardcoded.getQuote makingAmountRaw ;;
  makerAccount <- lift (Blockchain.createAccountFromPrivateKey makerPrivateKey) ;;
  let walletClient := Blockchain.createPolygonWalletClient makerAccount in
  check <- Blockchain.validateSufficientBalance
             (Config.address makerToken) (accountAddress makerAccount)
             (QuoteHardcoded.inputAmount quote) ;;
  consoleLog ("Maker balance: " ++ fmt (Blockchain.balance check) makerToken) ;;;
  if negb (Blockchain.sufficient check) then
    consoleLog ("Error: Maker has insufficient " ++ Config.symbol makerToken
                ++ " balance") ;;;
    consoleLog ("Required: "
                ++ fmt (QuoteHardcoded.inputAmount quote) makerToken) ;;;
    processExit 1
  else
  approval <- Blockchain.ensureTokenApproval walletClient
                (Config.address makerToken) (accountAddress makerAccount)
                (QuoteHardcoded.inputAmount quote) ;;
  let approvalTx := Blockchain.txHash approval in
  (if truthy approvalTx then
     consoleLog ("Maker approval tx: " ++ display approvalTx)
   else ret tt) ;;;
  let orderParams :=
    {| Order.OrderParams.makerAsset := Config.address makerToken;
       Order.OrderParams.takerAsset := Config.address takerToken;
       Order.OrderParams.makingAmount := QuoteHardcoded.inputAmount quote;
       Order.OrderParams.takingAmount := QuoteHardcoded.outputAmount quote;
       Order.OrderParams.maker := accountAddress makerAccount;
       Order.OrderParams.receiver := None;
       Order.OrderParams.expirationMinutes := Some expirationMinutes |} in
  signedOrder <- Order.generateSignedOrder orderParams walletClient ;;
  ret (Order.formatOrderOutput signedOrder).

End Effects.

End FillTest.

(** ** What a run did *)

(** Readings of the list of events a run produced. *)
Module Trace.

(** The balances the node answered with. *)
Definition balanceRead (e : Event) : list Z :=
  match e with
  | Performed c o =>
      match c in Call R return Outcome R -> list Z with
      | ReadBalanceOf _ _ =>
          fun o => match o with Resolved b => [b] | Rejected _ => [] end
      | _ => fun _ => []
      end o
  | Logged _ => []
  end.

(** The [approve] transactions submitted: token, spender, amount, sender. *)
Definition approval (e : Event) : list (Hex * Hex * Z * Account) :=
  match e with
  | Performed c _ =>
      match c with
      | WriteApprove token spender amount from => [(token, spender, amount, from)]
      | _ => []
      end
  | Logged _ => []
  end.

(** Whether the event belongs to the approval step or to signing. *)
Definition approvalOrSigning (e : Event) : bool :=
  match e with
  | Performed c _ =>
      match c with
      | ReadAllowance _ _ _ | WriteApprove _ _ _ _
      | WaitForTransactionReceipt _ | SignTypedData _ _ => true
      | _ => false
      end
  | Logged _ => false
  end.

(** The gas estimates the node answered with. *)
Definition gasEstimate (e : Event) : list Z :=
  match e with
  | Performed c o =>
      match c in Call R return Outcome R -> list Z with
      | EstimateGas _ _ _ =>
          fun o => match o with Resolved g => [g] | Rejected _ => [] end
      | _ => fun _ => []
      end o
  | Logged _ => []
  end.

(** The [gas] field of the transactions sent. *)
Definition gasLimit (e : Event) : list Z :=
  match e with
  | Performed c _ =>
      match c with
      | SendTransaction _ _ _ gas => [gas]
      | _ => []
      end
  | Logged _ => []
  end.

(** Whether the event is a transaction of any kind handed to the wallet. *)
Definition transaction (e : Event) : bool :=
  match e with
  | Performed c _ =>
      match c with
      | WriteApprove _ _ _ _ | SendTransaction _ _ _ _ => true
      | _ => false
      end
  | Logged _ => false
  end.

(** The receipt the event delivered, with the hash it was asked for. *)
Definition receipt (e : Event) : option (Hex * TransactionReceipt) :=
  match e with
  | Performed c o =>
      match c in Call R return Outcome R -> option (Hex * TransactionReceipt) with
      | WaitForTransactionReceipt hash =>
          fun o => match o with Resolved rc => Some (hash, rc) | Rejected _ => None end
      | _ => fun _ => None
      end o
  | Logged _ => None
  end.

Definition line (e : Event) : list string :=
  match e with
  | Performed _ _ => []
  | Logged l => [l]
  end.

Definition balancesRead (es : list Event) : list Z := flat_map balanceRead es.
Definition approvals (es : list Event) : list (Hex * Hex * Z * Account) :=
  flat_map approval es.
Definition gasEstimates (es : list Event) : list Z := flat_map gasEstimate es.
Definition gasLimits (es : list Event) : list Z := flat_map gasLimit es.
Definition lines (es : list Event) : list string := flat_map line es.

(** The receipt delivered by the last event of a run, if that is what the
    last event was. *)
Definition lastReceipt (es : list Event) : option (Hex * TransactionReceipt) :=
  match rev es with
  | e :: _ => receipt e
  | [] => None
  end.

End Trace.

(** ** Reading a compact signature back *)

(** The reading of [(r, vs)] the fill entry point applies (EIP-2098): the
    low 255 bits of [vs] are [s], its top bit is the parity [v - 27]. *)
Module CompactReading.

Definition expand (c : Order.CompactSignature) : option (Hex * Z * Z) :=
  match JS.BigInt (Order.vs c) with
  | Some n => Some (Order.r c, Z.land n (Z.ones 255), 27 + Z.shiftr n 255)
  | None => None
  end.

End CompactReading.

(** The [sig] of [parseSignatureToCompact]: the signature without its
    optional ["0x"]. *)
Definition signatureBody (signature : Hex) : string :=
  if JS.startsWith signature "0x" then JS.sliceFrom 2 signature else signature.

(** The number a string of hexadecimal digits denotes. *)
Definition hexValue (digits : string) : option Z :=
  JS.parseDigits 16 (JS.chars digits) 0.

(** ** Allowances as an ERC-20 ledger keeps them *)

(** What the scripts rely on when they read and set allowances: a read
    answers with the allowance on the ledger and leaves the ledger's
    allowances as they are, an [approve] that went through sets the
    sender's allowance for the spender to the amount, and waiting for a
    receipt changes no allowance. *)
Class AllowanceLedger (W : Type) `{World W} : Type := {
  allowanceOf : W -> Hex -> Hex -> Hex -> Z;
  read_answers : forall w token owner spender,
    fst (perform Z (ReadAllowance token owner spender) w)
    = Resolved (allowanceOf w token owner spender);
  read_keeps : forall w token owner spender t o s,
    allowanceOf (snd (perform Z (ReadAllowance token owner spender) w)) t o s
    = allowanceOf w t o s;
  approve_sets : forall w token spender amount from hash w',
    perform Hex (WriteApprove token spender amount from) w = (Resolved hash, w') ->
    allowanceOf w' token (accountAddress from) spender = amount;
  wait_keeps : forall w hash t o s,
    allowanceOf (snd (perform TransactionReceipt (WaitForTransactionReceipt hash) w))
                t o s
    = allowanceOf w t o s
}.

(** [ensureTokenApproval] for one required amount after the other, as a
    script that is run again and again does. *)
Fixpoint ensureEach {lib : Libraries} {W : Type} `{World W}
    (walletClient : WalletClient) (tokenAddress owner : Hex)
    (requiredAmounts : list Z) : M W (list Blockchain.ApprovalResult) :=
  match requiredAmounts with
  | [] => ret []
  | requiredAmount :: rest =>
      approval <- Blockchain.ensureTokenApproval walletClient tokenAddress owner
                    requiredAmount ;;
      approvals <- ensureEach walletClient tokenAddress owner rest ;;
      ret (approval :: approvals)
  end.

(** ** A ledger and stand-ins for the libraries, to run the scripts on *)

Module Example.

Record Ledger : Type := {
  balances : Hex -> Hex -> Z;
  allowances : Hex -> Hex -> Hex -> Z;
  gas : Outcome Z;
  receiptStatus : string;
  quoteResponse : HttpResponse
}.

Definition signature : Hex :=
  "0x"
  ++ "00000000000000000000000000000000000000000000000000000000000000aa"
  ++ "00000000000000000000000000000000000000000000000000000000000000bb"
  ++ "1c".

Definition answer (R : Type) (c : Call R) (w : Ledger) : Outcome R * Ledger :=
  match c in Call R return Outcome R * Ledger with
  | ReadBalanceOf token owner => (Resolved (balances w token owner), w)
  | ReadAllowance token owner spender =>
      (Resolved (allowances w token owner spender), w)
  | WriteApprove token spender amount from =>
      (Resolved "0xa1",
       {| balances := balances w;
          allowances := fun t o s =>
            if String.eqb t token && String.eqb o (accountAddress from)
               && String.eqb s spender
            then amount else allowances w t o s;
          gas := gas w;
          receiptStatus := receiptStatus w;
          quoteResponse := quoteResponse w |})
  | WaitForTransactionReceipt _ => (Resolved {| status := receiptStatus w |}, w)
  | SignTypedData _ _ => (Resolved signature, w)
  | EstimateGas _ _ _ => (gas w, w)
  | SendTransaction _ _ _ _ => (Resolved "0xf1", w)
  | FetchQuote _ _ => (Resolved (quoteResponse w), w)
  | DateNow => (Resolved 1700000000000, w)
  | MathRandom40 => (Resolved 7, w)
  | BuildSalt => (Resolved 12345, w)
  end.

#[export] Instance world : World Ledger := answer.

Definition maker : Account := {| accountAddress := "0x00000000000000000000000000000000000000a1" |}.

Definition wallet : WalletClient := {| account := Some maker |}.

(** A ledger where every account holds [balance] of every token and has
    granted every spender [allowance]. *)
Definition ledger (balance allowance : Z) : Ledger :=
  {| balances := fun _ _ => balance;
     allowances := fun _ _ _ => allowance;
     gas := Resolved 100005;
     receiptStatus := "success";
     quoteResponse :=
       {| ok := true; statusText := "OK";
          json := Some [("inputAmount", "1000000");
                        ("expectedOutput", "5000000000000000000");
                        ("rate", "5")] |} |}.

(** Stand-ins for viem and the SDK: amounts are read as [AmountReading]
    reads them, every key belongs to [maker], one selector is known. *)
#[export] Instance libraries : Libraries := {|
  parseUnits := fun s decimals =>
    match AmountReading.parseTokenAmount s decimals with
    | Some n => Ok n
    | None => Throw (Error "Invalid decimal number")
    end;
  formatUnits := fun n decimals => Config.formatTokenAmount n decimals None;
  privateKeyToAccount := fun _ => Ok maker;
  encodeFillOrder := fun _ _ r vs _ _ => Ok (r ++ JS.sliceFrom 2 vs);
  decodeErrorResult := fun _ data =>
    if String.eqb (JS.slice 0 10 data) "0x5cd5d233"
    then Ok {| errorName := "BadSignature"; args := None |}
    else Throw (Error "Encoded error signature not found on ABI");
  SDKAddress := fun a => Ok a;
  MakerTraits_default := 0;
  withExpiration := fun traits expiration =>
    Ok (Z.lor traits (Z.shiftl expiration 80));
  withNonce := fun traits nonce => Ok (Z.lor traits (Z.shiftl nonce 120))
|}.

(** Signatures with one [r]: a high [s] with [v = 27], the same [s]
    without its top bit with [v = 28], and a low [s] with [v] 27 and 0. *)
Definition r32 : string :=
  "00000000000000000000000000000000000000000000000000000000000000aa".

Definition highS27 : Hex :=
  "0x" ++ r32
  ++ "8000000000000000000000000000000000000000000000000000000000000001"
  ++ "1b".

Definition lowS28 : Hex :=
  "0x" ++ r32
  ++ "0000000000000000000000000000000000000000000000000000000000000001"
  ++ "1c".

Definition lowS27 : Hex :=
  "0x" ++ r32
  ++ "0000000000000000000000000000000000000000000000000000000000000001"
  ++ "1b".

Definition lowS00 : Hex :=
  "0x" ++ r32
  ++ "0000000000000000000000000000000000000000000000000000000000000001"
  ++ "00".

(** A signature of the right length whose [s] is no number. *)
Definition notHex : Hex :=
  "0x" ++ r32
  ++ "zzzzzzzzzzzzzzzzzzzzzzzzzzzzzzzzzzzzzzzzzzzzzzzzzzzzzzzzzzzzzzzz"
  ++ "1b".

(** An order of one USDC for five BRLA, as [formatOrderOutput] writes it. *)
Definition order : Order.OrderOutput.t :=
  {| Order.OrderOutput.orderHash :=
       "0x0000000000000000000000000000000000000000000000000000000000003039";
     Order.OrderOutput.signature := signature;
     Order.OrderOutput.order :=
       {| Order.OrderFields.salt := "12345";
          Order.OrderFields.maker := accountAddress maker;
          Order.OrderFields.receiver := accountAddress maker;
          Order.OrderFields.makerAsset := Config.address Config.USDC;
          Order.OrderFields.takerAsset := Config.address Config.BRLA;
          Order.OrderFields.makingAmount := "1000000";
          Order.OrderFields.takingAmount := "5000000000000000000";
          Order.OrderFields.makerTraits := "0" |} |}.

#[export] Instance environment : Environment := {|
  POLYGON_RPC_URL := "http://localhost:8545";
  FILLER_API_URL := "http://localhost:3000";
  MAKER_PRIVATE_KEY := Some "a1";
  TAKER_PRIVATE_KEY := Some "0xb2"
|}.

End Example.

(** ** Runs as plain lists *)

(** An event without the type of its answer: the call with its arguments
    and what came back, [None] for a rejection. *)
Module Did.

Inductive t : Type :=
| BalanceOf (token owner : Hex) (answer : option Z)
| Allowance (token owner spender : Hex) (answer : option Z)
| Approve (token spender : Hex) (amount : Z) (from : Account)
          (answer : option Hex)
| Receipt (hash : Hex) (answer : option TransactionReceipt)
| Sign (from : Account) (data : TypedData) (answer : option Hex)
| Estimate (from to data : Hex) (answer : option Z)
| Send (to data : Hex) (from : Account) (gas : Z) (answer : option Hex)
| Quote (url body : string) (answer : option HttpResponse)
| Now (answer : option Z)
| Random (answer : option Z)
| Salt (answer : option Z)
| Log (line : string).

Definition answered {R} (o : Outcome R) : option R :=
  match o with
  | Resolved r => Some r
  | Rejected _ => None
  end.

Definition erase (e : Event) : t :=
  match e with
  | Performed c o =>
      match c in Call R return Outcome R -> t with
      | ReadBalanceOf token owner => fun o => BalanceOf token owner (answered o)
      | ReadAllowance token owner spender =>
          fun o => Allowance token owner spender (answered o)
      | WriteApprove token spender amount from =>
          fun o => Approve token spender amount from (answered o)
      | WaitForTransactionReceipt hash => fun o => Receipt hash (answered o)
      | SignTypedData from data => fun o => Sign from data (answered o)
      | EstimateGas from to data => fun o => Estimate from to data (answered o)
      | SendTransaction to data from gas =>
          fun o => Send to data from gas (answered o)
      | FetchQuote url body => fun o => Quote url body (answered o)
      | DateNow => fun o => Now (answered o)
      | MathRandom40 => fun o => Random (answered o)
      | BuildSalt => fun o => Salt (answered o)
      end o
  | Logged line => Log line
  end.

Definition trace (es : list Event) : list t := map erase es.

(** The calls that leave the process, console lines dropped. *)
Definition isCall (d : t) : bool :=
  match d with
  | Log _ => false
  | _ => true
  end.

Definition calls (es : list Event) : list t := filter isCall (trace es).

(** A transaction handed to the wallet. *)
Definition isTransaction (d : t) : bool :=
  match d with
  | Approve _ _ _ _ _ | Send _ _ _ _ _ => true
  | _ => false
  end.

Definition isEstimate (d : t) : bool :=
  match d with
  | Estimate _ _ _ _ => true
  | _ => false
  end.

Definition isAllowanceOrApprove (d : t) : bool :=
  match d with
  | Allowance _ _ _ _ | Approve _ _ _ _ _ => true
  | _ => false
  end.

Definition isApproveOrSign (d : t) : bool :=
  match d with
  | Allowance _ _ _ _ | Approve _ _ _ _ _ | Sign _ _ _ => true
  | _ => false
  end.

End Did.

(** ** Selectors of errors *)

(** [s.includes(sub)]. *)
Fixpoint includes (s sub : string) : bool :=
  String.prefix sub s
  || match s with
     | EmptyString => false
     | String _ rest => includes rest sub
     end.

(** How viem's [decodeErrorResult] finds the error of a payload: by the
    selector of its signature, among the errors of the ABI it is given and
    after them Solidity's own [Error(string)] and [Panic(uint256)]. *)
Module Selector.

Definition parameterType (p : Abi.AbiParameter) : string :=
  match p with
  | Abi.Param _ type => type
  | Abi.Tuple _ components =>
      "(" ++ String.concat "," (map snd components) ++ ")"
  end.

(** The signature of an error: its name and the types of its inputs. *)
Definition signature (name : string) (inputs : list Abi.AbiParameter)
  : string :=
  name ++ "(" ++ String.concat "," (map parameterType inputs) ++ ")".

Definition solidityError : Abi.AbiItem :=
  Abi.AbiError "Error" [Abi.Param "message" "string"].

Definition solidityPanic : Abi.AbiItem :=
  Abi.AbiError "Panic" [Abi.Param "reason" "uint256"].

(** [item] is an error whose signature has the selector [selector]. *)
Definition selects (toFunctionSelector : string -> Hex) (selector : Hex)
    (item : Abi.AbiItem) : bool :=
  match item with
  | Abi.AbiError name inputs =>
      String.eqb selector (toFunctionSelector (signature name inputs))
  | Abi.AbiFunction _ _ _ _ => false
  end.

(** The first error with the selector. *)
Definition lookup (toFunctionSelector : string -> Hex)
    (abi : list Abi.AbiItem) (selector : Hex) : option Abi.AbiItem :=
  List.find (selects toFunctionSelector selector)
            (abi ++ [solidityError; solidityPanic]).

End Selector.

(** What [decodeRevertError] relies on when it hands a payload to viem's
    [decodeErrorResult]: with [toFunctionSelector] the first four bytes of
    the hash of a signature, a payload whose first four bytes select an
    error without inputs decodes to that error's name without arguments;
    one that selects an error with inputs decodes, if it does, to that
    error's name with at least one argument; and one that selects no
    error is refused. *)
Class ErrorDecoding {lib : Libraries} : Type := {
  toFunctionSelector : string -> Hex;
  decodes_plain : forall abi data name,
    JS.startsWith data "0x" = true ->
    Selector.lookup toFunctionSelector abi (JS.slice 0 10 data)
    = Some (Abi.AbiError name []) ->
    decodeErrorResult abi data = Ok {| errorName := name; args := None |};
  decodes_arguments : forall abi data name input inputs decoded,
    JS.startsWith data "0x" = true ->
    Selector.lookup toFunctionSelector abi (JS.slice 0 10 data)
    = Some (Abi.AbiError name (input :: inputs)) ->
    decodeErrorResult abi data = Ok decoded ->
    errorName decoded = name
    /\ exists a rest, args decoded = Some (a :: rest);
  refuses_unlisted : forall abi data,
    JS.startsWith data "0x" = true ->
    Selector.lookup toFunctionSelector abi (JS.slice 0 10 data) = None ->
    exists e, decodeErrorResult abi data = Throw e
}.

(** A decoder to run [decodeRevertError] on: it looks the selector up as
    above, with the selectors the signatures have on the chain, and gives
    the rest of the payload as the one argument of an error with inputs. *)
Module ExampleDecoder.

Definition selectors : list (string * Hex) :=
  [ ("BadSignature()", "0x5cd5d233");
    ("OrderExpired()", "0xc56873ba");
    ("InvalidatedOrder()", "0xf71fbda2");
    ("TakingAmountExceeded()", "0x7f902a93");
    ("MakingAmountTooLow()", "0x481ea392");
    ("PrivateOrder()", "0xd4dfdafe");
    ("PredicateIsNotTrue()", "0xb6629c02");
    ("TransferFromMakerToTakerFailed()", "0x70a03f48");
    ("TransferFromTakerToMakerFailed()", "0x478a5205");
    ("Error(string)", "0x08c379a0");
    ("Panic(uint256)", "0x4e487b71") ].

Definition selectorOf (signature : string) : Hex :=
  match List.find (fun entry => String.eqb (fst entry) signature) selectors with
  | Some entry => snd entry
  | None => "0x00000000"
  end.

Definition decode (abi : list Abi.AbiItem) (data : Hex)
  : Result DecodedError :=
  match Selector.lookup selectorOf abi (JS.slice 0 10 data) with
  | Some (Abi.AbiError name []) => Ok {| errorName := name; args := None |}
  | Some (Abi.AbiError name (_ :: _)) =>
      Ok {| errorName := name; args := Some [JS.sliceFrom 10 data] |}
  | _ => Throw (Error "Encoded error signature not found on ABI")
  end.

Definition libraries : Libraries := {|
  parseUnits := @parseUnits Example.libraries;
  formatUnits := @formatUnits Example.libraries;
  privateKeyToAccount := @privateKeyToAccount Example.libraries;
  encodeFillOrder := @encodeFillOrder Example.libraries;
  decodeErrorResult := decode;
  SDKAddress := @SDKAddress Example.libraries;
  MakerTraits_default := @MakerTraits_default Example.libraries;
  withExpiration := @withExpiration Example.libraries;
  withNonce := @withNonce Example.libraries
|}.

(** A revert with a reason string, as [require(false, "reason")] gives. *)
Definition reverted : Hex := "0x08c379a0" ++ "0020".

End ExampleDecoder.

(** ** config.ts: the taker's key *)

Section TakerKey.

Context {env : Environment}.

Definition getTakerPrivateKey : Result Hex :=
  let key := TAKER_PRIVATE_KEY in
  if negb (truthy key) then
    Throw (Error "TAKER_PRIVATE_KEY environment variable is required.")
  else
    let key := display key in
    Ok (if JS.startsWith key "0x" then key else "0x" ++ key).

End TakerKey.

(** ** Statements about runs *)

(** [post m w Q]: running [m] in the world [w] ends with a result, a world
    and a list of events that satisfy [Q]. *)
Definition post {W A} (m : M W A) (w : W)
    (Q : Result A -> W -> list Event -> Prop) : Prop :=
  Q (result (m w)) (after (m w)) (events (m w)).

(** [d] is a digit in the given radix. *)
Definition digit (radix d : Z) : Prop := 0 <= d < radix.

(** Neither white space nor a sign, a radix letter or a point. *)
Definition plain (c : ascii) : bool :=
  negb (JS.isWhiteSpace c)
  && negb (Ascii.eqb c "+") && negb (Ascii.eqb c "-")
  && negb (Ascii.eqb c "x") && negb (Ascii.eqb c "X")
  && negb (Ascii.eqb c "o") && negb (Ascii.eqb c "O")
  && negb (Ascii.eqb c ".").

(** * Properties *)

(** ** Rules for runs *)

Section Logic.

Context {W : Type} `{World W}.

Lemma post_bind {A B} (m : M W A) (k : A -> M W B) w Q :
  post m w (fun r w1 es =>
    match r with
    | Ok a => post (k a) w1 (fun r' w2 es' => Q r' w2 (es ++ es')%list)
    | Throw e => Q (Throw e) w1 es
    | Exit c => Q (Exit c) w1 es
    end) ->
  post (bind m k) w Q.
Proof.
  unfold post, bind. destruct (result (m w)); cbn; auto.
Qed.

Lemma post_ret {A} (a : A) w (Q : Result A -> W -> list Event -> Prop) :
  Q (Ok a) w [] -> post (ret a) w Q.
Proof. auto. Qed.

Lemma post_lift {A} (r : Result A) w (Q : Result A -> W -> list Event -> Prop) :
  Q r w [] -> post (lift r) w Q.
Proof. auto. Qed.

Lemma post_throw {A} e w (Q : Result A -> W -> list Event -> Prop) :
  Q (Throw e) w [] -> post (throw e) w Q.
Proof. auto. Qed.

Lemma post_processExit {A} c w (Q : Result A -> W -> list Event -> Prop) :
  Q (Exit c) w [] -> post (processExit c) w Q.
Proof. auto. Qed.

Lemma post_consoleLog l w (Q : Result unit -> W -> list Event -> Prop) :
  Q (Ok tt) w [Logged l] -> post (consoleLog l) w Q.
Proof. auto. Qed.

Lemma post_await {R} (c : Call R) w (Q : Result R -> W -> list Event -> Prop) :
  (forall r w', perform R c w = (Resolved r, w') ->
                Q (Ok r) w' [Performed c (Resolved r)]) ->
  (forall m w', perform R c w = (Rejected m, w') ->
                Q (Throw (Rejection m)) w' [Performed c (Rejected m)]) ->
  post (await c) w Q.
Proof.
  intros Hres Hrej. unfold post, await.
  destruct (perform R c w) as [[r | m] w'] eqn:E; cbn; auto.
Qed.

Lemma post_tryCatch {A} (body : M W A) handler w Q :
  post body w (fun r w1 es =>
    match r with
    | Throw e => post (handler e) w1 (fun r' w2 es' => Q r' w2 (es ++ es')%list)
    | _ => Q r w1 es
    end) ->
  post (tryCatch body handler) w Q.
Proof.
  unfold post, tryCatch. destruct (result (body w)) eqn:E; cbn; rewrite ?E; auto.
Qed.

Lemma post_weaken {A} (m : M W A) w (Q Q' : Result A -> W -> list Event -> Prop) :
  post m w Q -> (forall r w' es, Q r w' es -> Q' r w' es) -> post m w Q'.
Proof. unfold post. auto. Qed.

End Logic.

(** One step of a run: the rule of the construct at the head, the
    projections of the records built on the way computed. *)
Ltac run_simpl :=
  cbn [Blockchain.sufficient Blockchain.balance Blockchain.txHash
       Blockchain.approved account accountAddress truthy display negb app
       Blockchain.createPolygonWalletClient] in *.

Ltac step :=
  lazymatch goal with
  | |- post (bind _ _) _ _ => apply post_bind
  | |- post (await _) _ _ => apply post_await; intros
  | |- post (ret _) _ _ => apply post_ret
  | |- post (lift _) _ _ => apply post_lift
  | |- post (throw _) _ _ => apply post_throw
  | |- post (processExit _) _ _ => apply post_processExit
  | |- post (consoleLog _) _ _ => apply post_consoleLog
  | |- post (tryCatch _ _) _ _ => apply post_tryCatch
  | |- post (if ?b then _ else _) _ _ => destruct b eqn:?
  | |- post (match ?x with _ => _ end) _ _ => destruct x eqn:?
  | |- match ?x with _ => _ end => destruct x eqn:?
  end; cbv beta iota; run_simpl; try discriminate.

Lemma lastReceipt_snoc es e : Trace.lastReceipt (es ++ [e]) = Trace.receipt e.
Proof. unfold Trace.lastReceipt. rewrite rev_app_distr. reflexivity. Qed.

(** ** test/fill.ts: executing a fill *)

(** Two answers of the world to one call are the same answer. *)
Ltac same_call :=
  match goal with
  | H1 : perform ?R ?c ?w = _, H2 : perform ?R ?c ?w = _ |- _ =>
      rewrite H1 in H2;
      first [ discriminate H2 | injection H2 as ? ?; subst ]
  end.

(** The events of a run among which [Hin] places one: every case. *)
Ltac in_trace Hin :=
  repeat match type of Hin with
         | _ \/ _ => destruct Hin as [Hin | Hin]
         | False => destruct Hin
         | _ = _ => first [ discriminate Hin | injection Hin; intros; subst ]
         end.

Section ExecuteFill.

Context {lib : Libraries} {W : Type} `{World W}.

(** C10.  In every run of [executeFill], the gas limits of the
    transactions sent are the gas estimates the node answered with, each
    plus its tenth in integer division (which is the floor for an estimate
    that is not negative); and when the run returns, [success] is [true]
    exactly when its last event delivered a receipt whose status is
    ["success"]; a receipt with another status gives [success = false]
    with the transaction hash and the error ["Transaction reverted"].
    What is estimated and what is sent is the [fillOrder] call built from
    the order and its taking amount, from the account of the taker's key
    to the limit-order protocol; a transaction is sent only with the gas
    limit made from an estimate delivered for that very call, and the
    receipt a returned result follows is the receipt of a transaction so
    sent.  When the key gives an account, the taker's token is configured,
    the balance read covers the taking amount, the approval step returns,
    the call data is built and the node answers the estimate, the
    transaction and the wait for its receipt, the run is: the balance
    read, its console line, the approval step with its console line if it
    approved, the estimate, the transaction with the estimate plus its
    tenth as gas limit, the wait for the receipt of that transaction; and
    it returns the hash with [success] exactly when the receipt's status
    is ["success"]. *)
Theorem executeFill_gas_and_success
    (order : Order.OrderOutput.t) (key : Hex) (w : W) :
  let run := Fill.executeFill order key w in
  let did := Did.trace (events run) in
  let fields := Order.OrderOutput.order order in
  let to := Config.LIMIT_ORDER_PROTOCOL_ADDRESS in
  Trace.gasLimits (events run)
  = map (fun g => g + Z.quot g 10) (Trace.gasEstimates (events run))
  /\ Forall (fun g => 0 <= g -> g + Z.quot g 10 = g + g / 10)
            (Trace.gasEstimates (events run))
  /\ (forall res, result run = Ok res ->
       (Fill.success res = true <->
        exists hash rc, Trace.lastReceipt (events run) = Some (hash, rc)
                        /\ status rc = "success")
       /\ (forall hash rc,
             Trace.lastReceipt (events run) = Some (hash, rc) ->
             Fill.txHash res = Some hash
             /\ (status rc <> "success" ->
                 Fill.success res = false
                 /\ Fill.error res = Some "Transaction reverted")))
  /\ (forall from to' data answer,
        In (Did.Estimate from to' data answer) did ->
        exists acct takingAmount,
          privateKeyToAccount key = Ok acct
          /\ toBigInt (Order.OrderFields.takingAmount fields) = Ok takingAmount
          /\ Fill.buildFillOrderData order takingAmount = Ok data
          /\ from = accountAddress acct
          /\ to' = to)
  /\ (forall to' data from gas answer,
        In (Did.Send to' data from gas answer) did ->
        exists takingAmount g,
          privateKeyToAccount key = Ok from
          /\ toBigInt (Order.OrderFields.takingAmount fields) = Ok takingAmount
          /\ Fill.buildFillOrderData order takingAmount = Ok data
          /\ to' = to
          /\ In (Did.Estimate (accountAddress from) to' data (Some g)) did
          /\ gas = g + Z.quot g 10)
  /\ (forall res hash rc,
        result run = Ok res ->
        Trace.lastReceipt (events run) = Some (hash, rc) ->
        exists data from gas, In (Did.Send to data from gas (Some hash)) did)
  /\ (forall (acct : Account) (takingAmount takerAsset : Z)
             (token : Config.TokenInfo) (balance : Z) (w1 : W)
             (approval : Blockchain.ApprovalResult) (data : Hex)
             (g : Z) (w3 : W) (hash : Hex) (w4 : W)
             (rc : TransactionReceipt) (w5 : W),
        let owner := accountAddress acct in
        privateKeyToAccount key = Ok acct ->
        toBigInt (Order.OrderFields.takingAmount fields) = Ok takingAmount ->
        toBigInt (Order.OrderFields.takerAsset fields) = Ok takerAsset ->
        Config.getTokenByAddress
          ("0x" ++ JS.padStart 40 "0" (JS.toString 16 takerAsset))
        = Some token ->
        perform Z (ReadBalanceOf (Config.address token) owner) w
        = (Resolved balance, w1) ->
        takingAmount <= balance ->
        let prep :=
          Blockchain.ensureTokenApproval {| account := Some acct |}
            (Config.address token) owner takingAmount w1 in
        result prep = Ok approval ->
        Fill.buildFillOrderData order takingAmount = Ok data ->
        perform Z (EstimateGas owner to data) (after prep) = (Resolved g, w3) ->
        perform Hex (SendTransaction to data acct (g + Z.quot g 10)) w3
        = (Resolved hash, w4) ->
        perform TransactionReceipt (WaitForTransactionReceipt hash) w4
        = (Resolved rc, w5) ->
        events run
        = (Performed (ReadBalanceOf (Config.address token) owner)
                     (Resolved balance)
           :: Logged ("Taker balance: "
                      ++ Config.formatTokenAmount balance
                           (Config.decimals token)
                           (Some (Config.symbol token)))
           :: events prep
           ++ (if truthy (Blockchain.txHash approval)
               then [Logged ("Approval tx: "
                             ++ display (Blockchain.txHash approval))]
               else [])
           ++ [ Performed (EstimateGas owner to data) (Resolved g);
                Performed (SendTransaction to data acct (g + Z.quot g 10))
                          (Resolved hash);
                Performed (WaitForTransactionReceipt hash) (Resolved rc) ])%list
        /\ result run
           = Ok {| Fill.success := String.eqb (status rc) "success";
                   Fill.txHash := Some hash;
                   Fill.error := if String.eqb (status rc) "success" then None
                                 else Some "Transaction reverted" |}
        /\ after run = w5).
Proof.
  intros run did fields to. subst run did fields to.
  assert (Hresult :
    Trace.gasLimits (events (Fill.executeFill order key w))
    = map (fun g => g + Z.quot g 10)
          (Trace.gasEstimates (events (Fill.executeFill order key w)))
    /\ Forall (fun g => 0 <= g -> g + Z.quot g 10 = g + g / 10)
              (Trace.gasEstimates (events (Fill.executeFill order key w)))
    /\ forall res, result (Fill.executeFill order key w) = Ok res ->
         (Fill.success res = true <->
          exists hash rc,
            Trace.lastReceipt (events (Fill.executeFill order key w))
            = Some (hash, rc)
            /\ status rc = "success")
         /\ (forall hash rc,
               Trace.lastReceipt (events (Fill.executeFill order key w))
               = Some (hash, rc) ->
               Fill.txHash res = Some hash
               /\ (status rc <> "success" ->
                   Fill.success res = false
                   /\ Fill.error res = Some "Transaction reverted"))).
  {
    change (post (Fill.executeFill order key) w (fun r _ es =>
      Trace.gasLimits es = map (fun g => g + Z.quot g 10) (Trace.gasEstimates es)
      /\ Forall (fun g => 0 <= g -> g + Z.quot g 10 = g + g / 10)
                (Trace.gasEstimates es)
      /\ forall res, r = Ok res ->
         (Fill.success res = true <->
          exists hash rc, Trace.lastReceipt es = Some (hash, rc)
                          /\ status rc = "success")
         /\ (forall hash rc,
               Trace.lastReceipt es = Some (hash, rc) ->
               Fill.txHash res = Some hash
               /\ (status rc <> "success" ->
                   Fill.success res = false
                   /\ Fill.error res = Some "Transaction reverted")))).
    unfold Fill.executeFill, Blockchain.validateSufficientBalance,
      Blockchain.ensureTokenApproval, Blockchain.getTokenBalance,
      Blockchain.getTokenAllowance, Blockchain.approveToken,
      Blockchain.createAccountFromPrivateKey.
    repeat step.
    all: (split; [reflexivity | split]).
    all: try (apply Forall_forall; intros g _ Hg; rewrite Z.quot_div_nonneg by lia;
              reflexivity).
    all: intros res Hres; try discriminate Hres.
    all: injection Hres as <-; unfold Trace.lastReceipt;
      cbn [rev app Trace.receipt Fill.success Fill.txHash Fill.error].
    all: repeat match goal with
         | E : String.eqb _ _ = true |- _ => apply String.eqb_eq in E
         | E : String.eqb _ _ = false |- _ => apply String.eqb_neq in E
         end.
    all: split;
      [ split;
        [ intros E; first [ discriminate E | eauto ]
        | intros (h & rc & E1 & E2);
          first [ discriminate E1
                | injection E1 as <- <-; first [ reflexivity | contradiction ] ] ]
      | intros h rc E1;
        first [ discriminate E1
              | injection E1 as <- <-;
                split; [ reflexivity
                       | intros ?; first [ contradiction | split; reflexivity ] ] ] ].
  }
  assert (Hsent :
    (forall from to data answer,
       In (Did.Estimate from to data answer)
          (Did.trace (events (Fill.executeFill order key w))) ->
       exists acct takingAmount,
         privateKeyToAccount key = Ok acct
         /\ toBigInt (Order.OrderFields.takingAmount
                        (Order.OrderOutput.order order)) = Ok takingAmount
         /\ Fill.buildFillOrderData order takingAmount = Ok data
         /\ from = accountAddress acct
         /\ to = Config.LIMIT_ORDER_PROTOCOL_ADDRESS)
    /\ (forall to data from gas answer,
          In (Did.Send to data from gas answer)
             (Did.trace (events (Fill.executeFill order key w))) ->
          exists takingAmount g,
            privateKeyToAccount key = Ok from
            /\ toBigInt (Order.OrderFields.takingAmount
                           (Order.OrderOutput.order order)) = Ok takingAmount
            /\ Fill.buildFillOrderData order takingAmount = Ok data
            /\ to = Config.LIMIT_ORDER_PROTOCOL_ADDRESS
            /\ In (Did.Estimate (accountAddress from) to data (Some g))
                  (Did.trace (events (Fill.executeFill order key w)))
            /\ gas = g + Z.quot g 10)
    /\ (forall res hash rc,
          result (Fill.executeFill order key w) = Ok res ->
          Trace.lastReceipt (events (Fill.executeFill order key w))
          = Some (hash, rc) ->
          exists data from gas,
            In (Did.Send Config.LIMIT_ORDER_PROTOCOL_ADDRESS data from gas
                  (Some hash))
               (Did.trace (events (Fill.executeFill order key w))))).
  {
    change (post (Fill.executeFill order key) w (fun r _ es =>
      (forall from to data answer,
         In (Did.Estimate from to data answer) (Did.trace es) ->
         exists acct takingAmount,
           privateKeyToAccount key = Ok acct
           /\ toBigInt (Order.OrderFields.takingAmount
                          (Order.OrderOutput.order order)) = Ok takingAmount
           /\ Fill.buildFillOrderData order takingAmount = Ok data
           /\ from = accountAddress acct
           /\ to = Config.LIMIT_ORDER_PROTOCOL_ADDRESS)
      /\ (forall to data from gas answer,
            In (Did.Send to data from gas answer) (Did.trace es) ->
            exists takingAmount g,
              privateKeyToAccount key = Ok from
              /\ toBigInt (Order.OrderFields.takingAmount
                             (Order.OrderOutput.order order)) = Ok takingAmount
              /\ Fill.buildFillOrderData order takingAmount = Ok data
              /\ to = Config.LIMIT_ORDER_PROTOCOL_ADDRESS
              /\ In (Did.Estimate (accountAddress from) to data (Some g))
                    (Did.trace es)
              /\ gas = g + Z.quot g 10)
      /\ (forall res hash rc,
            r = Ok res ->
            Trace.lastReceipt es = Some (hash, rc) ->
            exists data from gas,
              In (Did.Send Config.LIMIT_ORDER_PROTOCOL_ADDRESS data from gas
                    (Some hash)) (Did.trace es)))).
    unfold Fill.executeFill, Blockchain.validateSufficientBalance,
      Blockchain.ensureTokenApproval, Blockchain.getTokenBalance,
      Blockchain.getTokenAllowance, Blockchain.approveToken,
      Blockchain.createAccountFromPrivateKey.
    repeat step.
    all: cbn [Did.trace map Did.erase Did.answered In].
    all: split; [ | split ].
    all: try (intros ? ? ? ? Hin; in_trace Hin;
              do 2 eexists; repeat split; eassumption).
    all: try (intros ? ? ? ? ? Hin; in_trace Hin;
              do 2 eexists; repeat split; try eassumption; cbn [In]; tauto).
    all: intros res hash rc Hres Hlast; try discriminate Hres;
      unfold Trace.lastReceipt in Hlast; cbn [rev app Trace.receipt] in Hlast;
      try discriminate Hlast.
    all: injection Hlast as <- <-; do 3 eexists; cbn [In]; tauto.
  }
  destruct Hresult as (Hgas & Hfloor & Hres).
  destruct Hsent as (Hest & Hsend & Hlast).
  split; [ exact Hgas | ].
  split; [ exact Hfloor | ].
  split; [ exact Hres | ].
  split; [ exact Hest | ].
  split; [ exact Hsend | ].
  split; [ exact Hlast | ].
  clear Hgas Hfloor Hres Hest Hsend Hlast.
  intros acct takingAmount takerAsset token balance w1 approval data
    g w3 hash w4 rc w5 owner Hkey Hamount Hasset Htoken Hbalance Hle prep
    Hprep Hdata Hestimate Hsend Hwait.
  subst owner prep.
  change (post (Fill.executeFill order key) w (fun r w' es =>
    es
    = (Performed (ReadBalanceOf (Config.address token) (accountAddress acct))
                 (Resolved balance)
       :: Logged ("Taker balance: "
                  ++ Config.formatTokenAmount balance (Config.decimals token)
                       (Some (Config.symbol token)))
       :: events (Blockchain.ensureTokenApproval {| account := Some acct |}
                    (Config.address token) (accountAddress acct) takingAmount w1)
       ++ (if truthy (Blockchain.txHash approval)
           then [Logged ("Approval tx: " ++ display (Blockchain.txHash approval))]
           else [])
       ++ [ Performed (EstimateGas (accountAddress acct)
                         Config.LIMIT_ORDER_PROTOCOL_ADDRESS data) (Resolved g);
            Performed (SendTransaction Config.LIMIT_ORDER_PROTOCOL_ADDRESS data
                         acct (g + Z.quot g 10)) (Resolved hash);
            Performed (WaitForTransactionReceipt hash) (Resolved rc) ])%list
    /\ r = Ok {| Fill.success := String.eqb (status rc) "success";
                 Fill.txHash := Some hash;
                 Fill.error := if String.eqb (status rc) "success" then None
                               else Some "Transaction reverted" |}
    /\ w' = w5)).
  unfold Fill.executeFill, Blockchain.validateSufficientBalance,
    Blockchain.getTokenBalance, Blockchain.createAccountFromPrivateKey.
  rewrite Hkey, Hamount, Hasset.
  do 6 step. rewrite Htoken.
  repeat (step; try same_call;
          try match goal with
              | E : negb (_ >=? _) = false |- _ => clear E
              | E : negb (_ >=? _) = true |- _ =>
                  apply negb_true_iff in E; rewrite Z.geb_leb in E;
                  apply Z.leb_gt in E; lia
              end).
  unfold post at 1, Blockchain.createPolygonWalletClient.
  rewrite Hprep.
  repeat (try rewrite Hdata; step; repeat same_call).
  all: repeat split.
Qed.

End ExecuteFill.

Section ExecuteFillExample.

#[local] Existing Instances Example.libraries Example.world.

(** On the example ledger the taker holds 10 BRLA and has granted the
    protocol nothing: the run approves, the node estimates 100005 units of
    gas, the fill is sent with 110005 and reported as a success. *)
Lemma executeFill_on_ledger :
  let run := Fill.executeFill Example.order "0xb2" (Example.ledger (10 ^ 19) 0) in
  let taker := accountAddress Example.maker in
  let to := Config.LIMIT_ORDER_PROTOCOL_ADDRESS in
  let token := Config.address Config.BRLA in
  let data :=
    "0x00000000000000000000000000000000000000000000000000000000000000aa"
    ++ "80000000000000000000000000000000000000000000000000000000000000bb" in
  Trace.gasEstimates (events run) = [100005]
  /\ Trace.gasLimits (events run) = [110005]
  /\ result run
     = Ok {| Fill.success := true; Fill.txHash := Some "0xf1";
             Fill.error := None |}
  /\ Did.trace (events run)
     = [ Did.BalanceOf token taker (Some (10 ^ 19));
         Did.Log "Taker balance: 10 BRLA";
         Did.Allowance token taker to (Some 0);
         Did.Approve token to maxUint256 Example.maker (Some "0xa1");
         Did.Receipt "0xa1" (Some {| status := "success" |});
         Did.Log "Approval tx: 0xa1";
         Did.Estimate taker to data (Some 100005);
         Did.Send to data Example.maker 110005 (Some "0xf1");
         Did.Receipt "0xf1" (Some {| status := "success" |}) ].
Proof.
  intros run taker to token data.
  destruct (executeFill_gas_and_success
              Example.order "0xb2" (Example.ledger (10 ^ 19) 0))
    as (Hgas & _ & _ & _ & _ & _ & Hpath).
  destruct (Hpath Example.maker 5000000000000000000
              1316752347238956265620565791888640748419679116795 Config.BRLA
              (10 ^ 19) (Example.ledger (10 ^ 19) 0)
              {| Blockchain.approved := true;
                 Blockchain.txHash := Some "0xa1" |}
              data 100005
              (snd (perform Hex
                      (WriteApprove token to maxUint256 Example.maker)
                      (Example.ledger (10 ^ 19) 0)))
              "0xf1"
              (snd (perform Hex
                      (WriteApprove token to maxUint256 Example.maker)
                      (Example.ledger (10 ^ 19) 0)))
              {| status := "success" |}
              (snd (perform Hex
                      (WriteApprove token to maxUint256 Example.maker)
                      (Example.ledger (10 ^ 19) 0))))
    as (Hevents & Hresult & _).
  - reflexivity.
  - vm_compute. reflexivity.
  - vm_compute. reflexivity.
  - vm_compute. reflexivity.
  - reflexivity.
  - vm_compute. discriminate.
  - vm_compute. reflexivity.
  - vm_compute. reflexivity.
  - reflexivity.
  - reflexivity.
  - reflexivity.
  - assert (E : Trace.gasEstimates (events run) = [100005])
      by (fold run in Hevents; rewrite Hevents; vm_compute; reflexivity).
    split; [ exact E | split; [ | split ] ].
    + fold run in Hgas. rewrite Hgas, E. reflexivity.
    + fold run in Hresult. rewrite Hresult. reflexivity.
    + fold run in Hevents. rewrite Hevents. vm_compute. reflexivity.
Defined.

End ExecuteFillExample.

(** ** lib/blockchain.ts: approvals *)

Section EnsureTokenApproval.

Context {lib : Libraries} {W : Type} `{World W}.

(** C6.  Let the wallet client have an account and the node answer the
    allowance query.  Then [ensureTokenApproval] submits an approval
    exactly when the allowance of the limit-order protocol is below the
    required amount.  With an allowance that suffices it returns
    [{approved: true}] without a transaction hash after the one read; with
    one that falls short it submits one approval and, when that goes
    through and its receipt arrives, returns [{approved: true, txHash}],
    the receipt awaited after the approval. *)
Theorem ensureTokenApproval_iff_allowance_short
    (walletClient : WalletClient) (token owner : Hex) (required : Z) (w : W)
    (acct : Account) (allowance : Z) (w1 : W)
    (Hacct : account walletClient = Some acct)
    (Hread : perform Z (ReadAllowance token owner
                          Config.LIMIT_ORDER_PROTOCOL_ADDRESS) w
             = (Resolved allowance, w1)) :
  let run := Blockchain.ensureTokenApproval walletClient token owner required w in
  let read := Performed (ReadAllowance token owner
                           Config.LIMIT_ORDER_PROTOCOL_ADDRESS)
                        (Resolved allowance) in
  let approve := WriteApprove token Config.LIMIT_ORDER_PROTOCOL_ADDRESS
                              maxUint256 acct in
  (Trace.approvals (events run) <> [] <-> allowance < required)
  /\ (required <= allowance ->
      result run = Ok {| Blockchain.approved := true; Blockchain.txHash := None |}
      /\ after run = w1 /\ events run = [read])
  /\ (allowance < required ->
      Trace.approvals (events run)
      = [(token, Config.LIMIT_ORDER_PROTOCOL_ADDRESS, maxUint256, acct)]
      /\ forall hash w2 rc w3,
           perform Hex approve w1 = (Resolved hash, w2) ->
           perform TransactionReceipt (WaitForTransactionReceipt hash) w2
           = (Resolved rc, w3) ->
           result run = Ok {| Blockchain.approved := true;
                              Blockchain.txHash := Some hash |}
           /\ after run = w3
           /\ events run
              = [read; Performed approve (Resolved hash);
                 Performed (WaitForTransactionReceipt hash) (Resolved rc)]).
Proof.
  cbv zeta.
  change (post (Blockchain.ensureTokenApproval walletClient token owner required)
               w (fun r w' es =>
    (Trace.approvals es <> [] <-> allowance < required)
    /\ (required <= allowance ->
        r = Ok {| Blockchain.approved := true; Blockchain.txHash := None |}
        /\ w' = w1
        /\ es = [Performed (ReadAllowance token owner
                              Config.LIMIT_ORDER_PROTOCOL_ADDRESS)
                           (Resolved allowance)])
    /\ (allowance < required ->
        Trace.approvals es
        = [(token, Config.LIMIT_ORDER_PROTOCOL_ADDRESS, maxUint256, acct)]
        /\ forall hash w2 rc w3,
             perform Hex (WriteApprove token Config.LIMIT_ORDER_PROTOCOL_ADDRESS
                            maxUint256 acct) w1 = (Resolved hash, w2) ->
             perform TransactionReceipt (WaitForTransactionReceipt hash) w2
             = (Resolved rc, w3) ->
             r = Ok {| Blockchain.approved := true;
                       Blockchain.txHash := Some hash |}
             /\ w' = w3
             /\ es = [Performed (ReadAllowance token owner
                                   Config.LIMIT_ORDER_PROTOCOL_ADDRESS)
                                (Resolved allowance);
                      Performed (WriteApprove token
                                   Config.LIMIT_ORDER_PROTOCOL_ADDRESS
                                   maxUint256 acct) (Resolved hash);
                      Performed (WaitForTransactionReceipt hash)
                                (Resolved rc)]))).
  unfold Blockchain.ensureTokenApproval, Blockchain.getTokenAllowance,
    Blockchain.approveToken.
  rewrite Hacct.
  repeat step.
  all: same_call.
  all: repeat match goal with
       | E : (_ >=? _) = true |- _ => apply Z.geb_le in E
       | E : (_ >=? _) = false |- _ => rewrite Z.geb_leb in E; apply Z.leb_gt in E
       end.
  all: cbn [Trace.approvals flat_map Trace.approval app].
  all: split; [ split; [ intros ?; first [ lia | congruence ]
                       | intros ?; first [ lia | discriminate ] ] | ].
  all: split; [ intros ?; first [ lia | auto ] | intros ?; try lia ].
  all: split; [ reflexivity | intros; repeat same_call; auto ].
Qed.

End EnsureTokenApproval.

Section ApprovalAmount.

Context {lib : Libraries} {W : Type} `{World W}.

Lemma approvals_app es es' :
  Trace.approvals (es ++ es') = (Trace.approvals es ++ Trace.approvals es')%list.
Proof. apply flat_map_app. Qed.

(** With the allowance at [maxUint256], no required amount of a uint256
    asks for an approval. *)
Lemma ensureEach_covered {L : AllowanceLedger W}
    (walletClient : WalletClient) (token owner : Hex) (rs : list Z) :
  Forall (fun r => r <= maxUint256) rs ->
  forall w,
  allowanceOf w token owner Config.LIMIT_ORDER_PROTOCOL_ADDRESS = maxUint256 ->
  post (ensureEach walletClient token owner rs) w (fun r w' es =>
    r = Ok (map (fun _ => {| Blockchain.approved := true;
                             Blockchain.txHash := None |}) rs)
    /\ Trace.approvals es = []
    /\ allowanceOf w' token owner Config.LIMIT_ORDER_PROTOCOL_ADDRESS
       = maxUint256).
Proof.
  induction 1 as [| r rs Hr Hrs IH]; intros w Hw; cbn [ensureEach map].
  - step. auto.
  - unfold Blockchain.ensureTokenApproval, Blockchain.getTokenAllowance.
    pose proof (read_answers w token owner Config.LIMIT_ORDER_PROTOCOL_ADDRESS)
      as Hans.
    pose proof (read_keeps w token owner Config.LIMIT_ORDER_PROTOCOL_ADDRESS
                  token owner Config.LIMIT_ORDER_PROTOCOL_ADDRESS) as Hkeep.
    repeat step.
    all: match goal with
         | E : perform _ (ReadAllowance _ _ _) _ = _ |- _ =>
             rewrite E in Hans, Hkeep; cbn [fst snd] in Hans, Hkeep
         end.
    all: try discriminate Hans.
    all: injection Hans as ->; rewrite Hw in *.
    all: match goal with
         | E : (_ >=? _) = false |- _ =>
             rewrite Z.geb_leb in E; apply Z.leb_gt in E; try lia
         | _ => idtac
         end.
    eapply post_weaken; [ apply IH; exact Hkeep | ].
    cbv beta. intros r0 w0 es (-> & Hes & Hw0).
    repeat step.
    change (Trace.approvals (?e :: ?l))
      with (Trace.approval e ++ Trace.approvals l)%list.
    rewrite approvals_app, Hes. auto.
Qed.

(** C7.  Every approval [ensureTokenApproval] submits is for the token
    asked about, to the limit-order protocol, from the wallet's account
    and of amount [maxUint256], whatever the required amount; there is at
    most one.  On a ledger that keeps allowances as ERC-20 does, once such
    an approval went through for the owner the wallet signs for, the
    allowance is [maxUint256], and [ensureTokenApproval] for any later
    required amounts of a uint256 answers [{approved: true}] each time
    and submits no approval. *)
Theorem approval_is_unlimited_and_lasting
    (walletClient : WalletClient) (token owner : Hex) (required : Z) (w : W) :
  let run := Blockchain.ensureTokenApproval walletClient token owner required w in
  (forall t s amount from,
     In (t, s, amount, from) (Trace.approvals (events run)) ->
     t = token /\ s = Config.LIMIT_ORDER_PROTOCOL_ADDRESS
     /\ amount = maxUint256 /\ account walletClient = Some from)
  /\ (List.length (Trace.approvals (events run)) <= 1)%nat
  /\ forall (L : AllowanceLedger W) acct hash,
       account walletClient = Some acct ->
       owner = accountAddress acct ->
       result run = Ok {| Blockchain.approved := true;
                          Blockchain.txHash := Some hash |} ->
       allowanceOf (after run) token owner Config.LIMIT_ORDER_PROTOCOL_ADDRESS
       = maxUint256
       /\ forall rs, Forall (fun r => r <= maxUint256) rs ->
            let later := ensureEach walletClient token owner rs (after run) in
            Trace.approvals (events later) = []
            /\ result later
               = Ok (map (fun _ => {| Blockchain.approved := true;
                                      Blockchain.txHash := None |}) rs).
Proof.
  cbv zeta.
  assert (Hrun : post (Blockchain.ensureTokenApproval walletClient token owner
                         required) w (fun r w' es =>
    (forall t s amount from,
       In (t, s, amount, from) (Trace.approvals es) ->
       t = token /\ s = Config.LIMIT_ORDER_PROTOCOL_ADDRESS
       /\ amount = maxUint256 /\ account walletClient = Some from)
    /\ (List.length (Trace.approvals es) <= 1)%nat
    /\ forall (L : AllowanceLedger W) acct hash,
         account walletClient = Some acct ->
         owner = accountAddress acct ->
         r = Ok {| Blockchain.approved := true; Blockchain.txHash := Some hash |} ->
         allowanceOf w' token owner Config.LIMIT_ORDER_PROTOCOL_ADDRESS
         = maxUint256)).
  { unfold Blockchain.ensureTokenApproval, Blockchain.getTokenAllowance,
      Blockchain.approveToken.
    repeat step.
    all: cbn [Trace.approvals flat_map Trace.approval app List.length In].
    all: split;
      [ intros t s amount from Hin;
        first [ contradiction
              | destruct Hin as [E | []]; injection E as <- <- <- <-;
                repeat split; auto ] | ].
    all: split; [ lia | ].
    all: intros L acct hash Hacct Howner Hr; try discriminate Hr.
    injection Hr as <-. injection Hacct as <-. subst owner.
    match goal with
    | E : perform _ (WaitForTransactionReceipt _) ?w1 = _ |- _ =>
        pose proof (wait_keeps w1 r0 token (accountAddress a)
                      Config.LIMIT_ORDER_PROTOCOL_ADDRESS) as K;
        rewrite E in K; cbn [snd] in K; rewrite K
    end.
    eapply approve_sets; eassumption. }
  unfold post in Hrun. destruct Hrun as (Hin & Hlen & Hlast).
  split; [ exact Hin | split; [ exact Hlen | ] ].
  intros L acct hash Hacct Howner Hr.
  pose proof (Hlast L acct hash Hacct Howner Hr) as Hmax.
  split; [ exact Hmax | ].
  intros rs Hrs.
  pose proof (ensureEach_covered walletClient token owner rs Hrs _ Hmax) as Hlater.
  unfold post in Hlater. tauto.
Qed.

End ApprovalAmount.

(** The example ledger keeps allowances as ERC-20 does. *)
Lemma ledger_read_answers (w : Example.Ledger) token owner spender :
  fst (Example.answer Z (ReadAllowance token owner spender) w)
  = Resolved (Example.allowances w token owner spender).
Proof. reflexivity. Qed.

Lemma ledger_read_keeps (w : Example.Ledger) token owner spender t o s :
  Example.allowances
    (snd (Example.answer Z (ReadAllowance token owner spender) w)) t o s
  = Example.allowances w t o s.
Proof. reflexivity. Qed.

Lemma ledger_approve_sets (w : Example.Ledger) token spender amount from hash w' :
  Example.answer Hex (WriteApprove token spender amount from) w
  = (Resolved hash, w') ->
  Example.allowances w' token (accountAddress from) spender = amount.
Proof.
  cbn [Example.answer]. intros E. injection E as _ <-.
  cbn [Example.allowances]. rewrite !String.eqb_refl. reflexivity.
Qed.

Lemma ledger_wait_keeps (w : Example.Ledger) hash t o s :
  Example.allowances
    (snd (Example.answer TransactionReceipt (WaitForTransactionReceipt hash) w))
    t o s
  = Example.allowances w t o s.
Proof. reflexivity. Qed.

#[global] Instance ledger_allowances
  : @AllowanceLedger Example.Ledger Example.world :=
  {| allowanceOf := Example.allowances;
     read_answers := ledger_read_answers;
     read_keeps := ledger_read_keeps;
     approve_sets := ledger_approve_sets;
     wait_keeps := ledger_wait_keeps |}.

Section ApprovalExamples.

#[local] Existing Instances Example.libraries Example.world.

(** With an allowance of 5 on the example ledger, a required amount of 6
    asks for an approval and a required amount of 5 does not. *)
Lemma ensureTokenApproval_on_ledger :
  let w := Example.ledger 0 5 in
  let token := Config.address Config.USDC in
  let owner := accountAddress Example.maker in
  (Trace.approvals
     (events (Blockchain.ensureTokenApproval Example.wallet token owner 6 w))
   <> [] <-> 5 < 6)
  /\ (Trace.approvals
        (events (Blockchain.ensureTokenApproval Example.wallet token owner 5 w))
      <> [] <-> 5 < 5).
Proof.
  intros w token owner. split.
  - exact (proj1 (ensureTokenApproval_iff_allowance_short
                    Example.wallet token owner 6 w Example.maker 5 w
                    eq_refl eq_refl)).
  - exact (proj1 (ensureTokenApproval_iff_allowance_short
                    Example.wallet token owner 5 w Example.maker 5 w
                    eq_refl eq_refl)).
Defined.

(** After the approval the required amount of 6 asked for, the allowance
    on the example ledger is [maxUint256] and neither 7 nor [maxUint256]
    asks for another. *)
Lemma approval_on_ledger_lasts :
  let w := Example.ledger 0 5 in
  let token := Config.address Config.USDC in
  let owner := accountAddress Example.maker in
  let run := Blockchain.ensureTokenApproval Example.wallet token owner 6 w in
  Example.allowances (after run) token owner Config.LIMIT_ORDER_PROTOCOL_ADDRESS
  = maxUint256
  /\ Trace.approvals
       (events (ensureEach Example.wallet token owner [7; maxUint256] (after run)))
     = [].
Proof.
  intros w token owner run.
  destruct (approval_is_unlimited_and_lasting Example.wallet token owner 6 w)
    as (_ & _ & Hlast).
  destruct (Hlast ledger_allowances Example.maker "0xa1" eq_refl eq_refl eq_refl)
    as (Hmax & Hlater).
  split; [ exact Hmax | ].
  apply (Hlater [7; maxUint256]).
  repeat constructor; unfold maxUint256; lia.
Defined.

End ApprovalExamples.

(** ** Balance gating *)

Section BalanceGate.

Context {lib : Libraries} {env : Environment} {W : Type} `{World W}.

(** Asking for a quote is one HTTP request: no allowance is read, nothing
    is approved or signed. *)
Lemma getQuote_quiet (a : Z) (w : W) :
  existsb Trace.approvalOrSigning (events (QuoteApi.getQuote a w)) = false
  /\ Trace.approvals (events (QuoteApi.getQuote a w)) = [].
Proof.
  change (post (QuoteApi.getQuote a) w (fun _ _ es =>
            existsb Trace.approvalOrSigning es = false
            /\ Trace.approvals es = [])).
  unfold QuoteApi.getQuote, QuoteApi.responseJson, QuoteApi.propertyToBigInt.
  repeat step; split; reflexivity.
Qed.

Lemma existsb_cons_false {A} (p : A -> bool) x l :
  p x = false -> existsb p l = false -> existsb p (x :: l) = false.
Proof. intros Hx Hl. cbn. rewrite Hx, Hl. reflexivity. Qed.

Lemma existsb_app_false {A} (p : A -> bool) l l' :
  existsb p l = false -> existsb p l' = false -> existsb p (l ++ l') = false.
Proof. intros Hl Hl'. rewrite existsb_app, Hl, Hl'. reflexivity. Qed.

(** C5.  [validateSufficientBalance] reads the balance once and reports
    [sufficient] exactly when the balance read is at least the required
    amount.  In [generateOrder], when the amount parses to a positive
    number, the quote arrives, the key gives an account and the balance
    read is below the quoted input amount, the run throws the
    insufficient-balance error that names the required and the available
    amount, right after the balance read: no allowance is read, nothing is
    approved, awaited or signed. *)
Theorem insufficient_balance_halts :
  (forall (token owner : Hex) (required : Z) (w : W) (b : Z) (w' : W),
     perform Z (ReadBalanceOf token owner) w = (Resolved b, w') ->
     let check := Blockchain.validateSufficientBalance token owner required w in
     result check = Ok {| Blockchain.sufficient := b >=? required;
                          Blockchain.balance := b |}
     /\ events check = [Performed (ReadBalanceOf token owner) (Resolved b)]
     /\ ((b >=? required) = true <-> required <= b))
  /\ (forall (options : GenerateOrder.GenerateOrderOptions) (w : W)
        (a : Z) (quote : QuoteApi.QuoteResult) (acct : Account)
        (b : Z) (w2 : W),
      let makerToken := Config.makerAsset Config.ORDER_CONFIG in
      let fmt amount :=
        Config.formatTokenAmount amount (Config.decimals makerToken)
                                 (Some (Config.symbol makerToken)) in
      parseUnits (GenerateOrder.amountStr options) (Config.decimals makerToken)
      = Ok a ->
      0 < a ->
      result (QuoteApi.getQuote a w) = Ok quote ->
      privateKeyToAccount (GenerateOrder.makerPrivateKey options) = Ok acct ->
      perform Z (ReadBalanceOf (Config.address makerToken) (accountAddress acct))
              (after (QuoteApi.getQuote a w))
      = (Resolved b, w2) ->
      b < QuoteApi.inputAmount quote ->
      let run := GenerateOrder.generateOrder options w in
      result run
      = Throw (Error ("Insufficient USDC balance. Required: "
                      ++ fmt (QuoteApi.inputAmount quote)
                      ++ ", Available: " ++ fmt b))
      /\ after run = w2
      /\ existsb Trace.approvalOrSigning (events run) = false
      /\ Trace.approvals (events run) = []).
Proof.
  split.
  - intros token owner required w b w' Hread. cbv zeta.
    unfold Blockchain.validateSufficientBalance, Blockchain.getTokenBalance,
      bind, await, ret.
    rewrite Hread. cbn. repeat split; try reflexivity.
    + intros E. apply Z.geb_le in E. exact E.
    + intros E. apply Z.geb_le. exact E.
  - intros options w a quote acct b w2 makerToken fmt
      Hamount Hpos Hquote Hkey Hbal Hshort run.
    destruct (getQuote_quiet a w) as [Hquiet Hnone].
    subst run.
    change (post (GenerateOrder.generateOrder options) w (fun r w' es =>
      r = Throw (Error ("Insufficient USDC balance. Required: "
                        ++ fmt (QuoteApi.inputAmount quote)
                        ++ ", Available: " ++ fmt b))
      /\ w' = w2
      /\ existsb Trace.approvalOrSigning es = false
      /\ Trace.approvals es = [])).
    unfold GenerateOrder.generateOrder, GenerateOrder.log,
      Blockchain.createAccountFromPrivateKey,
      Blockchain.validateSufficientBalance, Blockchain.getTokenBalance.
    cbv zeta. fold makerToken. rewrite Hamount, Hkey.
    assert (E : (a <=? 0) = false) by (apply Z.leb_gt; exact Hpos).
    step. step. rewrite E.
    destruct (negb match GenerateOrder.silent options with
                   | Some b0 => b0
                   | None => false
                   end).
    all: repeat step.
    all: unfold post at 1; rewrite Hquote; cbv beta iota.
    all: repeat (step; try same_call;
                 try match goal with
                     | E : negb (_ >=? _) = false |- _ =>
                         apply negb_false_iff, Z.geb_le in E; lia
                     end).
    all: repeat split; try reflexivity.
    all: cbn [app].
    all: repeat first [ apply existsb_app_false | apply existsb_cons_false ];
      try reflexivity; try assumption.
    all: unfold Trace.approvals in *; cbn [flat_map Trace.approval app];
      rewrite flat_map_app, Hnone; reflexivity.
Qed.
End BalanceGate.

Section BalanceGateExample.

#[local] Existing Instances
  Example.libraries Example.world Example.environment.

(** One USDC is asked for on a ledger where the maker holds 0.999999. *)
Lemma generateOrder_on_short_ledger :
  let options :=
    {| GenerateOrder.makerPrivateKey := "0xa1";
       GenerateOrder.amountStr := "1";
       GenerateOrder.skipApproval := None;
       GenerateOrder.silent := None |} in
  let run := GenerateOrder.generateOrder options (Example.ledger 999999 0) in
  result run
  = Throw (Error "Insufficient USDC balance. Required: 1 USDC, Available: 0.999999 USDC")
  /\ existsb Trace.approvalOrSigning (events run) = false.
Proof.
  intros options run.
  destruct insufficient_balance_halts as [_ Hhalt].
  destruct (Hhalt options (Example.ledger 999999 0) 1000000
              {| QuoteApi.inputAmount := 1000000;
                 QuoteApi.outputAmount := 5000000000000000000;
                 QuoteApi.rate := Some "5";
                 QuoteApi.inputToken := Config.USDC;
                 QuoteApi.outputToken := Config.BRLA |}
              Example.maker 999999 (Example.ledger 999999 0))
    as (Hresult & _ & Hquiet & _).
  - vm_compute. reflexivity.
  - lia.
  - vm_compute. reflexivity.
  - reflexivity.
  - reflexivity.
  - cbn. lia.
  - split; [ | exact Hquiet ].
    fold run in Hresult. rewrite Hresult. vm_compute. reflexivity.
Defined.

End BalanceGateExample.

(** ** Strings as lists of characters *)

Lemma str_chars (s : string) : JS.str (JS.chars s) = s.
Proof. apply string_of_list_ascii_of_string. Qed.

Lemma chars_str (l : list ascii) : JS.chars (JS.str l) = l.
Proof. apply list_ascii_of_string_of_list_ascii. Qed.

Lemma chars_app (a b : string) :
  JS.chars (a ++ b) = (JS.chars a ++ JS.chars b)%list.
Proof. induction a as [| c a IH]; cbn; [ reflexivity | f_equal; exact IH ]. Qed.

Lemma str_app (l l' : list ascii) : JS.str (l ++ l') = JS.str l ++ JS.str l'.
Proof. induction l as [| c l IH]; cbn; [ reflexivity | f_equal; exact IH ]. Qed.

Lemma length_chars (s : string) : List.length (JS.chars s) = String.length s.
Proof. induction s as [| c s IH]; cbn; [ reflexivity | f_equal; exact IH ]. Qed.

Lemma length_str (l : list ascii) : String.length (JS.str l) = List.length l.
Proof. rewrite <- length_chars, chars_str. reflexivity. Qed.

Lemma chars_inj (s s' : string) : JS.chars s = JS.chars s' -> s = s'.
Proof. intros E. rewrite <- (str_chars s), <- (str_chars s'), E. reflexivity. Qed.

Lemma prefix_app (p s : string) : String.prefix p (p ++ s) = true.
Proof.
  induction p as [| c p IH]; cbn; [ destruct s; reflexivity | ].
  destruct (ascii_dec c c) as [_ | n]; [ exact IH | contradiction ].
Qed.

Lemma slice_0_app (n : nat) (a b : string) :
  String.length a = n -> JS.slice 0 n (a ++ b) = a.
Proof.
  intros <-. unfold JS.slice. cbn [skipn]. rewrite Nat.sub_0_r, chars_app.
  rewrite <- length_chars, firstn_app, Nat.sub_diag, firstn_all. cbn [firstn].
  rewrite app_nil_r. apply str_chars.
Qed.

(** The first [n] characters of a string are a prefix of it. *)
Lemma slice_0_prefix (n : nat) (s : string) :
  String.prefix (JS.slice 0 n s) s = true.
Proof.
  unfold JS.slice. cbn [skipn]. rewrite Nat.sub_0_r.
  rewrite <- (str_chars s) at 2.
  rewrite <- (firstn_skipn n (JS.chars s)) at 2.
  rewrite str_app. apply prefix_app.
Qed.

Lemma slice_0_length (n : nat) (s : string) :
  (n <= String.length s)%nat -> String.length (JS.slice 0 n s) = n.
Proof.
  intros Hn. unfold JS.slice. cbn [skipn].
  rewrite Nat.sub_0_r, length_str, length_firstn, length_chars. lia.
Qed.

(** ** test/fill.ts: naming a revert *)

Lemma prefix_refl (s : string) : String.prefix s s = true.
Proof.
  induction s as [ | c s IH]; [ reflexivity | ]. cbn [String.prefix].
  destruct (ascii_dec c c) as [_ | n]; [ exact IH | contradiction ].
Qed.

Lemma includes_app (a b : string) : includes (a ++ b) b = true.
Proof.
  induction a as [ | c a IH].
  - destruct b as [ | c b]; [ reflexivity | ].
    cbn [append includes]. rewrite prefix_refl. reflexivity.
  - cbn [append includes]. rewrite IH. apply orb_true_r.
Qed.

Lemma signature_plain (name : string) :
  Selector.signature name [] = name ++ "()".
Proof. reflexivity. Qed.

Section Lookup.

Variable toSelector : string -> Hex.
Variable selector : Hex.

Lemma lookup_function name inputs outputs mutability abi :
  Selector.lookup toSelector
    (Abi.AbiFunction name inputs outputs mutability :: abi) selector
  = Selector.lookup toSelector abi selector.
Proof. reflexivity. Qed.

Lemma lookup_error name inputs abi :
  Selector.lookup toSelector (Abi.AbiError name inputs :: abi) selector
  = if String.eqb selector (toSelector (Selector.signature name inputs))
    then Some (Abi.AbiError name inputs)
    else Selector.lookup toSelector abi selector.
Proof. reflexivity. Qed.

(** Among errors without inputs, a selector that one of them has is found
    with the first that has it. *)
Lemma lookup_listed (abi : list Abi.AbiItem) :
  Forall (fun e => snd e = 0%nat) (Abi.knownErrors abi) ->
  (exists name, In (name, 0%nat) (Abi.knownErrors abi)
                /\ selector = toSelector (name ++ "()")) ->
  exists name, In (name, 0%nat) (Abi.knownErrors abi)
               /\ selector = toSelector (name ++ "()")
               /\ Selector.lookup toSelector abi selector
                  = Some (Abi.AbiError name []).
Proof.
  induction abi as [ | item abi IH]; intros Hplain (name & Hin & Hname).
  - destruct Hin.
  - destruct item as [f inputs outputs mutability | n inputs].
    + rewrite lookup_function. apply IH; [ exact Hplain | eauto ].
    + cbn [Abi.knownErrors flat_map app] in Hplain, Hin |- *.
      fold (Abi.knownErrors abi) in Hplain, Hin |- *.
      apply Forall_cons_iff in Hplain. destruct Hplain as [Hn Hrest].
      cbn [snd] in Hn.
      destruct inputs as [ | input inputs]; [ | discriminate Hn ].
      rewrite lookup_error, signature_plain.
      destruct (String.eqb selector (toSelector (n ++ "()"))) eqn:E.
      * apply String.eqb_eq in E. exists n.
        split; [ left; reflexivity | split; [ exact E | reflexivity ] ].
      * apply String.eqb_neq in E.
        destruct Hin as [Hhere | Hlater].
        -- injection Hhere as ->. contradiction.
        -- destruct (IH Hrest (ex_intro _ name (conj Hlater Hname)))
             as (name' & Hin' & Hname' & Hfound).
           exists name'. split; [ right; exact Hin' | split; assumption ].
Qed.

(** A selector that none of them has, and neither of Solidity's own
    errors, is not found. *)
Lemma lookup_unlisted (abi : list Abi.AbiItem) :
  Forall (fun e => snd e = 0%nat) (Abi.knownErrors abi) ->
  (forall name, In (name, 0%nat) (Abi.knownErrors abi) ->
                selector <> toSelector (name ++ "()")) ->
  Selector.lookup toSelector abi selector
  = Selector.lookup toSelector [] selector.
Proof.
  induction abi as [ | item abi IH]; intros Hplain Hnone; [ reflexivity | ].
  destruct item as [f inputs outputs mutability | n inputs].
  - rewrite lookup_function. apply IH; assumption.
  - cbn [Abi.knownErrors flat_map app] in Hplain, Hnone.
    fold (Abi.knownErrors abi) in Hplain, Hnone.
    apply Forall_cons_iff in Hplain. destruct Hplain as [Hn Hrest].
      cbn [snd] in Hn.
    destruct inputs as [ | input inputs]; [ | discriminate Hn ].
    rewrite lookup_error, signature_plain.
    destruct (String.eqb selector (toSelector (n ++ "()"))) eqn:E.
    + apply String.eqb_eq in E.
      destruct (Hnone n (or_introl eq_refl) E).
    + apply IH; [ exact Hrest | ].
      intros name Hin. apply Hnone. right. exact Hin.
Qed.

End Lookup.

Section DecodeRevertError.

Context {lib : Libraries} {decoding : ErrorDecoding}.


End DecodeRevertError.

(** The example decoder is such a decoder. *)
Lemma example_decodes_plain abi data name :
  JS.startsWith data "0x" = true ->
  Selector.lookup ExampleDecoder.selectorOf abi (JS.slice 0 10 data)
  = Some (Abi.AbiError name []) ->
  @decodeErrorResult ExampleDecoder.libraries abi data
  = Ok {| errorName := name; args := None |}.
Proof.
  intros _ Hlookup. change (decodeErrorResult abi data)
    with (ExampleDecoder.decode abi data).
  unfold ExampleDecoder.decode. rewrite Hlookup. reflexivity.
Qed.

Lemma example_decodes_arguments abi data name input inputs decoded :
  JS.startsWith data "0x" = true ->
  Selector.lookup ExampleDecoder.selectorOf abi (JS.slice 0 10 data)
  = Some (Abi.AbiError name (input :: inputs)) ->
  @decodeErrorResult ExampleDecoder.libraries abi data = Ok decoded ->
  errorName decoded = name /\ exists a rest, args decoded = Some (a :: rest).
Proof.
  intros _ Hlookup. change (decodeErrorResult abi data)
    with (ExampleDecoder.decode abi data).
  unfold ExampleDecoder.decode. rewrite Hlookup. intros E. injection E as <-.
  split; [ reflexivity | do 2 eexists; reflexivity ].
Qed.

Lemma example_refuses_unlisted abi data :
  JS.startsWith data "0x" = true ->
  Selector.lookup ExampleDecoder.selectorOf abi (JS.slice 0 10 data) = None ->
  exists e, @decodeErrorResult ExampleDecoder.libraries abi data
            = Throw e.
Proof.
  intros _ Hlookup. change (decodeErrorResult abi data)
    with (ExampleDecoder.decode abi data).
  unfold ExampleDecoder.decode. rewrite Hlookup. eauto.
Qed.

#[global] Instance example_decoding : @ErrorDecoding ExampleDecoder.libraries :=
  {| toFunctionSelector := ExampleDecoder.selectorOf;
     decodes_plain := example_decodes_plain;
     decodes_arguments := example_decodes_arguments;
     refuses_unlisted := example_refuses_unlisted |}.

Section DecodeRevertErrorExample.

#[local] Existing Instance ExampleDecoder.libraries.



End DecodeRevertErrorExample.

(** ** Digits *)

Lemma digitValue_digitChar (d : Z) :
  0 <= d < 16 -> JS.digitValue (JS.digitChar d) = Some d.
Proof.
  intros Hd.
  assert (E : d = 0 \/ d = 1 \/ d = 2 \/ d = 3 \/ d = 4 \/ d = 5 \/ d = 6
              \/ d = 7 \/ d = 8 \/ d = 9 \/ d = 10 \/ d = 11 \/ d = 12
              \/ d = 13 \/ d = 14 \/ d = 15) by lia.
  repeat (destruct E as [-> | E]; [ reflexivity | ]). subst d. reflexivity.
Qed.

Lemma digitIn_digitChar (radix d : Z) :
  radix <= 16 -> digit radix d -> JS.digitIn radix (JS.digitChar d) = Some d.
Proof.
  intros Hradix [Hd0 Hd]. unfold JS.digitIn.
  rewrite digitValue_digitChar by lia.
  destruct (d <? radix) eqn:E; [ reflexivity | apply Z.ltb_ge in E; lia ].
Qed.

Lemma fromDigits_cons radix d ds acc :
  JS.fromDigits radix (d :: ds) acc = JS.fromDigits radix ds (acc * radix + d).
Proof. reflexivity. Qed.

Lemma fromDigits_app radix ds ds' acc :
  JS.fromDigits radix (ds ++ ds') acc
  = JS.fromDigits radix ds' (JS.fromDigits radix ds acc).
Proof. apply fold_left_app. Qed.

Lemma fromDigits_acc radix ds acc :
  JS.fromDigits radix ds acc
  = acc * radix ^ Z.of_nat (List.length ds) + JS.fromDigits radix ds 0.
Proof.
  revert acc. induction ds as [| d ds IH]; intros acc.
  - cbn. lia.
  - rewrite !fromDigits_cons, (IH (acc * radix + d)), (IH (0 * radix + d)).
    cbn [List.length]. rewrite Nat2Z.inj_succ, Z.pow_succ_r by lia. ring.
Qed.

Lemma fromDigits_zeros radix k acc :
  JS.fromDigits radix (repeat 0 k) acc = acc * radix ^ Z.of_nat k.
Proof.
  revert acc. induction k as [| k IH]; intros acc.
  - cbn. lia.
  - cbn [repeat]. rewrite fromDigits_cons, IH, Nat2Z.inj_succ, Z.pow_succ_r by lia.
    ring.
Qed.

(** The digits of a number below [radix ^ k] are below it too. *)
Lemma fromDigits_bound radix ds :
  0 < radix -> Forall (digit radix) ds ->
  0 <= JS.fromDigits radix ds 0 < radix ^ Z.of_nat (List.length ds).
Proof.
  intros Hradix Hds. induction Hds as [| d ds Hd Hds IH].
  - cbn. lia.
  - rewrite fromDigits_cons, fromDigits_acc. cbn [List.length].
    rewrite Nat2Z.inj_succ, Z.pow_succ_r by lia. unfold digit in Hd.
    assert (0 < radix ^ Z.of_nat (List.length ds))
      by (apply Z.pow_pos_nonneg; lia).
    nia.
Qed.

Lemma toDigits_value fuel radix n acc :
  0 < radix ->
  JS.fromDigits radix (JS.toDigits fuel radix n acc) 0 = JS.fromDigits radix acc n.
Proof.
  intros Hradix. revert n acc.
  induction fuel as [| fuel IH]; intros n acc; cbn [JS.toDigits].
  - rewrite fromDigits_cons. f_equal.
  - destruct (n <? radix).
    + rewrite fromDigits_cons. f_equal.
    + rewrite IH, fromDigits_cons. f_equal.
      rewrite (Z.div_mod n radix) at 3 by lia. ring.
Qed.

Lemma toDigits_digits fuel radix n acc :
  2 <= radix -> 0 <= n < 2 ^ (Z.of_nat fuel + 1) ->
  Forall (digit radix) acc ->
  Forall (digit radix) (JS.toDigits fuel radix n acc).
Proof.
  intros Hradix. revert n acc.
  induction fuel as [| fuel IH]; intros n acc Hn Hacc; cbn [JS.toDigits].
  - constructor; [ | exact Hacc ]. cbn in Hn. unfold digit. lia.
  - destruct (n <? radix) eqn:E.
    + apply Z.ltb_lt in E. constructor; [ unfold digit; lia | exact Hacc ].
    + apply Z.ltb_ge in E. apply IH.
      * split; [ apply Z.div_pos; lia | ].
        apply Z.div_lt_upper_bound; [ lia | ].
        rewrite Nat2Z.inj_succ in Hn.
        replace (Z.succ (Z.of_nat fuel) + 1) with (Z.succ (Z.of_nat fuel + 1))
          in Hn by lia.
        rewrite Z.pow_succ_r in Hn by lia.
        assert (0 < 2 ^ (Z.of_nat fuel + 1)) by (apply Z.pow_pos_nonneg; lia).
        nia.
      * constructor; [ | exact Hacc ].
        unfold digit. apply Z.mod_pos_bound. lia.
Qed.

Lemma toDigits_length fuel radix n acc (k : nat) :
  2 <= radix -> 0 <= n < radix ^ Z.of_nat k -> (1 <= k)%nat ->
  (1 + List.length acc <= List.length (JS.toDigits fuel radix n acc)
   <= k + List.length acc)%nat.
Proof.
  intros Hradix. revert n acc k.
  induction fuel as [| fuel IH]; intros n acc k Hn Hk; cbn [JS.toDigits].
  - cbn [List.length]. lia.
  - destruct (n <? radix) eqn:E.
    + cbn [List.length]. lia.
    + apply Z.ltb_ge in E.
      destruct k as [| [| k]]; [ lia | | ].
      * change (Z.of_nat 1) with 1 in Hn. rewrite Z.pow_1_r in Hn. lia.
      * specialize (IH (n / radix) (n mod radix :: acc) (S k)).
        cbn [List.length] in IH.
        assert (0 <= n / radix < radix ^ Z.of_nat (S k)).
        { split; [ apply Z.div_pos; lia | ].
          apply Z.div_lt_upper_bound; [ lia | ].
          rewrite (Nat2Z.inj_succ (S k)), Z.pow_succ_r in Hn by lia. lia. }
        lia.
Qed.

Lemma log2_fuel n : 0 <= n -> n < 2 ^ (Z.of_nat (Z.to_nat (Z.log2 n)) + 1).
Proof.
  intros Hn. rewrite Z2Nat.id by apply Z.log2_nonneg.
  destruct (Z.eq_dec n 0) as [-> | Hne]; [ reflexivity | ].
  apply Z.log2_spec. lia.
Qed.

Lemma digitsOf_value radix n : 0 < radix -> JS.fromDigits radix (JS.digitsOf radix n) 0 = n.
Proof. intros Hradix. unfold JS.digitsOf. rewrite toDigits_value by lia. reflexivity. Qed.

Lemma digitsOf_digits radix n :
  2 <= radix -> 0 <= n -> Forall (digit radix) (JS.digitsOf radix n).
Proof.
  intros Hradix Hn. apply toDigits_digits; [ lia | | constructor ].
  split; [ lia | apply log2_fuel; lia ].
Qed.

Lemma digitsOf_length radix n (k : nat) :
  2 <= radix -> 0 <= n < radix ^ Z.of_nat k -> (1 <= k)%nat ->
  (1 <= List.length (JS.digitsOf radix n) <= k)%nat.
Proof.
  intros Hradix Hn Hk.
  pose proof (toDigits_length (Z.to_nat (Z.log2 n)) radix n [] k Hradix Hn Hk) as L.
  cbn [List.length] in L. unfold JS.digitsOf. lia.
Qed.

(** ** Reading digits *)

Lemma parseDigits_app radix cs cs' acc :
  JS.parseDigits radix (cs ++ cs') acc
  = match JS.parseDigits radix cs acc with
    | Some a => JS.parseDigits radix cs' a
    | None => None
    end.
Proof.
  revert acc. induction cs as [| c cs IH]; intros acc; cbn; [ reflexivity | ].
  destruct (JS.digitIn radix c); [ apply IH | reflexivity ].
Qed.

Lemma parseDigits_digitChars radix ds acc :
  radix <= 16 -> Forall (digit radix) ds ->
  JS.parseDigits radix (map JS.digitChar ds) acc = Some (JS.fromDigits radix ds acc).
Proof.
  intros Hradix Hds. revert acc.
  induction Hds as [| d ds Hd Hds IH]; intros acc; cbn [map JS.parseDigits].
  - reflexivity.
  - rewrite digitIn_digitChar by assumption. apply IH.
Qed.

Lemma digitIn_range radix c d : JS.digitIn radix c = Some d -> 0 <= d < radix.
Proof.
  unfold JS.digitIn, JS.digitValue, JS.code.
  pose proof (N2Z.is_nonneg (N_of_ascii c)).
  repeat match goal with
         | |- context [if ?b then _ else _] => destruct b eqn:?
         end; intros E; try discriminate E; injection E as <-; lia.
Qed.

(** What [parseDigits] reads from [cs] is below [radix ^ length cs]. *)
Lemma parseDigits_bound radix cs acc v :
  0 < radix -> 0 <= acc ->
  JS.parseDigits radix cs acc = Some v ->
  acc * radix ^ Z.of_nat (List.length cs) <= v
  < (acc + 1) * radix ^ Z.of_nat (List.length cs).
Proof.
  intros Hradix. revert acc.
  induction cs as [| c cs IH]; intros acc Hacc; cbn [JS.parseDigits List.length].
  - intros E. injection E as <-. cbn. lia.
  - destruct (JS.digitIn radix c) as [d |] eqn:Hd; [ | discriminate ].
    apply digitIn_range in Hd. intros E. apply IH in E; [ | nia ].
    rewrite Nat2Z.inj_succ, Z.pow_succ_r by lia.
    assert (0 < radix ^ Z.of_nat (List.length cs))
      by (apply Z.pow_pos_nonneg; lia).
    nia.
Qed.

Lemma parseDigits_all radix cs acc v :
  JS.parseDigits radix cs acc = Some v ->
  forallb (JS.isDigitIn radix) cs = true.
Proof.
  revert acc. induction cs as [| c cs IH]; intros acc; cbn; [ reflexivity | ].
  unfold JS.isDigitIn. destruct (JS.digitIn radix c); [ apply IH | discriminate ].
Qed.

Lemma parseDigits_some radix cs acc :
  forallb (JS.isDigitIn radix) cs = true ->
  exists v, JS.parseDigits radix cs acc = Some v.
Proof.
  revert acc. induction cs as [| c cs IH]; intros acc; cbn.
  - eauto.
  - unfold JS.isDigitIn. destruct (JS.digitIn radix c); cbn; [ apply IH | discriminate ].
Qed.

(** ** Characters *)

Lemma hex_plain c : JS.isDigitIn 16 c = true -> plain c = true.
Proof.
  destruct c as [[] [] [] [] [] [] [] []]; vm_compute; intros E;
    first [ reflexivity | discriminate E ].
Qed.

Lemma decimal_not_b c :
  JS.isDigitIn 10 c = true -> Ascii.eqb c "b" || Ascii.eqb c "B" = false.
Proof.
  destruct c as [[] [] [] [] [] [] [] []]; vm_compute; intros E;
    first [ reflexivity | discriminate E ].
Qed.

Lemma isDigitIn_le radix radix' c :
  radix <= radix' -> JS.isDigitIn radix c = true -> JS.isDigitIn radix' c = true.
Proof.
  unfold JS.isDigitIn, JS.digitIn. intros Hle.
  destruct (JS.digitValue c) as [d |]; [ | discriminate ].
  destruct (d <? radix) eqn:E; [ | discriminate ].
  apply Z.ltb_lt in E. intros _.
  destruct (d <? radix') eqn:E'; [ reflexivity | apply Z.ltb_ge in E'; lia ].
Qed.

Lemma isDigitIn_digitChar radix d :
  radix <= 16 -> digit radix d -> JS.isDigitIn radix (JS.digitChar d) = true.
Proof.
  intros Hradix Hd. unfold JS.isDigitIn. rewrite digitIn_digitChar by assumption.
  reflexivity.
Qed.

(** ** Trimming *)

Lemma dropWhile_none {A} (p : A -> bool) l :
  forallb (fun x => negb (p x)) l = true -> JS.dropWhile p l = l.
Proof.
  destruct l as [| x l]; cbn; [ reflexivity | ].
  destruct (p x); [ discriminate | reflexivity ].
Qed.

Lemma dropWhileEnd_none {A} (p : A -> bool) l :
  forallb (fun x => negb (p x)) l = true -> JS.dropWhileEnd p l = l.
Proof.
  intros Hl. unfold JS.dropWhileEnd.
  rewrite dropWhile_none; [ apply rev_involutive | ].
  rewrite forallb_forall in *. intros x Hx. apply Hl, in_rev, Hx.
Qed.

Lemma trim_plain cs : forallb plain cs = true -> JS.trim cs = cs.
Proof.
  intros Hcs.
  assert (H : forallb (fun c => negb (JS.isWhiteSpace c)) cs = true).
  { rewrite forallb_forall in *. intros c Hc. specialize (Hcs c Hc).
    unfold plain in Hcs. rewrite !andb_true_iff in Hcs. tauto. }
  unfold JS.trim. rewrite dropWhile_none by exact H. apply dropWhileEnd_none, H.
Qed.

Lemma forallb_impl {A} (p q : A -> bool) l :
  (forall x, p x = true -> q x = true) ->
  forallb p l = true -> forallb q l = true.
Proof.
  intros Hpq. rewrite !forallb_forall. auto.
Qed.

Lemma trim_none cs :
  forallb (fun c => negb (JS.isWhiteSpace c)) cs = true -> JS.trim cs = cs.
Proof.
  intros H. unfold JS.trim.
  rewrite dropWhile_none by exact H. apply dropWhileEnd_none, H.
Qed.

Lemma plain_not_space c : plain c = true -> negb (JS.isWhiteSpace c) = true.
Proof. unfold plain. rewrite !andb_true_iff. tauto. Qed.

Lemma hex_not_space cs :
  forallb (JS.isDigitIn 16) cs = true ->
  forallb (fun c => negb (JS.isWhiteSpace c)) cs = true.
Proof.
  apply forallb_impl. intros c Hc. apply plain_not_space, hex_plain, Hc.
Qed.

(** ** [BigInt] of the strings the sources build *)

(** [BigInt("0x" + digits)] reads the hexadecimal digits. *)
Lemma BigInt_0x (cs : list ascii) :
  cs <> [] -> forallb (JS.isDigitIn 16) cs = true ->
  JS.BigInt ("0x" ++ JS.str cs) = JS.parseDigits 16 cs 0.
Proof.
  intros Hne Hcs. unfold JS.BigInt.
  rewrite chars_app, chars_str.
  change (JS.chars "0x") with ["0"%char; "x"%char]. cbn [app].
  rewrite trim_none by (cbn [forallb]; rewrite hex_not_space by exact Hcs; reflexivity).
  cbn. destruct cs; [ contradiction | reflexivity ].
Qed.

Lemma toString_nonneg radix n :
  0 <= n -> JS.toString radix n = JS.str (map JS.digitChar (JS.digitsOf radix n)).
Proof.
  intros Hn. unfold JS.toString.
  destruct (n <? 0) eqn:E; [ apply Z.ltb_lt in E; lia | reflexivity ].
Qed.

Lemma padStart_digits (k : nat) (ds : list Z) :
  JS.padStart k "0" (JS.str (map JS.digitChar ds))
  = JS.str (map JS.digitChar (repeat 0 (k - List.length ds) ++ ds)).
Proof.
  unfold JS.padStart.
  rewrite length_str, length_map, chars_str, map_app, map_repeat. reflexivity.
Qed.

Lemma fromDigits_padded radix m ds :
  JS.fromDigits radix (repeat 0 m ++ ds) 0 = JS.fromDigits radix ds 0.
Proof. rewrite fromDigits_app, fromDigits_zeros. reflexivity. Qed.

Lemma Forall_digit_padded radix m ds :
  0 < radix -> Forall (digit radix) ds -> Forall (digit radix) (repeat 0 m ++ ds).
Proof.
  intros Hradix Hds. apply Forall_app. split; [ | exact Hds ].
  apply Forall_forall. intros d Hd. apply repeat_spec in Hd. subst d.
  unfold digit. lia.
Qed.

Lemma toDigits_nonempty fuel radix n acc : JS.toDigits fuel radix n acc <> [].
Proof.
  revert n acc. induction fuel as [| fuel IH]; intros n acc; cbn [JS.toDigits].
  - discriminate.
  - destruct (n <? radix); [ discriminate | apply IH ].
Qed.

Lemma digitsOf_nonempty radix n : JS.digitsOf radix n <> [].
Proof. apply toDigits_nonempty. Qed.

(** A number that is not negative, in hexadecimal with zeros on the left
    up to [k] digits and ["0x"] in front: the digits and what they denote. *)
Lemma hex_rendering (k : nat) (n : Z) :
  0 <= n ->
  let ds := (repeat 0 (k - List.length (JS.digitsOf 16 n)) ++ JS.digitsOf 16 n)%list in
  "0x" ++ JS.padStart k "0" (JS.toString 16 n) = "0x" ++ JS.str (map JS.digitChar ds)
  /\ Forall (digit 16) ds
  /\ JS.fromDigits 16 ds 0 = n
  /\ (n < 16 ^ Z.of_nat k -> (1 <= k)%nat -> List.length ds = k)
  /\ JS.BigInt ("0x" ++ JS.padStart k "0" (JS.toString 16 n)) = Some n.
Proof.
  intros Hn ds.
  assert (Hds : Forall (digit 16) ds)
    by (apply Forall_digit_padded; [ lia | apply digitsOf_digits; lia ]).
  assert (Hval : JS.fromDigits 16 ds 0 = n)
    by (unfold ds; rewrite fromDigits_padded; apply digitsOf_value; lia).
  assert (Hstr : JS.padStart k "0" (JS.toString 16 n) = JS.str (map JS.digitChar ds))
    by (rewrite toString_nonneg by lia; apply padStart_digits).
  repeat split.
  - rewrite Hstr. reflexivity.
  - exact Hds.
  - exact Hval.
  - intros Hlt Hk. unfold ds. rewrite length_app, repeat_length.
    pose proof (digitsOf_length 16 n k ltac:(lia) ltac:(lia) Hk). lia.
  - rewrite Hstr, BigInt_0x.
    + rewrite parseDigits_digitChars by (lia || exact Hds). rewrite Hval. reflexivity.
    + unfold ds. intros E. apply map_eq_nil, app_eq_nil in E.
      destruct E as [_ E]. exact (digitsOf_nonempty 16 n E).
    + rewrite forallb_forall. intros c Hc. apply in_map_iff in Hc.
      destruct Hc as (d & <- & Hd). apply isDigitIn_digitChar; [ lia | ].
      rewrite Forall_forall in Hds. apply Hds, Hd.
Qed.

(** ** lib/order.ts: the order hash *)

Section OrderHash.

Context {lib : Libraries} {W : Type} `{World W}.

(** C3.  For an order whose salt is a uint256, [computeOrderHash] is
    ["0x"] followed by 64 hexadecimal digits that denote the salt: 66
    characters that [BigInt] reads back as the salt.  It looks at no other
    field, so orders with one salt have one hash.  The [orderHash] of a
    signed order [generateSignedOrder] returns is that string for the
    order it holds. *)
Theorem computeOrderHash_is_padded_salt :
  (forall order : LimitOrder.t,
     0 <= LimitOrder.salt order < 2 ^ 256 ->
     let hash := Order.computeOrderHash order in
     (exists ds,
        Forall (digit 16) ds /\ List.length ds = 64%nat
        /\ JS.fromDigits 16 ds 0 = LimitOrder.salt order
        /\ hash = "0x" ++ JS.str (map JS.digitChar ds))
     /\ JS.length hash = 66%nat
     /\ JS.BigInt hash = Some (LimitOrder.salt order))
  /\ (forall order order' : LimitOrder.t,
        LimitOrder.salt order = LimitOrder.salt order' ->
        Order.computeOrderHash order = Order.computeOrderHash order')
  /\ (forall (params : Order.OrderParams.t) (walletClient : WalletClient)
             (w : W) (signed : Order.SignedOrder.t),
        result (Order.generateSignedOrder params walletClient w) = Ok signed ->
        Order.SignedOrder.orderHash signed
        = Order.computeOrderHash (Order.SignedOrder.order signed)
        /\ Order.SignedOrder.orderHash signed
           = "0x" ++ JS.padStart 64 "0"
                       (JS.toString 16
                          (LimitOrder.salt (Order.SignedOrder.order signed)))).
Proof.
  split; [ | split ].
  - intros order Hsalt hash.
    destruct (hex_rendering 64 (LimitOrder.salt order) (proj1 Hsalt))
      as (Hstr & Hds & Hval & Hlen & Hread).
    assert (L : List.length
                  (repeat 0 (64 - List.length
                                    (JS.digitsOf 16 (LimitOrder.salt order)))
                   ++ JS.digitsOf 16 (LimitOrder.salt order)) = 64%nat).
    { apply Hlen; [ | lia ]. change (16 ^ Z.of_nat 64) with (2 ^ 256). lia. }
    unfold hash, Order.computeOrderHash. split; [ | split ].
    + eexists. repeat split; [ exact Hds | exact L | exact Hval | exact Hstr ].
    + rewrite Hstr. unfold JS.length. cbn [append String.length].
      rewrite length_str, length_map, L. reflexivity.
    + exact Hread.
  - intros order order' E. unfold Order.computeOrderHash. rewrite E. reflexivity.
  - intros params walletClient w signed.
    change (post (Order.generateSignedOrder params walletClient) w (fun r _ _ =>
      r = Ok signed ->
      Order.SignedOrder.orderHash signed
      = Order.computeOrderHash (Order.SignedOrder.order signed)
      /\ Order.SignedOrder.orderHash signed
         = "0x" ++ JS.padStart 64 "0"
                     (JS.toString 16
                        (LimitOrder.salt (Order.SignedOrder.order signed))))).
    unfold Order.generateSignedOrder, Order.createLimitOrder,
      Order.buildMakerTraits, Order.signOrder.
    repeat step.
    all: intros E; try discriminate E; injection E as <-; split; reflexivity.
Qed.

End OrderHash.

Section OrderHashExample.

#[local] Existing Instances Example.libraries Example.world.

(** The order signed on the example ledger has the salt 12345, which is
    3039 in hexadecimal. *)
Lemma orderHash_on_ledger :
  exists signed,
    result (Order.generateSignedOrder
              {| Order.OrderParams.makerAsset := Config.address Config.USDC;
                 Order.OrderParams.takerAsset := Config.address Config.BRLA;
                 Order.OrderParams.makingAmount := 1000000;
                 Order.OrderParams.takingAmount := 5000000000000000000;
                 Order.OrderParams.maker := accountAddress Example.maker;
                 Order.OrderParams.receiver := None;
                 Order.OrderParams.expirationMinutes := Some 60 |}
              Example.wallet (Example.ledger 0 0))
    = Ok signed
    /\ Order.SignedOrder.orderHash signed
       = "0x0000000000000000000000000000000000000000000000000000000000003039".
Proof.
  eexists. split; [ vm_compute; reflexivity | ].
  destruct computeOrderHash_is_padded_salt as (_ & _ & Hsigned).
  match goal with
  | |- Order.SignedOrder.orderHash ?signed = _ =>
      destruct (Hsigned
                  {| Order.OrderParams.makerAsset := Config.address Config.USDC;
                     Order.OrderParams.takerAsset := Config.address Config.BRLA;
                     Order.OrderParams.makingAmount := 1000000;
                     Order.OrderParams.takingAmount := 5000000000000000000;
                     Order.OrderParams.maker := accountAddress Example.maker;
                     Order.OrderParams.receiver := None;
                     Order.OrderParams.expirationMinutes := Some 60 |}
                  Example.wallet (Example.ledger 0 0) signed)
        as [_ Hhash]; [ vm_compute; reflexivity | ];
      rewrite Hhash
  end.
  vm_compute. reflexivity.
Defined.

End OrderHashExample.

(** ** lib/order.ts: compact signatures *)

Lemma forallb_firstn {A} (p : A -> bool) n l :
  forallb p l = true -> forallb p (firstn n l) = true.
Proof.
  intros Hl. rewrite <- (firstn_skipn n l), forallb_app in Hl.
  apply andb_true_iff in Hl. tauto.
Qed.

Lemma forallb_skipn {A} (p : A -> bool) n l :
  forallb p l = true -> forallb p (skipn n l) = true.
Proof.
  intros Hl. rewrite <- (firstn_skipn n l), forallb_app in Hl.
  apply andb_true_iff in Hl. tauto.
Qed.

Lemma parseSignatureToCompact_body (signature : Hex) :
  Order.parseSignatureToCompact signature
  = let sig := signatureBody signature in
    if negb (Nat.eqb (JS.length sig) 130) then
      Throw (Error ("Invalid signature length: expected 130 hex chars, got "
                    ++ JS.toString 10 (Z.of_nat (JS.length sig))))
    else
      bindR (toBigInt ("0x" ++ JS.slice 64 128 sig)) (fun sBigInt =>
      Ok {| Order.r := "0x" ++ JS.slice 0 64 sig;
            Order.vs :=
              "0x" ++ JS.padStart 64 "0"
                        (JS.toString 16
                           (if Order.is28 (JS.parseInt16 (JS.slice 128 130 sig))
                            then Z.lor sBigInt (Z.shiftl 1 255)
                            else sBigInt)) |}).
Proof. reflexivity. Qed.




Lemma length_append (a b : string) :
  String.length (a ++ b) = (String.length a + String.length b)%nat.
Proof. rewrite <- !length_chars, chars_app, length_app. reflexivity. Qed.

Lemma slice_app_skip (n i j : nat) (a b : string) :
  String.length a = n -> JS.slice (n + i) (n + j) (a ++ b) = JS.slice i j b.
Proof.
  intros Ha. unfold JS.slice. rewrite chars_app, skipn_app, length_chars, Ha.
  rewrite skipn_all2 by (rewrite length_chars; lia). cbn [app].
  replace (n + j - (n + i))%nat with (j - i)%nat by lia.
  replace (n + i - n)%nat with i by lia. reflexivity.
Qed.

Lemma slice_0_all (n : nat) (a : string) :
  String.length a = n -> JS.slice 0 n a = a.
Proof.
  intros <-. unfold JS.slice. cbn [skipn].
  rewrite Nat.sub_0_r, <- length_chars, firstn_all. apply str_chars.
Qed.

Lemma signatureBody_0x (body : string) : signatureBody ("0x" ++ body) = body.
Proof.
  unfold signatureBody, JS.startsWith. rewrite prefix_app.
  unfold JS.sliceFrom. rewrite chars_app. cbn. apply str_chars.
Qed.

(** A string that begins with a hexadecimal digit twice has no ["0x"] in
    front. *)
Lemma signatureBody_hex (body : string) :
  (2 <= String.length body)%nat ->
  forallb (JS.isDigitIn 16) (JS.chars body) = true ->
  signatureBody body = body.
Proof.
  intros Hlen Hhex. unfold signatureBody, JS.startsWith.
  destruct body as [| c [| c' body]]; cbn in Hlen; try lia.
  cbn in Hhex. apply andb_true_iff in Hhex. destruct Hhex as [_ Hhex].
  apply andb_true_iff in Hhex. destruct Hhex as [Hc' _].
  apply hex_plain in Hc'. unfold plain in Hc'. rewrite !andb_true_iff in Hc'.
  destruct Hc' as [[[[[_ Hx] _] _] _] _].
  apply negb_true_iff, Ascii.eqb_neq in Hx.
  cbn [String.prefix].
  destruct (ascii_dec "0" c); [ | reflexivity ].
  destruct (ascii_dec "x" c'); [ | reflexivity ].
  congruence.
Qed.

(** [parseInt] reads two hexadecimal digits as [parseDigits] does. *)
Lemma parseInt16_hex2 (V : string) (v : Z) :
  String.length V = 2%nat -> hexValue V = Some v -> JS.parseInt16 V = Some v.
Proof.
  intros Hlen Hv. unfold hexValue in Hv.
  pose proof (parseDigits_all _ _ _ _ Hv) as Hhex.
  destruct V as [| c [| c' [| ? ?]]]; try discriminate Hlen.
  cbn [JS.chars list_ascii_of_string] in *.
  cbn [forallb] in Hhex. rewrite !andb_true_iff in Hhex.
  destruct Hhex as (Hc & Hc' & _).
  pose proof (hex_plain c Hc) as Pc. pose proof (hex_plain c' Hc') as Pc'.
  unfold plain in Pc, Pc'. rewrite !andb_true_iff, !negb_true_iff in Pc, Pc'.
  destruct Pc as [[[[[[[Hw Hplus] Hminus] _] _] _] _] _].
  destruct Pc' as [[[[[[[_ _] _] Hx] HX] _] _] _].
  unfold JS.parseInt16. cbn [JS.chars list_ascii_of_string JS.dropWhile].
  rewrite Hw, Hminus, Hplus, Hx, HX, andb_false_r.
  cbn [JS.takeWhile]. rewrite Hc, Hc'. cbn [JS.parseNonEmptyDigits].
  rewrite Hv. reflexivity.
Qed.

(** ** The top bit *)

Lemma shiftl_1_255 : Z.shiftl 1 255 = 2 ^ 255.
Proof. reflexivity. Qed.

Lemma lor_top (s : Z) : 0 <= s < 2 ^ 255 -> Z.lor s (2 ^ 255) = s + 2 ^ 255.
Proof.
  intros Hs.
  assert (Hland : Z.land s (2 ^ 255) = 0).
  { apply Z.bits_inj'. intros n Hn. rewrite Z.land_spec, Z.bits_0.
    rewrite (Z.pow2_bits_eqb 255 n) by lia.
    destruct (Z.eqb_spec 255 n) as [<- | _]; [ | apply andb_false_r ].
    rewrite (Z.bits_above_log2 s 255); [ reflexivity | lia | ].
    destruct (Z.eq_dec s 0) as [-> | Hne]; [ reflexivity | ].
    apply Z.log2_lt_pow2; lia. }
  rewrite <- (Z.lxor_lor _ _ Hland). symmetry.
  apply Z.add_nocarry_lxor, Hland.
Qed.

Lemma lor_top_bound (s : Z) :
  0 <= s < 2 ^ 256 -> 0 <= Z.lor s (2 ^ 255) < 2 ^ 256.
Proof.
  intros Hs.
  assert (H0 : 0 <= Z.lor s (2 ^ 255)) by (apply Z.lor_nonneg; lia).
  split; [ exact H0 | ].
  apply Z.log2_lt_pow2.
  - assert (Z.lor s (2 ^ 255) <> 0); [ | lia ].
    intros E. apply Z.lor_eq_0_iff in E. destruct E as [_ E]. discriminate E.
  - rewrite Z.log2_lor by lia.
    apply Z.max_lub_lt; [ | reflexivity ].
    destruct (Z.eq_dec s 0) as [-> | Hne]; [ reflexivity | ].
    apply Z.log2_lt_pow2; lia.
Qed.

(** C1 (amended).  Let the signature be [R], [S] and [V]: 64, 64 and 2
    hexadecimal digits, [S] denoting [s] and [V] denoting [v], with or
    without ["0x"] in front.  [parseSignatureToCompact] returns [r] as
    ["0x"] and [R], and as [vs] a 32-byte value that denotes [s] with the
    top bit set if [v] is 28, and [s] otherwise.  If [s] is below [2^255]
    and [v] is 27 or 28, then [(r, s, v)] is what the reading of a compact
    signature gives back from [(r, vs)]. *)
Theorem parseSignatureToCompact_reading (R S V : string) (s v : Z)
    (HR : JS.length R = 64%nat) (HS : JS.length S = 64%nat)
    (HV : JS.length V = 2%nat)
    (HRhex : forallb (JS.isDigitIn 16) (JS.chars R) = true)
    (Hs : hexValue S = Some s) (Hv : hexValue V = Some v) :
  exists c,
    Order.parseSignatureToCompact (R ++ S ++ V) = Ok c
    /\ Order.parseSignatureToCompact ("0x" ++ R ++ S ++ V) = Ok c
    /\ Order.r c = "0x" ++ R
    /\ JS.length (Order.vs c) = 66%nat
    /\ (v = 28 -> JS.BigInt (Order.vs c) = Some (Z.lor s (Z.shiftl 1 255)))
    /\ (v <> 28 -> JS.BigInt (Order.vs c) = Some s)
    /\ (s < 2 ^ 255 -> v = 27 \/ v = 28 ->
        CompactReading.expand c = Some ("0x" ++ R, s, v)).
Proof.
  unfold JS.length in HR, HS, HV. unfold hexValue in Hs, Hv.
  assert (Hrange : 0 <= s < 2 ^ 256).
  { pose proof (parseDigits_bound 16 _ 0 s ltac:(lia) ltac:(lia) Hs) as B.
    rewrite length_chars, HS in B. change (16 ^ Z.of_nat 64) with (2 ^ 256) in B.
    lia. }
  assert (HShex : forallb (JS.isDigitIn 16) (JS.chars S) = true)
    by exact (parseDigits_all _ _ _ _ Hs).
  assert (HVhex : forallb (JS.isDigitIn 16) (JS.chars V) = true)
    by exact (parseDigits_all _ _ _ _ Hv).
  assert (HsBig : toBigInt ("0x" ++ S) = Ok s).
  { unfold toBigInt. rewrite <- (str_chars S), BigInt_0x, Hs; [ reflexivity | | exact HShex ].
    intros E. apply (f_equal (@List.length _)) in E.
    rewrite length_chars, HS in E. discriminate E. }
  set (vsValue := if v =? 28 then Z.lor s (Z.shiftl 1 255) else s).
  assert (Hvs : 0 <= vsValue < 2 ^ 256).
  { unfold vsValue. destruct (v =? 28); [ | exact Hrange ].
    rewrite shiftl_1_255. apply lor_top_bound, Hrange. }
  destruct (hex_rendering 64 vsValue (proj1 Hvs)) as (Hstr & _ & _ & Hlen & Hread).
  assert (Hbody : forall signature,
    signatureBody signature = R ++ S ++ V ->
    Order.parseSignatureToCompact signature
    = Ok {| Order.r := "0x" ++ R;
            Order.vs := "0x" ++ JS.padStart 64 "0" (JS.toString 16 vsValue) |}).
  { intros signature E. rewrite parseSignatureToCompact_body, E. cbv zeta.
    unfold JS.length. rewrite !length_append, HR, HS, HV. cbn [Nat.eqb negb Nat.add].
    assert (E0 : JS.slice 0 64 (R ++ S ++ V) = R)
      by exact (slice_0_app 64 R (S ++ V) HR).
    assert (E1 : JS.slice 64 128 (R ++ S ++ V) = S)
      by exact (eq_trans (slice_app_skip 64 0 64 R (S ++ V) HR)
                         (slice_0_app 64 S V HS)).
    assert (E2 : JS.slice 128 130 (R ++ S ++ V) = V)
      by exact (eq_trans (slice_app_skip 64 64 66 R (S ++ V) HR)
                  (eq_trans (slice_app_skip 64 0 2 S V HS)
                            (slice_0_all 2 V HV))).
    rewrite E0, E1, E2.
    rewrite HsBig. cbn [bindR].
    rewrite (parseInt16_hex2 V v HV Hv). cbn [Order.is28]. reflexivity. }
  eexists. split; [ | split; [ | split; [ | split; [ | split; [ | split ] ] ] ] ].
  - apply Hbody, signatureBody_hex.
    + rewrite !length_append, HR. lia.
    + rewrite !chars_app, !forallb_app, HRhex, HShex, HVhex. reflexivity.
  - apply Hbody, signatureBody_0x.
  - reflexivity.
  - cbn [Order.vs]. rewrite Hstr. unfold JS.length. cbn [append String.length].
    rewrite length_str, length_map, Hlen; [ reflexivity | | lia ].
    change (16 ^ Z.of_nat 64) with (2 ^ 256). lia.
  - intros ->. cbn [Order.vs]. exact Hread.
  - intros Hne. cbn [Order.vs]. rewrite Hread. unfold vsValue.
    destruct (Z.eqb_spec v 28); [ contradiction | reflexivity ].
  - intros Hlow Hv27. unfold CompactReading.expand. cbn [Order.vs Order.r].
    rewrite Hread. unfold vsValue.
    rewrite Z.land_ones, Z.shiftr_div_pow2 by lia.
    destruct Hv27 as [-> | ->]; cbn [Z.eqb Pos.eqb].
    + rewrite Z.mod_small, Z.div_small by lia. reflexivity.
    + rewrite shiftl_1_255, lor_top by lia.
      replace (s + 2 ^ 255) with (s + 1 * 2 ^ 255) by lia.
      rewrite Z.mod_add, Z.div_add, Z.mod_small, Z.div_small by lia.
      reflexivity.
Qed.

(** The signature of the example ledger: [s] is [0xbb] and [v] is 28. *)
Lemma parseSignatureToCompact_reading_example :
  exists c,
    Order.parseSignatureToCompact Example.signature = Ok c
    /\ CompactReading.expand c = Some ("0x" ++ Example.r32, 187, 28).
Proof.
  destruct (parseSignatureToCompact_reading
              Example.r32
              "00000000000000000000000000000000000000000000000000000000000000bb"
              "1c" 187 28 eq_refl eq_refl eq_refl eq_refl eq_refl eq_refl)
    as (c & _ & Hc & _ & _ & _ & _ & Hexpand).
  exists c. split; [ exact Hc | ].
  apply Hexpand; [ lia | right; reflexivity ].
Defined.

(** C1 as stated fails: [(s, v)] cannot be told from [(r, vs)] for every
    signature that is accepted.  A high [s] with [v = 27] and the same [s]
    without its top bit with [v = 28] give one pair, and so do the recovery
    bytes 27 and 0 for one [s]. *)
Lemma parseSignatureToCompact_collisions :
  (Order.parseSignatureToCompact Example.highS27
   = Order.parseSignatureToCompact Example.lowS28
   /\ exists c, Order.parseSignatureToCompact Example.highS27 = Ok c)
  /\ (Order.parseSignatureToCompact Example.lowS27
      = Order.parseSignatureToCompact Example.lowS00
      /\ exists c, Order.parseSignatureToCompact Example.lowS27 = Ok c)
  /\ hexValue (JS.slice 64 128 (signatureBody Example.highS27)) = Some (2 ^ 255 + 1)
  /\ hexValue (JS.slice 64 128 (signatureBody Example.lowS28)) = Some 1
  /\ hexValue (JS.slice 128 130 (signatureBody Example.lowS27)) = Some 27
  /\ hexValue (JS.slice 128 130 (signatureBody Example.lowS00)) = Some 0
  /\ ~ (exists reading : Order.CompactSignature -> Z * Z,
          forall signature c s v,
            Order.parseSignatureToCompact signature = Ok c ->
            hexValue (JS.slice 64 128 (signatureBody signature)) = Some s ->
            hexValue (JS.slice 128 130 (signatureBody signature)) = Some v ->
            reading c = (s, v)).
Proof.
  assert (H1 : Order.parseSignatureToCompact Example.lowS27
               = Order.parseSignatureToCompact Example.lowS00)
    by (vm_compute; reflexivity).
  split; [ split; [ vm_compute; reflexivity | eexists; vm_compute; reflexivity ] | ].
  split; [ split; [ exact H1 | eexists; vm_compute; reflexivity ] | ].
  do 4 (split; [ vm_compute; reflexivity | ]).
  intros [reading Hreading].
    destruct (Order.parseSignatureToCompact Example.lowS27) as [c | |] eqn:E;
      try (vm_compute in E; discriminate E).
    pose proof (Hreading Example.lowS27 c 1 27 E
                  ltac:(vm_compute; reflexivity) ltac:(vm_compute; reflexivity))
      as R27.
    pose proof (Hreading Example.lowS00 c 1 0 (eq_sym H1)
                  ltac:(vm_compute; reflexivity) ltac:(vm_compute; reflexivity))
      as R00.
    rewrite R27 in R00. discriminate R00.
Qed.

(** ** config.ts: token amounts *)

Lemma dropWhile_split {A} (p : A -> bool) l :
  exists pre, l = (pre ++ JS.dropWhile p l)%list /\ forallb p pre = true.
Proof.
  induction l as [| x l (pre & IH & Hpre)]; cbn.
  - exists []. split; reflexivity.
  - destruct (p x) eqn:E.
    + exists (x :: pre). cbn. rewrite E, Hpre, <- IH. split; reflexivity.
    + exists []. split; reflexivity.
Qed.

Lemma dropWhile_head {A} (p : A -> bool) l x l' :
  JS.dropWhile p l = x :: l' -> p x = false.
Proof.
  induction l as [| y l IH]; cbn; [ discriminate | ].
  destruct (p y) eqn:E; [ exact IH | ].
  intros H. injection H as <- _. exact E.
Qed.

(** What [dropWhileEnd] removes is a run of characters that satisfy the
    test. *)
Lemma dropWhileEnd_split {A} (p : A -> bool) l :
  exists suffix,
    l = (JS.dropWhileEnd p l ++ suffix)%list /\ forallb p suffix = true.
Proof.
  destruct (dropWhile_split p (rev l)) as (pre & E & Hpre).
  exists (rev pre). split.
  - unfold JS.dropWhileEnd. rewrite <- rev_app_distr, <- E, rev_involutive.
    reflexivity.
  - rewrite forallb_forall in *. intros x Hx. apply Hpre, in_rev, Hx.
Qed.

Lemma forallb_eqb_repeat (c : ascii) l :
  forallb (Ascii.eqb c) l = true -> l = repeat c (List.length l).
Proof.
  induction l as [| x l IH]; cbn; [ reflexivity | ].
  intros H. apply andb_true_iff in H. destruct H as [Hx Hl].
  apply Ascii.eqb_eq in Hx. subst x. f_equal. apply IH, Hl.
Qed.

Lemma splitDot_none cs :
  forallb (fun c => negb (Ascii.eqb c ".")) cs = true ->
  AmountReading.splitDot cs = (cs, None).
Proof.
  induction cs as [| c cs IH]; cbn; [ reflexivity | ].
  intros H. apply andb_true_iff in H. destruct H as [Hc Hcs].
  apply negb_true_iff in Hc. rewrite Hc, (IH Hcs). reflexivity.
Qed.

Lemma splitDot_point cs rest :
  forallb (fun c => negb (Ascii.eqb c ".")) cs = true ->
  AmountReading.splitDot (cs ++ "."%char :: rest) = (cs, Some rest).
Proof.
  induction cs as [| c cs IH]; cbn; [ reflexivity | ].
  intros H. apply andb_true_iff in H. destruct H as [Hc Hcs].
  apply negb_true_iff in Hc. rewrite Hc, (IH Hcs). reflexivity.
Qed.

Lemma digitChars_hex radix ds :
  radix <= 16 -> Forall (digit radix) ds ->
  forallb (JS.isDigitIn 16) (map JS.digitChar ds) = true.
Proof.
  intros Hradix Hds. rewrite forallb_forall. intros c Hc.
  apply in_map_iff in Hc. destruct Hc as (d & <- & Hd).
  rewrite Forall_forall in Hds.
  apply (isDigitIn_le radix 16); [ exact Hradix | ].
  apply isDigitIn_digitChar; [ exact Hradix | apply Hds, Hd ].
Qed.

Lemma digitChars_no_point radix ds :
  radix <= 16 -> Forall (digit radix) ds ->
  forallb (fun c => negb (Ascii.eqb c ".")) (map JS.digitChar ds) = true.
Proof.
  intros Hradix Hds.
  apply (forallb_impl (JS.isDigitIn 16)); [ | apply (digitChars_hex radix); assumption ].
  intros c Hc. apply hex_plain in Hc. unfold plain in Hc.
  rewrite !andb_true_iff in Hc. tauto.
Qed.

Lemma map_digitChar_zeros k : map JS.digitChar (repeat 0 k) = repeat "0"%char k.
Proof. apply map_repeat. Qed.

Lemma parseDigits_zeros radix k acc :
  0 < radix <= 16 ->
  JS.parseDigits radix (repeat "0"%char k) acc = Some (acc * radix ^ Z.of_nat k).
Proof.
  intros Hradix. rewrite <- map_digitChar_zeros, parseDigits_digitChars.
  - rewrite fromDigits_zeros. reflexivity.
  - lia.
  - apply Forall_forall. intros d Hd. apply repeat_spec in Hd. subst d.
    unfold digit. lia.
Qed.

Lemma dropWhile_all {A} (p : A -> bool) l : forallb p l = true -> JS.dropWhile p l = [].
Proof.
  induction l as [| x l IH]; cbn; [ reflexivity | ].
  intros H. apply andb_true_iff in H. destruct H as [-> Hl]. apply IH, Hl.
Qed.

Lemma dropWhileEnd_all {A} (p : A -> bool) l :
  forallb p l = true -> JS.dropWhileEnd p l = [].
Proof.
  intros H. unfold JS.dropWhileEnd. rewrite dropWhile_all; [ reflexivity | ].
  rewrite forallb_forall in *. intros x Hx. apply H, in_rev, Hx.
Qed.

(** The last character [dropWhileEnd] leaves does not satisfy the test. *)
Lemma dropWhileEnd_last {A} (p : A -> bool) l x rest :
  rev (JS.dropWhileEnd p l) = x :: rest -> p x = false.
Proof.
  unfold JS.dropWhileEnd. rewrite rev_involutive. apply dropWhile_head.
Qed.

(** The parts of a formatted amount that is not negative: the digits of
    the whole part, and the digits of the fraction padded to [decimals]
    places, which are the fraction shown and the zeros stripped. *)
Lemma formatTokenAmount_parts (amount : Z) (decimals : nat) :
  0 <= amount ->
  let D := 10 ^ Z.of_nat decimals in
  exists (W P : list Z) (shown : list ascii) (k : nat),
    Forall (digit 10) W /\ W <> [] /\ JS.fromDigits 10 W 0 = amount / D
    /\ JS.str (map JS.digitChar W) = JS.toString 10 (Z.quot amount D)
    /\ Forall (digit 10) P /\ JS.fromDigits 10 P 0 = amount mod D
    /\ ((1 <= decimals)%nat -> List.length P = decimals)
    /\ (decimals = 0%nat -> shown = [])
    /\ map JS.digitChar P = (shown ++ repeat "0"%char k)%list
    /\ (forall x rest, rev shown = x :: rest -> Ascii.eqb "0" x = false)
    /\ (amount mod D = 0 -> shown = [])
    /\ Config.formatTokenAmount amount decimals None
       = match shown with
         | [] => JS.str (map JS.digitChar W)
         | _ => JS.str (map JS.digitChar W) ++ "." ++ JS.str shown
         end.
Proof.
  intros Hamount D.
  assert (HD : 0 < D) by (apply Z.pow_pos_nonneg; lia).
  assert (Hwhole : 0 <= amount / D) by (apply Z.div_pos; lia).
  assert (Hfraction : 0 <= amount mod D < D) by (apply Z.mod_pos_bound; lia).
  set (W := JS.digitsOf 10 (amount / D)).
  set (F := JS.digitsOf 10 (amount mod D)).
  set (P := (repeat 0 (decimals - List.length F) ++ F)%list).
  set (shown := JS.dropWhileEnd (Ascii.eqb "0") (map JS.digitChar P)).
  destruct (dropWhileEnd_split (Ascii.eqb "0") (map JS.digitChar P))
    as (suffix & Esplit & Hsuffix).
  fold shown in Esplit.
  exists W, P, shown, (List.length suffix).
  assert (HP : Forall (digit 10) P)
    by (apply Forall_digit_padded; [ lia | apply digitsOf_digits; lia ]).
  assert (HvalP : JS.fromDigits 10 P 0 = amount mod D)
    by (unfold P; rewrite fromDigits_padded; apply digitsOf_value; lia).
  split; [ apply digitsOf_digits; lia | ].
  split; [ apply digitsOf_nonempty | ].
  split; [ apply digitsOf_value; lia | ].
  split; [ rewrite Z.quot_div_nonneg, toString_nonneg by lia; reflexivity | ].
  split; [ exact HP | ].
  split; [ exact HvalP | ].
  split.
  { intros Hd. unfold P. rewrite length_app, repeat_length.
    pose proof (digitsOf_length 10 (amount mod D) decimals ltac:(lia) Hfraction Hd).
    fold F in H. lia. }
  split.
  { intros ->. unfold shown, P, F, D. cbn [Z.of_nat Z.pow].
    rewrite Z.mod_1_r. reflexivity. }
  split; [ rewrite <- (forallb_eqb_repeat _ _ Hsuffix); exact Esplit | ].
  split; [ intros x rest; apply dropWhileEnd_last | ].
  split.
  { intros Hzero. unfold shown. apply dropWhileEnd_all.
    unfold P, F. rewrite Hzero. change (JS.digitsOf 10 0) with [0].
    rewrite map_app, map_digitChar_zeros, forallb_app. cbn [map forallb].
    rewrite andb_true_r. rewrite forallb_forall. intros c Hc.
    apply repeat_spec in Hc. subst c. reflexivity. }
  unfold Config.formatTokenAmount. fold D.
  rewrite Z.quot_div_nonneg, Z.rem_mod_nonneg by lia.
  rewrite !toString_nonneg by lia. fold W F.
  rewrite padStart_digits. fold P.
  unfold JS.stripTrailingZeros. rewrite chars_str. fold shown.
  destruct shown; reflexivity.
Qed.

(** C4.  For an amount that is not negative and any number of decimals,
    reading the output of [formatTokenAmount] back with the same decimals
    gives the amount; a fractional part, when the output has one, is not
    empty and does not end in a zero; and an amount that is a multiple of
    [10 ^ decimals] is shown as its whole part alone. *)
Theorem formatTokenAmount_round_trip (amount : Z) (decimals : nat)
    (Hamount : 0 <= amount) :
  let out := Config.formatTokenAmount amount decimals None in
  AmountReading.parseTokenAmount out decimals = Some amount
  /\ (forall f, AmountReading.fractionalPart out = Some f ->
                f <> "" /\ AmountReading.endsWithZero f = false)
  /\ (Z.rem amount (10 ^ Z.of_nat decimals) = 0 ->
      out = JS.toString 10 (Z.quot amount (10 ^ Z.of_nat decimals))
      /\ AmountReading.fractionalPart out = None).
Proof.
  intros out.
  destruct (formatTokenAmount_parts amount decimals Hamount)
    as (W & P & shown & k & HW & HWne & HvalW & HstrW & HP & HvalP & HlenP & Hzero
        & Esplit & Hlast & Hwhole & Eout).
  cbv zeta in *. fold out in Eout.
  set (D := 10 ^ Z.of_nat decimals) in *.
  assert (HD : 0 < D) by (apply Z.pow_pos_nonneg; lia).
  assert (Hpoint : forallb (fun c => negb (Ascii.eqb c ".")) (map JS.digitChar W) = true)
    by (apply (digitChars_no_point 10); [ lia | exact HW ]).
  assert (Hsplit : AmountReading.splitDot (JS.chars out)
                   = (map JS.digitChar W,
                      match shown with [] => None | _ => Some shown end)).
  { rewrite Eout. destruct shown as [| c shown'].
    - rewrite chars_str. apply splitDot_none, Hpoint.
    - rewrite !chars_app, !chars_str. apply splitDot_point, Hpoint. }
  assert (Hshown : (List.length shown <= decimals)%nat
                   /\ (shown ++ repeat "0"%char (decimals - List.length shown))%list
                      = match decimals with
                        | O => []
                        | _ => map JS.digitChar P
                        end).
  { destruct decimals as [| d].
    - rewrite (Hzero eq_refl). split; [ cbn; lia | reflexivity ].
    - pose proof (f_equal (@List.length _) Esplit) as L.
      rewrite length_map, length_app, repeat_length, HlenP in L by lia.
      split; [ lia | ]. rewrite Esplit. f_equal. f_equal. lia. }
  destruct Hshown as [Hlen Hpad].
  split; [ | split ].
  - unfold AmountReading.parseTokenAmount. rewrite Hsplit.
    replace (match match shown with [] => None | _ :: _ => Some shown end with
             | Some f => f
             | None => []
             end) with shown by (destruct shown; reflexivity).
    destruct (Nat.ltb_spec decimals (List.length shown)) as [Hlt | _]; [ lia | ].
    destruct (map JS.digitChar W) as [| c Wc] eqn:EW;
      [ apply map_eq_nil in EW; contradiction | ].
    rewrite <- EW. unfold JS.padEnd.
    rewrite !chars_str, length_str, Hpad.
    destruct decimals as [| d].
    + rewrite app_nil_r, parseDigits_digitChars by (lia || exact HW).
      rewrite HvalW. unfold D. cbn [Z.of_nat Z.pow]. rewrite Z.div_1_r. reflexivity.
    + rewrite <- map_app, parseDigits_digitChars;
        [ | lia | apply Forall_app; split; assumption ].
      rewrite fromDigits_app, fromDigits_acc, HvalW, HvalP, HlenP by lia.
      fold D. f_equal. rewrite (Z.div_mod amount D) at 3 by lia. ring.
  - intros f. unfold AmountReading.fractionalPart. rewrite Hsplit. cbn [snd].
    destruct shown as [| c shown'] eqn:Es; cbn [option_map]; [ discriminate | ].
    intros E. injection E as <-. split; [ discriminate | ].
    unfold AmountReading.endsWithZero.
    change (String c (JS.str shown')) with (JS.str (c :: shown')).
    rewrite chars_str.
    destruct (rev (c :: shown')) as [| x rest] eqn:Er.
    + apply (f_equal (@List.length _)) in Er. rewrite length_rev in Er.
      discriminate Er.
    + rewrite Ascii.eqb_sym. apply (Hlast x rest eq_refl).
  - intros Hrem. rewrite Z.rem_mod_nonneg in Hrem by lia.
    specialize (Hwhole Hrem). subst shown. split.
    + rewrite Eout. exact HstrW.
    + unfold AmountReading.fractionalPart. rewrite Hsplit. reflexivity.
Qed.

(** One million units of a token with six decimals are shown as ["1"]. *)
Lemma formatTokenAmount_one :
  AmountReading.parseTokenAmount (Config.formatTokenAmount 1000000 6 None) 6
  = Some 1000000
  /\ Config.formatTokenAmount 1000000 6 None = "1"
  /\ Config.formatTokenAmount 1500000 6 None = "1.5".
Proof.
  assert (H : 0 <= 1000000) by lia.
  destruct (formatTokenAmount_round_trip 1000000 6 H) as (Hparse & _ & _).
  split; [ exact Hparse | split; vm_compute; reflexivity ].
Defined.

(** ** Decimal renderings *)

Lemma BigInt_decimal_digits (ds : list Z) :
  Forall (digit 10) ds -> ds <> [] ->
  JS.BigInt (JS.str (map JS.digitChar ds)) = Some (JS.fromDigits 10 ds 0).
Proof.
  intros Hds Hne. unfold JS.BigInt. rewrite chars_str.
  pose proof (digitChars_hex 10 ds ltac:(lia) Hds) as Hhex.
  rewrite trim_none by (apply hex_not_space, Hhex).
  pose proof (parseDigits_digitChars 10 ds 0 ltac:(lia) Hds) as Hparse.
  destruct ds as [| d ds]; [ contradiction | ].
  cbn [map] in *. cbn [forallb] in Hhex. apply andb_true_iff in Hhex.
  destruct Hhex as [Hc Hrest].
  apply hex_plain in Hc. unfold plain in Hc.
  rewrite !andb_true_iff, !negb_true_iff in Hc.
  destruct Hc as [[[[[[[_ Hplus] Hminus] _] _] _] _] _].
  rewrite Hplus, Hminus.
  destruct ds as [| d' ds]; cbn [map] in *; [ exact Hparse | ].
  cbn [forallb] in Hrest. apply andb_true_iff in Hrest. destruct Hrest as [Hp _].
  apply hex_plain in Hp. unfold plain in Hp.
  rewrite !andb_true_iff, !negb_true_iff in Hp.
  destruct Hp as [[[[[[[_ _] _] Hx] HX] Ho] HO] _].
  assert (Hb : Ascii.eqb (JS.digitChar d') "b" || Ascii.eqb (JS.digitChar d') "B"
               = false).
  { apply decimal_not_b, isDigitIn_digitChar; [ lia | ].
    inversion Hds as [| ? ? _ Hds']. inversion Hds'. assumption. }
  rewrite Hx, HX, Ho, HO, Hb, !andb_false_r. exact Hparse.
Qed.

(** [BigInt] reads the decimal rendering of an integer back. *)
Lemma BigInt_toString10 (n : Z) : JS.BigInt (JS.toString 10 n) = Some n.
Proof.
  unfold JS.toString. destruct (n <? 0) eqn:E.
  - apply Z.ltb_lt in E.
    pose proof (digitsOf_digits 10 (- n) ltac:(lia) ltac:(lia)) as Hds.
    pose proof (digitChars_hex 10 _ ltac:(lia) Hds) as Hhex.
    unfold JS.BigInt.
    change (JS.chars (String "-" ?s)) with ("-"%char :: JS.chars s).
    rewrite chars_str.
    rewrite trim_none
      by (cbn [forallb]; rewrite hex_not_space by exact Hhex; reflexivity).
    cbn [Ascii.eqb Bool.eqb]. cbn match.
    unfold JS.parseNonEmptyDigits.
    destruct (map JS.digitChar (JS.digitsOf 10 (- n))) eqn:Em;
      [ apply map_eq_nil in Em; destruct (digitsOf_nonempty _ _ Em) | ].
    rewrite <- Em, parseDigits_digitChars by (lia || exact Hds).
    rewrite digitsOf_value by lia. cbn [option_map]. f_equal. lia.
  - apply Z.ltb_ge in E.
    rewrite BigInt_decimal_digits.
    + rewrite digitsOf_value by lia. reflexivity.
    + apply digitsOf_digits; lia.
    + apply digitsOf_nonempty.
Qed.

(** ** lib/quote.ts and the amounts of an order *)

Section HardcodedQuote.

Context {lib : Libraries} {env : Environment} {W : Type} `{World W}.

(** C9.  With the rate written in the source, [getQuote a] returns the
    input amount [a] and the output amount [a * 5 * 10^12], for USDC and
    BRLA, without a call to the outside; for 100 USDC that is [5 * 10^20].
    The [makingAmount] and [takingAmount] of the order written out after
    [generateSignedOrder] are the decimal renderings of the amounts it was
    given, which [BigInt] reads back as these amounts; and the order the
    fill test builds from the quote holds the quote's input and output
    amount so rendered. *)
Theorem hardcoded_quote_and_order_amounts :
  (forall (a : Z) (w : W),
     let run := QuoteHardcoded.getQuote a w in
     result run
     = Ok {| QuoteHardcoded.inputAmount := a;
             QuoteHardcoded.outputAmount := a * 5 * 10 ^ 12;
             QuoteHardcoded.inputToken := Config.USDC;
             QuoteHardcoded.outputToken := Config.BRLA |}
     /\ after run = w /\ events run = [])
  /\ (forall w : W,
        result (QuoteHardcoded.getQuote 100000000 w)
        = Ok {| QuoteHardcoded.inputAmount := 100000000;
                QuoteHardcoded.outputAmount := 5 * 10 ^ 20;
                QuoteHardcoded.inputToken := Config.USDC;
                QuoteHardcoded.outputToken := Config.BRLA |})
  /\ (forall (params : Order.OrderParams.t) (walletClient : WalletClient)
             (w : W) (signed : Order.SignedOrder.t),
        result (Order.generateSignedOrder params walletClient w) = Ok signed ->
        let fields := Order.OrderOutput.order (Order.formatOrderOutput signed) in
        Order.OrderFields.makingAmount fields
        = JS.toString 10 (Order.OrderParams.makingAmount params)
        /\ Order.OrderFields.takingAmount fields
           = JS.toString 10 (Order.OrderParams.takingAmount params)
        /\ JS.BigInt (Order.OrderFields.makingAmount fields)
           = Some (Order.OrderParams.makingAmount params)
        /\ JS.BigInt (Order.OrderFields.takingAmount fields)
           = Some (Order.OrderParams.takingAmount params))
  /\ (forall (w : W) (out : Order.OrderOutput.t),
        result (FillTest.generateTestOrder w) = Ok out ->
        exists a,
          parseUnits FillTest.TEST_MAKING_AMOUNT 6 = Ok a
          /\ Order.OrderFields.makingAmount (Order.OrderOutput.order out)
             = JS.toString 10 a
          /\ Order.OrderFields.takingAmount (Order.OrderOutput.order out)
             = JS.toString 10 (a * 5 * 10 ^ 12)).
Proof.
  split; [ | split; [ | split ] ].
  - intros a w. cbv zeta. repeat split.
  - intros w. reflexivity.
  - intros params walletClient w signed.
    change (post (Order.generateSignedOrder params walletClient) w (fun r _ _ =>
      r = Ok signed ->
      let fields := Order.OrderOutput.order (Order.formatOrderOutput signed) in
      Order.OrderFields.makingAmount fields
      = JS.toString 10 (Order.OrderParams.makingAmount params)
      /\ Order.OrderFields.takingAmount fields
         = JS.toString 10 (Order.OrderParams.takingAmount params)
      /\ JS.BigInt (Order.OrderFields.makingAmount fields)
         = Some (Order.OrderParams.makingAmount params)
      /\ JS.BigInt (Order.OrderFields.takingAmount fields)
         = Some (Order.OrderParams.takingAmount params))).
    unfold Order.generateSignedOrder, Order.createLimitOrder,
      Order.buildMakerTraits, Order.signOrder.
    repeat step.
    all: intros E; try discriminate E; injection E as <-.
    all: cbn -[JS.toString JS.BigInt]; rewrite !BigInt_toString10; auto.
  - intros w out.
    change (post FillTest.generateTestOrder w (fun r _ _ =>
      r = Ok out ->
      exists a,
        parseUnits FillTest.TEST_MAKING_AMOUNT 6 = Ok a
        /\ Order.OrderFields.makingAmount (Order.OrderOutput.order out)
           = JS.toString 10 a
        /\ Order.OrderFields.takingAmount (Order.OrderOutput.order out)
           = JS.toString 10 (a * 5 * 10 ^ 12))).
    unfold FillTest.generateTestOrder, FillTest.getMakerPrivateKey,
      FillTest.getRequiredEnv, QuoteHardcoded.getQuote,
      QuoteHardcoded.fetchQuoteFromApi, Blockchain.createAccountFromPrivateKey,
      Blockchain.validateSufficientBalance, Blockchain.getTokenBalance,
      Blockchain.ensureTokenApproval, Blockchain.getTokenAllowance,
      Blockchain.approveToken,
      Order.generateSignedOrder, Order.createLimitOrder,
      Order.buildMakerTraits, Order.signOrder.
    repeat step.
    all: intros E; try discriminate E; injection E as <-.
    all: eexists; split; [ eassumption | split; reflexivity ].
Qed.

End HardcodedQuote.

Section HardcodedQuoteExample.

#[local] Existing Instances
  Example.libraries Example.world Example.environment.

(** The order the fill test builds on the example ledger sells one USDC
    for five BRLA. *)
Lemma generateTestOrder_on_ledger :
  exists out,
    result (FillTest.generateTestOrder (Example.ledger (10 ^ 19) 0)) = Ok out
    /\ Order.OrderFields.makingAmount (Order.OrderOutput.order out) = "1000000"
    /\ Order.OrderFields.takingAmount (Order.OrderOutput.order out)
       = "5000000000000000000".
Proof.
  eexists. split; [ vm_compute; reflexivity | ].
  destruct hardcoded_quote_and_order_amounts as (_ & _ & _ & Hamounts).
  match goal with
  | |- Order.OrderFields.makingAmount (Order.OrderOutput.order ?out) = _ /\ _ =>
      destruct (Hamounts (Example.ledger (10 ^ 19) 0) out) as (a & Ha & Hm & Ht);
        [ vm_compute; reflexivity | ]
  end.
  vm_compute in Ha. injection Ha as <-.
  split; [ rewrite Hm | rewrite Ht ]; vm_compute; reflexivity.
Defined.

End HardcodedQuoteExample.

(** * Further properties *)

(** ** config.ts: looking a token up *)

Lemma lowerChar_idempotent (c : ascii) :
  JS.lowerChar (JS.lowerChar c) = JS.lowerChar c.
Proof. destruct c as [[] [] [] [] [] [] [] []]; vm_compute; reflexivity. Qed.

Lemma toLowerCase_idempotent (s : string) :
  JS.toLowerCase (JS.toLowerCase s) = JS.toLowerCase s.
Proof.
  unfold JS.toLowerCase. rewrite chars_str, map_map. f_equal.
  apply map_ext. intros c. apply lowerChar_idempotent.
Qed.

(** X1.  [getTokenByAddress] finds a token exactly when it is one of the
    three configured tokens and its address is the queried one up to
    letter case; the case of the query does not matter, and no token is
    found exactly when no configured address matches. *)
Theorem getTokenByAddress_up_to_case (addr : string) :
  (forall token,
     Config.getTokenByAddress addr = Some token
     <-> In token Config.TOKENS
         /\ JS.toLowerCase (Config.address token) = JS.toLowerCase addr)
  /\ Config.getTokenByAddress (JS.toLowerCase addr) = Config.getTokenByAddress addr
  /\ (Config.getTokenByAddress addr = None
      <-> forall token, In token Config.TOKENS ->
                        JS.toLowerCase (Config.address token)
                        <> JS.toLowerCase addr).
Proof.
  split; [ | split ].
  - intros token. split.
    + intros Hfind. unfold Config.getTokenByAddress in Hfind.
      apply find_some in Hfind. destruct Hfind as [Hin Heq].
      apply String.eqb_eq in Heq. auto.
    + intros [Hin Heq]. unfold Config.getTokenByAddress. rewrite <- Heq.
      cbn [Config.TOKENS In] in Hin.
      destruct Hin as [<- | [<- | [<- | []]]]; vm_compute; reflexivity.
  - unfold Config.getTokenByAddress. rewrite toLowerCase_idempotent. reflexivity.
  - unfold Config.getTokenByAddress. split.
    + intros Hnone token Hin Heq.
      apply (find_none _ _ Hnone) in Hin. apply String.eqb_neq in Hin. auto.
    + intros Hall.
      destruct (find _ Config.TOKENS) as [token |] eqn:Hfind; [ | reflexivity ].
      apply find_some in Hfind. destruct Hfind as [Hin Heq].
      apply String.eqb_eq in Heq. destruct (Hall token Hin Heq).
Qed.

(** ** lib/blockchain.ts and lib/order.ts: a wallet without an account *)

Section NoAccount.

Context {lib : Libraries} {W : Type} `{World W}.

(** X2.  With a wallet client that has no account, [signOrder] and
    [approveToken] throw ["Wallet client must have an account"] before any
    call leaves the process, and [ensureTokenApproval] hands no transaction
    to the wallet: it returns only if the allowance read suffices. *)
Theorem no_account_no_transaction (walletClient : WalletClient)
    (Hnone : account walletClient = None) :
  (forall order (w : W),
     let run := Order.signOrder order walletClient w in
     result run = Throw (Error "Wallet client must have an account")
     /\ events run = [] /\ after run = w)
  /\ (forall token spender amount (w : W),
        let run := Blockchain.approveToken walletClient token spender amount w in
        result run = Throw (Error "Wallet client must have an account")
        /\ events run = [] /\ after run = w)
  /\ (forall token owner required (w : W),
        let run := Blockchain.ensureTokenApproval walletClient token owner
                     required w in
        existsb Did.isTransaction (Did.trace (events run)) = false
        /\ (forall res, result run = Ok res ->
              Blockchain.txHash res = None
              /\ exists allowance,
                   required <= allowance
                   /\ Did.trace (events run)
                      = [Did.Allowance token owner
                           Config.LIMIT_ORDER_PROTOCOL_ADDRESS (Some allowance)])).
Proof.
  split; [ | split ].
  - intros order w. unfold Order.signOrder. rewrite Hnone. repeat split.
  - intros token spender amount w. unfold Blockchain.approveToken.
    rewrite Hnone. repeat split.
  - intros token owner required w. cbv zeta.
    change (post (Blockchain.ensureTokenApproval walletClient token owner required)
                 w (fun r _ es =>
      existsb Did.isTransaction (Did.trace es) = false
      /\ (forall res, r = Ok res ->
            Blockchain.txHash res = None
            /\ exists allowance,
                 required <= allowance
                 /\ Did.trace es
                    = [Did.Allowance token owner
                         Config.LIMIT_ORDER_PROTOCOL_ADDRESS (Some allowance)]))).
    unfold Blockchain.ensureTokenApproval, Blockchain.getTokenAllowance,
      Blockchain.approveToken.
    rewrite Hnone.
    repeat step.
    all: split; [ reflexivity | intros res E; try discriminate E ].
    injection E as <-. split; [ reflexivity | ].
    eexists. split; [ | reflexivity ].
    apply Z.geb_le. assumption.
Qed.

End NoAccount.

Section NoAccountExample.

#[local] Existing Instances Example.libraries Example.world.

(** A wallet client without an account on the example ledger. *)
Lemma no_account_on_ledger :
  result (Order.signOrder
            {| LimitOrder.salt := 1; LimitOrder.maker := "0xa1";
               LimitOrder.receiver := "0xa1"; LimitOrder.makerAsset := "0xc1";
               LimitOrder.takerAsset := "0xc2"; LimitOrder.makingAmount := 1;
               LimitOrder.takingAmount := 5; LimitOrder.makerTraits := 0 |}
            {| account := None |} (Example.ledger 0 0))
  = Throw (Error "Wallet client must have an account").
Proof.
  destruct (no_account_no_transaction {| account := None |} eq_refl)
    as [Hsign _].
  apply Hsign.
Defined.

End NoAccountExample.

(** ** lib/blockchain.ts: what [ensureTokenApproval] returns after *)

Section ApprovalReturns.

Context {lib : Libraries} {W : Type} `{World W}.

(** X3.  When [ensureTokenApproval] returns, [approved] is [true] and
    either no hash is returned, the allowance read sufficed and nothing
    else was done, or a hash is returned, the allowance read fell short,
    one approval of [maxUint256] from the wallet's account went through
    with that hash and its receipt arrived, whatever the status the
    receipt reports. *)
Theorem ensureTokenApproval_returns_after
    (walletClient : WalletClient) (token owner : Hex) (required : Z) (w : W)
    (res : Blockchain.ApprovalResult)
    (Hres : result (Blockchain.ensureTokenApproval walletClient token owner
                      required w) = Ok res) :
  let run := Blockchain.ensureTokenApproval walletClient token owner required w in
  let read := Did.Allowance token owner Config.LIMIT_ORDER_PROTOCOL_ADDRESS in
  Blockchain.approved res = true
  /\ exists allowance,
       (Blockchain.txHash res = None /\ required <= allowance
        /\ Did.trace (events run) = [read (Some allowance)])
       \/ (exists hash acct receipt,
             Blockchain.txHash res = Some hash /\ allowance < required
             /\ account walletClient = Some acct
             /\ Did.trace (events run)
                = [read (Some allowance);
                   Did.Approve token Config.LIMIT_ORDER_PROTOCOL_ADDRESS
                               maxUint256 acct (Some hash);
                   Did.Receipt hash (Some receipt)]).
Proof.
  cbv zeta. revert Hres.
  change (post (Blockchain.ensureTokenApproval walletClient token owner required)
               w (fun r _ es =>
    r = Ok res ->
    Blockchain.approved res = true
    /\ exists allowance,
         (Blockchain.txHash res = None /\ required <= allowance
          /\ Did.trace es
             = [Did.Allowance token owner Config.LIMIT_ORDER_PROTOCOL_ADDRESS
                  (Some allowance)])
         \/ (exists hash acct receipt,
               Blockchain.txHash res = Some hash /\ allowance < required
               /\ account walletClient = Some acct
               /\ Did.trace es
                  = [Did.Allowance token owner
                       Config.LIMIT_ORDER_PROTOCOL_ADDRESS (Some allowance);
                     Did.Approve token Config.LIMIT_ORDER_PROTOCOL_ADDRESS
                                 maxUint256 acct (Some hash);
                     Did.Receipt hash (Some receipt)]))).
  unfold Blockchain.ensureTokenApproval, Blockchain.getTokenAllowance,
    Blockchain.approveToken.
  repeat step.
  all: intros E; try discriminate E; injection E as <-.
  all: split; [ reflexivity | eexists ].
  - left. repeat split. apply Z.geb_le. assumption.
  - right. do 3 eexists. repeat split; try eassumption.
    match goal with
    | E : (_ >=? _) = false |- _ =>
        rewrite Z.geb_leb in E; apply Z.leb_gt in E; exact E
    end.
Qed.

End ApprovalReturns.

Section ApprovalReturnsExample.

#[local] Existing Instances Example.libraries Example.world.

(** On the example ledger with an allowance of 5, a required amount of 6
    returns the hash of the approval. *)
Lemma ensureTokenApproval_returns_on_ledger :
  exists allowance,
    (Some "0xa1" = None /\ 6 <= allowance
     /\ Did.trace (events (Blockchain.ensureTokenApproval Example.wallet
                             "0xc1" "0xa1" 6 (Example.ledger 0 5)))
        = [Did.Allowance "0xc1" "0xa1" Config.LIMIT_ORDER_PROTOCOL_ADDRESS
             (Some allowance)])
    \/ (exists hash acct receipt,
          Some "0xa1" = Some hash /\ allowance < 6
          /\ account Example.wallet = Some acct
          /\ Did.trace (events (Blockchain.ensureTokenApproval Example.wallet
                                  "0xc1" "0xa1" 6 (Example.ledger 0 5)))
             = [Did.Allowance "0xc1" "0xa1" Config.LIMIT_ORDER_PROTOCOL_ADDRESS
                  (Some allowance);
                Did.Approve "0xc1" Config.LIMIT_ORDER_PROTOCOL_ADDRESS
                            maxUint256 acct (Some hash);
                Did.Receipt hash (Some receipt)]).
Proof.
  exact (proj2 (ensureTokenApproval_returns_after
                  Example.wallet "0xc1" "0xa1" 6 (Example.ledger 0 5)
                  {| Blockchain.approved := true;
                     Blockchain.txHash := Some "0xa1" |} eq_refl)).
Defined.

End ApprovalReturnsExample.

(** ** test/fill.ts: what [executeFill] does before and after the fill *)

(** In a run that starts with [x], whatever satisfies [p] comes after
    [x], when [x] itself does not satisfy [p]. *)
Lemma after_head (p : Did.t -> bool) (x : Did.t) (l : list Did.t) :
  p x = false ->
  forall pre d rest,
    x :: l = (pre ++ d :: rest)%list -> p d = true -> In x pre.
Proof.
  intros Hx [ | y pre] d rest E Hd; cbn [app] in E; injection E as E1 E2.
  - subst. rewrite Hx in Hd. discriminate Hd.
  - subst. left. reflexivity.
Qed.

(** The same behind an event that does not satisfy [p] either. *)
Lemma after_later (p : Did.t -> bool) (x y : Did.t) (l : list Did.t) :
  p y = false ->
  (forall pre d rest,
     l = (pre ++ d :: rest)%list -> p d = true -> In x pre) ->
  forall pre d rest,
    y :: l = (pre ++ d :: rest)%list -> p d = true -> In x pre.
Proof.
  intros Hy Hl [ | z pre] d rest E Hd; cbn [app] in E; injection E as E1 E2.
  - subst. rewrite Hy in Hd. discriminate Hd.
  - right. exact (Hl pre d rest E2 Hd).
Qed.

(** [x] is found in a run, with nothing that satisfies [p] before it. *)
Ltac comes_first :=
  cbn [Did.trace map Did.erase Did.answered];
  repeat first [ solve [ apply after_head; reflexivity ]
               | apply after_later; [ reflexivity | ] ].

Section ExecuteFillSafety.

Context {lib : Libraries} {W : Type} `{World W}.

(** X4.  [executeFill] hands a transaction to the wallet, an approval or
    the fill itself, only after it has read the taker's balance once and
    found it to be at least the order's taking amount: the balance, in the
    order's taker token, of the account of the taker's key. *)
Theorem executeFill_transactions_need_balance
    (order : Order.OrderOutput.t) (key : Hex) (w : W)
    (Htx : existsb Did.isTransaction
             (Did.trace (events (Fill.executeFill order key w))) = true) :
  exists acct takingAmount takerAsset token balance,
    privateKeyToAccount key = Ok acct
    /\ toBigInt (Order.OrderFields.takingAmount (Order.OrderOutput.order order))
       = Ok takingAmount
    /\ toBigInt (Order.OrderFields.takerAsset (Order.OrderOutput.order order))
       = Ok takerAsset
    /\ Config.getTokenByAddress
         ("0x" ++ JS.padStart 40 "0" (JS.toString 16 takerAsset))
       = Some token
    /\ Trace.balancesRead (events (Fill.executeFill order key w)) = [balance]
    /\ takingAmount <= balance
    /\ forall pre d rest,
         Did.trace (events (Fill.executeFill order key w))
         = (pre ++ d :: rest)%list ->
         Did.isTransaction d = true ->
         In (Did.BalanceOf (Config.address token) (accountAddress acct)
               (Some balance)) pre.
Proof.
  revert Htx.
  change (post (Fill.executeFill order key) w (fun _ _ es =>
    existsb Did.isTransaction (Did.trace es) = true ->
    exists acct takingAmount takerAsset token balance,
      privateKeyToAccount key = Ok acct
      /\ toBigInt (Order.OrderFields.takingAmount (Order.OrderOutput.order order))
         = Ok takingAmount
      /\ toBigInt (Order.OrderFields.takerAsset (Order.OrderOutput.order order))
         = Ok takerAsset
      /\ Config.getTokenByAddress
           ("0x" ++ JS.padStart 40 "0" (JS.toString 16 takerAsset))
         = Some token
      /\ Trace.balancesRead es = [balance]
      /\ takingAmount <= balance
      /\ forall pre d rest,
           Did.trace es = (pre ++ d :: rest)%list ->
           Did.isTransaction d = true ->
           In (Did.BalanceOf (Config.address token) (accountAddress acct)
                 (Some balance)) pre)).
  unfold Fill.executeFill, Blockchain.validateSufficientBalance,
    Blockchain.ensureTokenApproval, Blockchain.getTokenBalance,
    Blockchain.getTokenAllowance, Blockchain.approveToken,
    Blockchain.createAccountFromPrivateKey.
  repeat step.
  all: intros.
  all: try match goal with
           | E : existsb Did.isTransaction _ = true |- _ =>
               cbn [existsb Did.trace map Did.erase Did.isTransaction orb] in E;
               discriminate E
           end.
  all: match goal with
       | E : negb (_ >=? _) = false |- _ =>
           apply negb_false_iff, Z.geb_le in E
       end.
  all: do 5 eexists.
  all: repeat (split; [ first [ reflexivity | eassumption ] | ]).
  all: comes_first.
Qed.

(** X5.  Once [executeFill] has asked for a gas estimate it returns a
    result and throws nothing: a rejected estimate or a rejected
    transaction is reported as [success = false] without a hash, and after
    a rejected estimate no transaction is sent. *)
Theorem executeFill_reports_rpc_failures
    (order : Order.OrderOutput.t) (key : Hex) (w : W) :
  let run := Fill.executeFill order key w in
  let did := Did.trace (events run) in
  (existsb Did.isEstimate did = true -> exists res, result run = Ok res)
  /\ (forall from to data,
        In (Did.Estimate from to data None) did ->
        Trace.gasLimits (events run) = []
        /\ exists message,
             result run = Ok {| Fill.success := false; Fill.txHash := None;
                                Fill.error := Some message |})
  /\ (forall to data from gas,
        In (Did.Send to data from gas None) did ->
        Trace.lastReceipt (events run) = None
        /\ exists message,
             result run = Ok {| Fill.success := false; Fill.txHash := None;
                                Fill.error := Some message |}).
Proof.
  cbv zeta.
  change (post (Fill.executeFill order key) w (fun r _ es =>
    (existsb Did.isEstimate (Did.trace es) = true -> exists res, r = Ok res)
    /\ (forall from to data,
          In (Did.Estimate from to data None) (Did.trace es) ->
          Trace.gasLimits es = []
          /\ exists message,
               r = Ok {| Fill.success := false; Fill.txHash := None;
                         Fill.error := Some message |})
    /\ (forall to data from gas,
          In (Did.Send to data from gas None) (Did.trace es) ->
          Trace.lastReceipt es = None
          /\ exists message,
               r = Ok {| Fill.success := false; Fill.txHash := None;
                         Fill.error := Some message |}))).
  unfold Fill.executeFill, Blockchain.validateSufficientBalance,
    Blockchain.ensureTokenApproval, Blockchain.getTokenBalance,
    Blockchain.getTokenAllowance, Blockchain.approveToken,
    Blockchain.createAccountFromPrivateKey.
  repeat step.
  all: cbn [Did.trace map Did.erase Did.answered existsb Did.isEstimate orb In].
  all: split; [ intros E; first [ discriminate E | eauto ] | ].
  all: split; intros; repeat match goal with
                             | Hin : _ \/ _ |- _ => destruct Hin as [Hin | Hin]
                             | Hin : False |- _ => destruct Hin
                             | Hin : _ = _ |- _ => discriminate Hin
                             end.
  all: split; [ reflexivity | eexists; reflexivity ].
Qed.

(** X6.  When the order's taker asset is none of the configured tokens,
    [executeFill] returns [success = false] with the error naming the
    address it looked up, and no call leaves the process. *)
Theorem executeFill_unknown_taker_asset
    (order : Order.OrderOutput.t) (key : Hex) (w : W)
    (acct : Account) (takingAmount takerAsset : Z)
    (Hkey : privateKeyToAccount key = Ok acct)
    (Hamount : toBigInt (Order.OrderFields.takingAmount
                           (Order.OrderOutput.order order)) = Ok takingAmount)
    (Hasset : toBigInt (Order.OrderFields.takerAsset
                          (Order.OrderOutput.order order)) = Ok takerAsset)
    (Hunknown : Config.getTokenByAddress
                  ("0x" ++ JS.padStart 40 "0" (JS.toString 16 takerAsset))
                = None) :
  let run := Fill.executeFill order key w in
  result run
  = Ok {| Fill.success := false; Fill.txHash := None;
          Fill.error :=
            Some ("Unknown taker asset: "
                  ++ "0x" ++ JS.padStart 40 "0" (JS.toString 16 takerAsset)) |}
  /\ events run = [] /\ after run = w.
Proof.
  cbv zeta.
  change (post (Fill.executeFill order key) w (fun r w' es =>
    r = Ok {| Fill.success := false; Fill.txHash := None;
              Fill.error :=
                Some ("Unknown taker asset: "
                      ++ "0x" ++ JS.padStart 40 "0" (JS.toString 16 takerAsset)) |}
    /\ es = [] /\ w' = w)).
  unfold Fill.executeFill, Blockchain.createAccountFromPrivateKey.
  rewrite Hkey, Hamount, Hasset.
  repeat (step;
          try match goal with
              | E : Config.getTokenByAddress _ = Some _ |- _ =>
                  rewrite Hunknown in E; discriminate E
              end).
  repeat split.
Qed.

End ExecuteFillSafety.

Section ExecuteFillSafetyExamples.

#[local] Existing Instances Example.libraries Example.world.

(** The fill on the example ledger approves and sends: the balance read
    was 10 BRLA for a taking amount of 5. *)
Lemma executeFill_balance_on_ledger :
  exists acct takingAmount takerAsset token balance,
    privateKeyToAccount "0xb2" = Ok acct
    /\ toBigInt (Order.OrderFields.takingAmount
                   (Order.OrderOutput.order Example.order)) = Ok takingAmount
    /\ toBigInt (Order.OrderFields.takerAsset
                   (Order.OrderOutput.order Example.order)) = Ok takerAsset
    /\ Config.getTokenByAddress
         ("0x" ++ JS.padStart 40 "0" (JS.toString 16 takerAsset))
       = Some token
    /\ Trace.balancesRead
         (events (Fill.executeFill Example.order "0xb2"
                    (Example.ledger (10 ^ 19) 0))) = [balance]
    /\ takingAmount <= balance
    /\ forall pre d rest,
         Did.trace (events (Fill.executeFill Example.order "0xb2"
                              (Example.ledger (10 ^ 19) 0)))
         = (pre ++ d :: rest)%list ->
         Did.isTransaction d = true ->
         In (Did.BalanceOf (Config.address token) (accountAddress acct)
               (Some balance)) pre.
Proof.
  apply executeFill_transactions_need_balance. vm_compute. reflexivity.
Defined.

(** An order for a token that is not configured. *)
Lemma executeFill_unknown_on_ledger :
  let order :=
    {| Order.OrderOutput.orderHash := "0x01";
       Order.OrderOutput.signature := Example.signature;
       Order.OrderOutput.order :=
         {| Order.OrderFields.salt := "1";
            Order.OrderFields.maker := "0xa1";
            Order.OrderFields.receiver := "0xa1";
            Order.OrderFields.makerAsset := Config.address Config.USDC;
            Order.OrderFields.takerAsset := "0x01";
            Order.OrderFields.makingAmount := "1";
            Order.OrderFields.takingAmount := "5";
            Order.OrderFields.makerTraits := "0" |} |} in
  result (Fill.executeFill order "0xb2" (Example.ledger 0 0))
  = Ok {| Fill.success := false; Fill.txHash := None;
          Fill.error :=
            Some "Unknown taker asset: 0x0000000000000000000000000000000000000001" |}.
Proof.
  intros order.
  destruct (executeFill_unknown_taker_asset
              order "0xb2" (Example.ledger 0 0) Example.maker 5 1)
    as (Hresult & _).
  - reflexivity.
  - vm_compute. reflexivity.
  - vm_compute. reflexivity.
  - vm_compute. reflexivity.
  - rewrite Hresult. vm_compute. reflexivity.
Defined.

End ExecuteFillSafetyExamples.

(** ** lib/generate-order.ts: options and outcome of [generateOrder] *)

Ltac unfold_generateOrder :=
  unfold GenerateOrder.generateOrder, GenerateOrder.log,
    QuoteApi.getQuote, QuoteApi.responseJson, QuoteApi.propertyToBigInt,
    Blockchain.createAccountFromPrivateKey,
    Blockchain.validateSufficientBalance, Blockchain.getTokenBalance,
    Blockchain.ensureTokenApproval, Blockchain.getTokenAllowance,
    Blockchain.approveToken,
    Order.generateSignedOrder, Order.createLimitOrder,
    Order.buildMakerTraits, Order.signOrder;
  cbv zeta.

Section GenerateOrderOptions.

Context {lib : Libraries} {env : Environment} {W : Type} `{World W}.

(** X7.  An amount that parses to zero or less makes [generateOrder]
    throw ["Amount must be greater than zero."] at once: no quote is asked
    for, nothing is logged, no call leaves the process. *)
Theorem generateOrder_rejects_nonpositive_amount
    (options : GenerateOrder.GenerateOrderOptions) (w : W) (a : Z)
    (Hamount : parseUnits (GenerateOrder.amountStr options)
                 (Config.decimals (Config.makerAsset Config.ORDER_CONFIG))
               = Ok a)
    (Hnonpositive : a <= 0) :
  let run := GenerateOrder.generateOrder options w in
  result run = Throw (Error "Amount must be greater than zero.")
  /\ events run = [] /\ after run = w.
Proof.
  cbv zeta.
  change (post (GenerateOrder.generateOrder options) w (fun r w' es =>
    r = Throw (Error "Amount must be greater than zero.")
    /\ es = [] /\ w' = w)).
  unfold GenerateOrder.generateOrder. cbv zeta. rewrite Hamount.
  step. step. cbv beta iota.
  destruct (Z.leb_spec a 0) as [_ | Hgt]; [ | lia ].
  step. repeat split.
Qed.

(** X8.  With [skipApproval] set, no run of [generateOrder] reads an
    allowance or submits an approval. *)
Theorem generateOrder_skipApproval
    (options : GenerateOrder.GenerateOrderOptions) (w : W)
    (Hskip : GenerateOrder.skipApproval options = Some true) :
  existsb Did.isAllowanceOrApprove
    (Did.trace (events (GenerateOrder.generateOrder options w))) = false.
Proof.
  change (post (GenerateOrder.generateOrder options) w (fun _ _ es =>
    existsb Did.isAllowanceOrApprove (Did.trace es) = false)).
  unfold_generateOrder. rewrite Hskip. cbn [negb].
  destruct (negb match GenerateOrder.silent options with
                 | Some b => b
                 | None => false
                 end).
  all: repeat step.
  all: reflexivity.
Qed.

(** X9.  With [silent] set, no run of [generateOrder] writes a line to the
    console. *)
Theorem generateOrder_silent
    (options : GenerateOrder.GenerateOrderOptions) (w : W)
    (Hsilent : GenerateOrder.silent options = Some true) :
  Trace.lines (events (GenerateOrder.generateOrder options w)) = [].
Proof.
  change (post (GenerateOrder.generateOrder options) w (fun _ _ es =>
    Trace.lines es = [])).
  unfold_generateOrder. rewrite Hsilent. cbn [negb].
  destruct (negb match GenerateOrder.skipApproval options with
                 | Some b => b
                 | None => false
                 end).
  all: repeat step.
  all: reflexivity.
Qed.

End GenerateOrderOptions.

Section GenerateOrderExamples.

#[local] Existing Instances
  Example.libraries Example.world Example.environment.

(** An amount of zero on the example ledger. *)
Lemma generateOrder_zero_on_ledger :
  result (GenerateOrder.generateOrder
            {| GenerateOrder.makerPrivateKey := "0xa1";
               GenerateOrder.amountStr := "0";
               GenerateOrder.skipApproval := None;
               GenerateOrder.silent := None |} (Example.ledger 0 0))
  = Throw (Error "Amount must be greater than zero.").
Proof.
  apply (generateOrder_rejects_nonpositive_amount
           {| GenerateOrder.makerPrivateKey := "0xa1";
              GenerateOrder.amountStr := "0";
              GenerateOrder.skipApproval := None;
              GenerateOrder.silent := None |} (Example.ledger 0 0) 0).
  - vm_compute. reflexivity.
  - lia.
Defined.

(** One USDC without the approval step, on a ledger without allowance. *)
Lemma generateOrder_skipApproval_on_ledger :
  existsb Did.isAllowanceOrApprove
    (Did.trace
       (events (GenerateOrder.generateOrder
                  {| GenerateOrder.makerPrivateKey := "0xa1";
                     GenerateOrder.amountStr := "1";
                     GenerateOrder.skipApproval := Some true;
                     GenerateOrder.silent := None |}
                  (Example.ledger 1000000 0)))) = false.
Proof. apply generateOrder_skipApproval. reflexivity. Defined.

(** One USDC, silently. *)
Lemma generateOrder_silent_on_ledger :
  Trace.lines
    (events (GenerateOrder.generateOrder
               {| GenerateOrder.makerPrivateKey := "0xa1";
                  GenerateOrder.amountStr := "1";
                  GenerateOrder.skipApproval := None;
                  GenerateOrder.silent := Some true |}
               (Example.ledger 1000000 0))) = [].
Proof. apply generateOrder_silent. reflexivity. Defined.

End GenerateOrderExamples.

Section GenerateOrderReturns.

Context {lib : Libraries} {env : Environment} {W : Type} `{World W}.

(** X10.  When [generateOrder] returns, the amount parsed to a positive
    number, the maker's balance was read once and covers the quoted input
    amount, the maker address is that of the key's account, and the order
    holds the quote's amounts in decimal and the signature the wallet
    gave.  The balance read is that of the key's account in the maker
    token, and it was read before any allowance was read, anything
    approved or the signature asked for. *)
Theorem generateOrder_returns_checked_order
    (options : GenerateOrder.GenerateOrderOptions) (w : W)
    (res : GenerateOrder.GenerateOrderResult)
    (Hres : result (GenerateOrder.generateOrder options w) = Ok res) :
  let run := GenerateOrder.generateOrder options w in
  let quote := GenerateOrder.quote res in
  let fields := Order.OrderOutput.order (GenerateOrder.order res) in
  let makerToken := Config.makerAsset Config.ORDER_CONFIG in
  exists a acct balance,
    parseUnits (GenerateOrder.amountStr options) 6 = Ok a /\ 0 < a
    /\ privateKeyToAccount (GenerateOrder.makerPrivateKey options) = Ok acct
    /\ GenerateOrder.makerAddress res = accountAddress acct
    /\ Trace.balancesRead (events run) = [balance]
    /\ QuoteApi.inputAmount quote <= balance
    /\ Order.OrderFields.makingAmount fields
       = JS.toString 10 (QuoteApi.inputAmount quote)
    /\ Order.OrderFields.takingAmount fields
       = JS.toString 10 (QuoteApi.outputAmount quote)
    /\ (exists data,
         In (Did.Sign acct data
               (Some (Order.OrderOutput.signature (GenerateOrder.order res))))
            (Did.trace (events run))
         /\ domainChainId data = Config.POLYGON_CHAIN_ID
         /\ LimitOrder.makingAmount (message data) = QuoteApi.inputAmount quote
         /\ LimitOrder.takingAmount (message data) = QuoteApi.outputAmount quote)
    /\ In (Did.BalanceOf (Config.address makerToken) (accountAddress acct)
             (Some balance))
          (Did.trace (events run))
    /\ forall pre d rest,
         Did.trace (events run) = (pre ++ d :: rest)%list ->
         Did.isApproveOrSign d = true ->
         In (Did.BalanceOf (Config.address makerToken) (accountAddress acct)
               (Some balance)) pre.
Proof.
  cbv zeta. revert Hres.
  change (post (GenerateOrder.generateOrder options) w (fun r _ es =>
    r = Ok res ->
    exists a acct balance,
      parseUnits (GenerateOrder.amountStr options) 6 = Ok a /\ 0 < a
      /\ privateKeyToAccount (GenerateOrder.makerPrivateKey options) = Ok acct
      /\ GenerateOrder.makerAddress res = accountAddress acct
      /\ Trace.balancesRead es = [balance]
      /\ QuoteApi.inputAmount (GenerateOrder.quote res) <= balance
      /\ Order.OrderFields.makingAmount
           (Order.OrderOutput.order (GenerateOrder.order res))
         = JS.toString 10 (QuoteApi.inputAmount (GenerateOrder.quote res))
      /\ Order.OrderFields.takingAmount
           (Order.OrderOutput.order (GenerateOrder.order res))
         = JS.toString 10 (QuoteApi.outputAmount (GenerateOrder.quote res))
      /\ (exists data,
           In (Did.Sign acct data
                 (Some (Order.OrderOutput.signature (GenerateOrder.order res))))
              (Did.trace es)
           /\ domainChainId data = Config.POLYGON_CHAIN_ID
           /\ LimitOrder.makingAmount (message data)
              = QuoteApi.inputAmount (GenerateOrder.quote res)
           /\ LimitOrder.takingAmount (message data)
              = QuoteApi.outputAmount (GenerateOrder.quote res))
      /\ In (Did.BalanceOf
               (Config.address (Config.makerAsset Config.ORDER_CONFIG))
               (accountAddress acct) (Some balance))
            (Did.trace es)
      /\ forall pre d rest,
           Did.trace es = (pre ++ d :: rest)%list ->
           Did.isApproveOrSign d = true ->
           In (Did.BalanceOf
                 (Config.address (Config.makerAsset Config.ORDER_CONFIG))
                 (accountAddress acct) (Some balance)) pre)).
  unfold_generateOrder.
  change (Config.decimals (Config.makerAsset Config.ORDER_CONFIG)) with 6%nat.
  destruct (negb match GenerateOrder.silent options with
                 | Some b => b
                 | None => false
                 end);
    destruct (negb match GenerateOrder.skipApproval options with
                   | Some b => b
                   | None => false
                   end).
  all: repeat step.
  all: intros.
  all: match goal with
       | E : _ = Ok _ |- _ => first [ discriminate E | injection E as <- ]
       end.
  all: repeat match goal with
       | E : (_ <=? _) = false |- _ => apply Z.leb_gt in E
       | E : negb (_ >=? _) = false |- _ =>
           apply negb_false_iff, Z.geb_le in E
       end.
  all: do 3 eexists.
  all: repeat (split; [ first [ reflexivity | eassumption ] | ]).
  all: split;
    [ eexists; split;
      [ cbn [Did.trace map Did.erase Did.answered In];
        repeat first [ left; reflexivity | right ]
      | repeat split ]
    | split;
      [ cbn [Did.trace map Did.erase Did.answered In];
        repeat first [ left; reflexivity | right ]
      | comes_first ] ].
Qed.

End GenerateOrderReturns.

Section GenerateOrderReturnsExample.

#[local] Existing Instances
  Example.libraries Example.world Example.environment.

(** One USDC on a ledger where the maker holds exactly that. *)
Lemma generateOrder_returns_on_ledger :
  exists res,
    result (GenerateOrder.generateOrder
              {| GenerateOrder.makerPrivateKey := "0xa1";
                 GenerateOrder.amountStr := "1";
                 GenerateOrder.skipApproval := None;
                 GenerateOrder.silent := None |}
              (Example.ledger 1000000 0)) = Ok res
    /\ exists acct balance,
         privateKeyToAccount "0xa1" = Ok acct
         /\ Trace.balancesRead
              (events (GenerateOrder.generateOrder
                         {| GenerateOrder.makerPrivateKey := "0xa1";
                            GenerateOrder.amountStr := "1";
                            GenerateOrder.skipApproval := None;
                            GenerateOrder.silent := None |}
                         (Example.ledger 1000000 0))) = [balance]
         /\ QuoteApi.inputAmount (GenerateOrder.quote res) <= balance
         /\ In (Did.BalanceOf (Config.address Config.USDC)
                  (accountAddress acct) (Some balance))
               (Did.trace
                  (events (GenerateOrder.generateOrder
                             {| GenerateOrder.makerPrivateKey := "0xa1";
                                GenerateOrder.amountStr := "1";
                                GenerateOrder.skipApproval := None;
                                GenerateOrder.silent := None |}
                             (Example.ledger 1000000 0)))).
Proof.
  eexists. split; [ vm_compute; reflexivity | ].
  match goal with
  | |- exists acct balance,
         _ /\ _ /\ QuoteApi.inputAmount (GenerateOrder.quote ?res) <= _ /\ _ =>
      destruct (generateOrder_returns_checked_order
                  {| GenerateOrder.makerPrivateKey := "0xa1";
                     GenerateOrder.amountStr := "1";
                     GenerateOrder.skipApproval := None;
                     GenerateOrder.silent := None |}
                  (Example.ledger 1000000 0) res)
        as (a & acct & balance & _ & _ & Hkey & _ & Hread & Hcovers
            & _ & _ & _ & Hin & _);
        [ vm_compute; reflexivity | ]
  end.
  exists acct, balance. repeat split; assumption.
Defined.

End GenerateOrderReturnsExample.

(** ** Private keys from the environment *)

Lemma startsWith_0x_normalised (key : string) :
  JS.startsWith (if JS.startsWith key "0x" then key else "0x" ++ key) "0x" = true.
Proof.
  destruct (JS.startsWith key "0x") eqn:E; [ exact E | ].
  unfold JS.startsWith. apply prefix_app.
Qed.

Section PrivateKeys.

Context {lib : Libraries} {env : Environment} {W : Type} `{World W}.

(** X11.  The fill test's [getMakerPrivateKey]: without the variable, or
    with an empty one, it logs the error line and exits with status 1;
    otherwise it returns the key, with ["0x"] put in front unless the key
    has it already, and logs nothing.  The key returned always starts
    with ["0x"]. *)
Theorem getMakerPrivateKey_outcomes (w : W) :
  let run := FillTest.getMakerPrivateKey w in
  after run = w
  /\ (forall key, result run = Ok key -> JS.startsWith key "0x" = true)
  /\ match MAKER_PRIVATE_KEY with
     | Some (String c s) =>
         let key := String c s in
         result run = Ok (if JS.startsWith key "0x" then key else "0x" ++ key)
         /\ events run = []
     | _ =>
         result run = Exit 1
         /\ Did.trace (events run)
            = [Did.Log "Error: MAKER_PRIVATE_KEY environment variable is required."]
     end.
Proof.
  cbv zeta. unfold FillTest.getMakerPrivateKey, FillTest.getRequiredEnv.
  destruct MAKER_PRIVATE_KEY as [[| c s] |]; cbn.
  - repeat split. intros key E. discriminate E.
  - repeat split. intros key E. injection E as <-.
    apply (startsWith_0x_normalised (String c s)).
  - repeat split. intros key E. discriminate E.
Qed.

(** X12.  [getTakerPrivateKey] of [config.ts]: without the variable, or
    with an empty one, it throws; otherwise it returns the key with
    ["0x"] in front, put there unless the key has it already. *)
Theorem getTakerPrivateKey_outcomes :
  (forall key, getTakerPrivateKey = Ok key -> JS.startsWith key "0x" = true)
  /\ match TAKER_PRIVATE_KEY with
     | Some (String c s) =>
         let key := String c s in
         getTakerPrivateKey
         = Ok (if JS.startsWith key "0x" then key else "0x" ++ key)
     | _ =>
         getTakerPrivateKey
         = Throw (Error "TAKER_PRIVATE_KEY environment variable is required.")
     end.
Proof.
  unfold getTakerPrivateKey.
  destruct TAKER_PRIVATE_KEY as [[| c s] |]; cbn [truthy negb display].
  - split; [ intros key E; discriminate E | reflexivity ].
  - split; [ | reflexivity ]. intros key E. injection E as <-.
    apply (startsWith_0x_normalised (String c s)).
  - split; [ intros key E; discriminate E | reflexivity ].
Qed.

End PrivateKeys.

(** ** lib/quote.ts: asking the filler service *)

Section QuoteFromService.

Context {lib : Libraries} {env : Environment} {W : Type} `{World W}.

(** X13.  [getQuote] makes one call: the request to the [/quote] path of
    the filler service with the amount in units of USDC.  It returns a
    quote only for a response that is [ok], whose JSON has the properties
    [inputAmount] and [expectedOutput] that [BigInt] reads as the quote's
    amounts; for a response that is not [ok] it throws ["Quote failed: "]
    with the [error] of the body or, without one, the status text. *)
Theorem getQuote_asks_once (a : Z) (w : W) :
  let run := QuoteApi.getQuote a w in
  exists answer,
    Did.trace (events run)
    = [Did.Quote (FILLER_API_URL ++ "/quote") (formatUnits a 6) answer]
    /\ (forall quote, result run = Ok quote ->
          exists response object input output,
            answer = Some response /\ ok response = true
            /\ json response = Some object
            /\ QuoteApi.property "inputAmount" object = Some input
            /\ QuoteApi.property "expectedOutput" object = Some output
            /\ JS.BigInt input = Some (QuoteApi.inputAmount quote)
            /\ JS.BigInt output = Some (QuoteApi.outputAmount quote)
            /\ QuoteApi.rate quote = QuoteApi.property "rate" object)
    /\ (forall response object,
          answer = Some response -> ok response = false ->
          json response = Some object ->
          result run
          = Throw (Error ("Quote failed: "
                          ++ match QuoteApi.property "error" object with
                             | Some e => e
                             | None => statusText response
                             end))).
Proof.
  cbv zeta.
  change (post (QuoteApi.getQuote a) w (fun r _ es =>
    exists answer,
      Did.trace es
      = [Did.Quote (FILLER_API_URL ++ "/quote") (formatUnits a 6) answer]
      /\ (forall quote, r = Ok quote ->
            exists response object input output,
              answer = Some response /\ ok response = true
              /\ json response = Some object
              /\ QuoteApi.property "inputAmount" object = Some input
              /\ QuoteApi.property "expectedOutput" object = Some output
              /\ JS.BigInt input = Some (QuoteApi.inputAmount quote)
              /\ JS.BigInt output = Some (QuoteApi.outputAmount quote)
              /\ QuoteApi.rate quote = QuoteApi.property "rate" object)
      /\ (forall response object,
            answer = Some response -> ok response = false ->
            json response = Some object ->
            r = Throw (Error ("Quote failed: "
                              ++ match QuoteApi.property "error" object with
                                 | Some e => e
                                 | None => statusText response
                                 end))))).
  unfold QuoteApi.getQuote, QuoteApi.responseJson, QuoteApi.propertyToBigInt,
    toBigInt.
  change (Config.decimals (Config.makerAsset Config.ORDER_CONFIG)) with 6%nat.
  repeat step.
  all: eexists; split; [ reflexivity | split ].
  all: try (intros quote E; first [ discriminate E | injection E as <- ]).
  all: try (intros response object E1 E2 E3;
            first [ discriminate E1 | injection E1 as <- ];
            first [ congruence
                  | apply negb_true_iff in E2; congruence
                  | idtac ]).
  all: try match goal with
           | E : negb (ok _) = false |- _ => apply negb_false_iff in E
           end.
  all: try (repeat match goal with
                   | E : match JS.BigInt ?s with _ => _ end = Ok _ |- _ =>
                       destruct (JS.BigInt s) eqn:?;
                       [ injection E as <- | discriminate E ]
                   end;
            do 4 eexists;
            cbn [Did.answered QuoteApi.inputAmount QuoteApi.outputAmount
                 QuoteApi.rate];
            repeat split; first [ eassumption | reflexivity ]).
  all: try match goal with
           | E : negb (ok _) = true |- _ =>
               apply negb_true_iff in E; congruence
           end.
  all: try match goal with
           | E1 : json ?r = Some _, E2 : json ?r = Some _ |- _ =>
               rewrite E1 in E2; injection E2 as <-
           end.
  all: try match goal with
           | E : QuoteApi.property "error" _ = _ |- _ => rewrite E
           end.
  all: try reflexivity.
Qed.

End QuoteFromService.

(** ** lib/order.ts: building an order *)

Section CreateLimitOrder.

Context {lib : Libraries} {W : Type} `{World W}.


End CreateLimitOrder.

Section CreateLimitOrderExample.

#[local] Existing Instances Example.libraries Example.world.


End CreateLimitOrderExample.

(** ** test/fill.ts: the order struct of a formatted order *)

(** X15.  [buildOrderStruct] applied to what [formatOrderOutput] wrote:
    when the four address fields are integer literals, the struct holds
    their values and the salt, the amounts and the traits of the signed
    order, read back from their decimal renderings; when one of them is
    not, [BigInt] throws a [SyntaxError]. *)
Theorem buildOrderStruct_of_formatted (signed : Order.SignedOrder.t) :
  let data := Order.SignedOrder.orderData signed in
  let built :=
    Fill.buildOrderStruct
      (Order.OrderOutput.order (Order.formatOrderOutput signed)) in
  match JS.BigInt (Order.OrderData.maker data),
        JS.BigInt (Order.OrderData.receiver data),
        JS.BigInt (Order.OrderData.makerAsset data),
        JS.BigInt (Order.OrderData.takerAsset data) with
  | Some maker, Some receiver, Some makerAsset, Some takerAsset =>
      built
      = Ok {| OrderStruct.salt := Order.OrderData.salt data;
              OrderStruct.maker := maker;
              OrderStruct.receiver := receiver;
              OrderStruct.makerAsset := makerAsset;
              OrderStruct.takerAsset := takerAsset;
              OrderStruct.makingAmount := Order.OrderData.makingAmount data;
              OrderStruct.takingAmount := Order.OrderData.takingAmount data;
              OrderStruct.makerTraits := Order.OrderData.makerTraits data |}
  | _, _, _, _ => exists message, built = Throw (SyntaxError message)
  end.
Proof.
  cbv zeta. unfold Fill.buildOrderStruct, Order.formatOrderOutput, toBigInt.
  cbn [Order.OrderOutput.order Order.OrderFields.salt Order.OrderFields.maker
       Order.OrderFields.receiver Order.OrderFields.makerAsset
       Order.OrderFields.takerAsset Order.OrderFields.makingAmount
       Order.OrderFields.takingAmount Order.OrderFields.makerTraits].
  rewrite !BigInt_toString10. cbn [bindR].
  destruct (JS.BigInt (Order.OrderData.maker (Order.SignedOrder.orderData signed)));
    cbn [bindR]; [ | eauto ].
  destruct (JS.BigInt (Order.OrderData.receiver (Order.SignedOrder.orderData signed)));
    cbn [bindR]; [ | eauto ].
  destruct (JS.BigInt (Order.OrderData.makerAsset (Order.SignedOrder.orderData signed)));
    cbn [bindR]; [ | eauto ].
  destruct (JS.BigInt (Order.OrderData.takerAsset (Order.SignedOrder.orderData signed)));
    cbn [bindR]; [ reflexivity | eauto ].
Qed.

(** ** lib/order.ts: the order hash tells salts apart *)

(** X16.  Orders whose salts are not negative and differ have different
    hashes: the salt can be read back from the hash. *)
Theorem computeOrderHash_tells_salts_apart (order order' : LimitOrder.t)
    (Hsalt : 0 <= LimitOrder.salt order)
    (Hsalt' : 0 <= LimitOrder.salt order')
    (Hhash : Order.computeOrderHash order = Order.computeOrderHash order') :
  LimitOrder.salt order = LimitOrder.salt order'
  /\ JS.BigInt (Order.computeOrderHash order) = Some (LimitOrder.salt order).
Proof.
  destruct (hex_rendering 64 (LimitOrder.salt order) Hsalt) as (_ & _ & _ & _ & Hread).
  destruct (hex_rendering 64 (LimitOrder.salt order') Hsalt')
    as (_ & _ & _ & _ & Hread').
  unfold Order.computeOrderHash in *. split; [ | exact Hread ].
  rewrite Hhash, Hread' in Hread. injection Hread as <-. reflexivity.
Qed.

(** Two orders with the salt 12345 and different amounts. *)
Lemma computeOrderHash_same_salt :
  LimitOrder.salt
    {| LimitOrder.salt := 12345; LimitOrder.maker := "0xa1";
       LimitOrder.receiver := "0xa1"; LimitOrder.makerAsset := "0xc1";
       LimitOrder.takerAsset := "0xc2"; LimitOrder.makingAmount := 1;
       LimitOrder.takingAmount := 5; LimitOrder.makerTraits := 0 |}
  = LimitOrder.salt
      {| LimitOrder.salt := 12345; LimitOrder.maker := "0xa1";
         LimitOrder.receiver := "0xa1"; LimitOrder.makerAsset := "0xc1";
         LimitOrder.takerAsset := "0xc2"; LimitOrder.makingAmount := 2;
         LimitOrder.takingAmount := 10; LimitOrder.makerTraits := 0 |}
  /\ JS.BigInt
       (Order.computeOrderHash
          {| LimitOrder.salt := 12345; LimitOrder.maker := "0xa1";
             LimitOrder.receiver := "0xa1"; LimitOrder.makerAsset := "0xc1";
             LimitOrder.takerAsset := "0xc2"; LimitOrder.makingAmount := 1;
             LimitOrder.takingAmount := 5; LimitOrder.makerTraits := 0 |})
     = Some 12345.
Proof.
  apply computeOrderHash_tells_salts_apart; [ cbn; lia | cbn; lia | reflexivity ].
Defined.

(** ** The fill test: the balance gates the approval and the signature *)

Section GenerateTestOrder.

Context {lib : Libraries} {env : Environment} {W : Type} `{World W}.

(** X17.  [generateTestOrder] reads an allowance, approves or asks for a
    signature only after it has read the maker's balance once and found
    it to be at least the test amount: the balance, in the maker token, of
    the account of the maker's key; with a balance read that is below the
    test amount it exits with status 1 and does none of these. *)
Theorem generateTestOrder_checks_balance (w : W) :
  let run := FillTest.generateTestOrder w in
  let makerToken := Config.makerAsset Config.ORDER_CONFIG in
  (existsb Did.isApproveOrSign (Did.trace (events run)) = true ->
   exists a acct balance,
     parseUnits FillTest.TEST_MAKING_AMOUNT 6 = Ok a
     /\ privateKeyToAccount
          (if JS.startsWith (display MAKER_PRIVATE_KEY) "0x"
           then display MAKER_PRIVATE_KEY
           else "0x" ++ display MAKER_PRIVATE_KEY) = Ok acct
     /\ truthy MAKER_PRIVATE_KEY = true
     /\ Trace.balancesRead (events run) = [balance]
     /\ a <= balance
     /\ forall pre d rest,
          Did.trace (events run) = (pre ++ d :: rest)%list ->
          Did.isApproveOrSign d = true ->
          In (Did.BalanceOf (Config.address makerToken) (accountAddress acct)
                (Some balance)) pre)
  /\ (forall a balance,
        parseUnits FillTest.TEST_MAKING_AMOUNT 6 = Ok a ->
        Trace.balancesRead (events run) = [balance] ->
        balance < a ->
        result run = Exit 1
        /\ existsb Did.isApproveOrSign (Did.trace (events run)) = false).
Proof.
  cbv zeta.
  change (post FillTest.generateTestOrder w (fun r _ es =>
    (existsb Did.isApproveOrSign (Did.trace es) = true ->
     exists a acct balance,
       parseUnits FillTest.TEST_MAKING_AMOUNT 6 = Ok a
       /\ privateKeyToAccount
            (if JS.startsWith (display MAKER_PRIVATE_KEY) "0x"
             then display MAKER_PRIVATE_KEY
             else "0x" ++ display MAKER_PRIVATE_KEY) = Ok acct
       /\ truthy MAKER_PRIVATE_KEY = true
       /\ Trace.balancesRead es = [balance]
       /\ a <= balance
       /\ forall pre d rest,
            Did.trace es = (pre ++ d :: rest)%list ->
            Did.isApproveOrSign d = true ->
            In (Did.BalanceOf
                  (Config.address (Config.makerAsset Config.ORDER_CONFIG))
                  (accountAddress acct) (Some balance)) pre)
    /\ (forall a balance,
          parseUnits FillTest.TEST_MAKING_AMOUNT 6 = Ok a ->
          Trace.balancesRead es = [balance] ->
          balance < a ->
          r = Exit 1
          /\ existsb Did.isApproveOrSign (Did.trace es) = false))).
  unfold FillTest.generateTestOrder, FillTest.getMakerPrivateKey,
    FillTest.getRequiredEnv, QuoteHardcoded.getQuote,
    QuoteHardcoded.fetchQuoteFromApi, Blockchain.createAccountFromPrivateKey,
    Blockchain.validateSufficientBalance, Blockchain.getTokenBalance,
    Blockchain.ensureTokenApproval, Blockchain.getTokenAllowance,
    Blockchain.approveToken,
    Order.generateSignedOrder, Order.createLimitOrder,
    Order.buildMakerTraits, Order.signOrder.
  cbv zeta.
  change (Config.decimals (Config.makerAsset Config.ORDER_CONFIG)) with 6%nat.
  repeat step.
  all: repeat match goal with
       | E : negb (_ >=? _) = false |- _ =>
           apply negb_false_iff, Z.geb_le in E
       | E : negb (_ >=? _) = true |- _ =>
           apply negb_true_iff in E; rewrite Z.geb_leb in E;
           apply Z.leb_gt in E
       | E : negb (truthy _) = false |- _ => apply negb_false_iff in E
       end.
  all: cbn [QuoteHardcoded.inputAmount] in *.
  all: split;
    [ intros Hdid;
      cbn [existsb Did.trace map Did.erase Did.isApproveOrSign orb] in Hdid;
      first [ discriminate Hdid
            | do 3 eexists;
              repeat (split; [ first [ reflexivity | eassumption ] | ]);
              comes_first ]
    | intros ? ? Ha Hread Hshort;
      cbn [Trace.balancesRead flat_map Trace.balanceRead app] in Hread;
      first [ discriminate Hread
            | injection Hread as <-;
              repeat match goal with
                     | E : parseUnits _ _ = _ |- _ =>
                         rewrite E in Ha; clear E
                     end;
              first [ discriminate Ha | injection Ha as <- ];
              first [ lia | split; reflexivity ] ] ].
Qed.

End GenerateTestOrder.

Section GenerateTestOrderExample.

#[local] Existing Instances
  Example.libraries Example.world Example.environment.

(** The maker holds 0.999999 USDC on the ledger: the test exits.  With
    2 USDC and no allowance the test approves and signs, after the read
    of the maker's balance in USDC. *)
Lemma generateTestOrder_on_short_ledger :
  result (FillTest.generateTestOrder (Example.ledger 999999 0)) = Exit 1
  /\ exists a acct balance,
       parseUnits FillTest.TEST_MAKING_AMOUNT 6 = Ok a
       /\ privateKeyToAccount "0xa1" = Ok acct
       /\ Trace.balancesRead
            (events (FillTest.generateTestOrder (Example.ledger 2000000 0)))
          = [balance]
       /\ a <= balance
       /\ forall pre d rest,
            Did.trace
              (events (FillTest.generateTestOrder (Example.ledger 2000000 0)))
            = (pre ++ d :: rest)%list ->
            Did.isApproveOrSign d = true ->
            In (Did.BalanceOf (Config.address Config.USDC)
                  (accountAddress acct) (Some balance)) pre.
Proof.
  split.
  - destruct (generateTestOrder_checks_balance (Example.ledger 999999 0))
      as [_ Hshort].
    apply (Hshort 1000000 999999); [ vm_compute; reflexivity
                                   | vm_compute; reflexivity | lia ].
  - destruct (generateTestOrder_checks_balance (Example.ledger 2000000 0))
      as [Hafter _].
    destruct (Hafter ltac:(vm_compute; reflexivity))
      as (a & acct & balance & Ha & Hkey & _ & Hread & Hle & Hfirst).
    exists a, acct, balance. repeat split; assumption.
Defined.

End GenerateTestOrderExample.

(** ** Hexadecimal text through [BigInt] and back *)

(** The digit a hexadecimal character stands for is written as that
    character in lower case. *)
Lemma digitChar_of_hex (c : ascii) (d : Z) :
  JS.digitIn 16 c = Some d -> JS.digitChar d = JS.lowerChar c.
Proof.
  destruct c as [[] [] [] [] [] [] [] []]; vm_compute; intros E;
    first [ discriminate E | injection E as <-; reflexivity ].
Qed.

Lemma parseDigits_lower (cs : list ascii) (acc v : Z) :
  JS.parseDigits 16 cs acc = Some v ->
  exists ds,
    Forall (digit 16) ds /\ List.length ds = List.length cs
    /\ v = JS.fromDigits 16 ds acc
    /\ map JS.digitChar ds = map JS.lowerChar cs.
Proof.
  revert acc. induction cs as [| c cs IH]; intros acc; cbn [JS.parseDigits].
  - intros E. injection E as <-. exists []. repeat split. constructor.
  - destruct (JS.digitIn 16 c) as [d |] eqn:Hd; [ | discriminate ].
    intros E. destruct (IH _ E) as (ds & Hds & Hlen & Hv & Hmap).
    exists (d :: ds). repeat split.
    + constructor; [ exact (digitIn_range _ _ _ Hd) | exact Hds ].
    + cbn. f_equal. exact Hlen.
    + exact Hv.
    + cbn [map]. rewrite (digitChar_of_hex c d Hd), Hmap. reflexivity.
Qed.

(** Digits are determined by their number and what they denote. *)
Lemma fromDigits_inj (radix : Z) (ds ds' : list Z) :
  0 < radix -> Forall (digit radix) ds -> Forall (digit radix) ds' ->
  List.length ds = List.length ds' ->
  JS.fromDigits radix ds 0 = JS.fromDigits radix ds' 0 -> ds = ds'.
Proof.
  intros Hradix Hds. revert ds'.
  induction Hds as [| d ds Hd Hds IH]; intros ds' Hds' Hlen Hval;
    destruct Hds' as [| d' ds' Hd' Hds']; try discriminate Hlen.
  - reflexivity.
  - injection Hlen as Hlen.
    rewrite !fromDigits_cons, (fromDigits_acc radix ds),
      (fromDigits_acc radix ds'), <- Hlen in Hval.
    pose proof (fromDigits_bound radix ds Hradix Hds) as B.
    pose proof (fromDigits_bound radix ds' Hradix Hds') as B'.
    rewrite <- Hlen in B'.
    set (R := radix ^ Z.of_nat (List.length ds)) in *.
    assert (HR : 0 < R) by (apply Z.pow_pos_nonneg; lia).
    destruct (Z.div_mod_unique R d d' (JS.fromDigits radix ds 0)
                (JS.fromDigits radix ds' 0)) as [Eq Er]; [ lia | lia | lia | ].
    subst d'. f_equal. apply IH; assumption.
Qed.

Lemma toLowerCase_app (a b : string) :
  JS.toLowerCase (a ++ b) = JS.toLowerCase a ++ JS.toLowerCase b.
Proof. unfold JS.toLowerCase. rewrite chars_app, map_app, str_app. reflexivity. Qed.

(** A string of [k] hexadecimal digits read by [BigInt] and written again
    with [toString(16)] and [padStart(k, "0")] is the string in lower
    case. *)
Lemma hex_through_BigInt (k : nat) (A : string) :
  (1 <= k)%nat -> String.length A = k ->
  forallb (JS.isDigitIn 16) (JS.chars A) = true ->
  exists n,
    0 <= n /\ JS.BigInt ("0x" ++ A) = Some n
    /\ JS.padStart k "0" (JS.toString 16 n) = JS.toLowerCase A.
Proof.
  intros Hk HA Hhex.
  destruct (parseDigits_some 16 (JS.chars A) 0 Hhex) as [n Hn].
  destruct (parseDigits_lower _ _ _ Hn) as (ds & Hds & Hlen & Hv & Hmap).
  rewrite length_chars, HA in Hlen.
  pose proof (fromDigits_bound 16 ds ltac:(lia) Hds) as B. rewrite <- Hv, Hlen in B.
  exists n. split; [ lia | split ].
  - rewrite <- (str_chars A), BigInt_0x; [ exact Hn | | exact Hhex ].
    intros E. apply (f_equal (@List.length _)) in E.
    rewrite length_chars, HA in E. cbn in E. lia.
  - destruct (hex_rendering k n (proj1 B)) as (_ & HP & Hval & HlenP & _).
    rewrite toString_nonneg, padStart_digits by lia.
    unfold JS.toLowerCase. rewrite <- Hmap. f_equal. f_equal.
    apply (fromDigits_inj 16); [ lia | exact HP | exact Hds | | ].
    + rewrite HlenP by (lia || exact Hk). symmetry. exact Hlen.
    + rewrite Hval. exact Hv.
Qed.

(** X18.  The address [executeFill] rebuilds from the order's taker
    asset: for an address of ["0x"] and 40 hexadecimal digits, [BigInt]
    reads it, and writing the number in hexadecimal padded to 40 digits
    gives the address in lower case; so the token found for the rebuilt
    address is the token [getTokenByAddress] finds for the address in the
    order. *)
Theorem executeFill_rebuilds_address (A : string)
    (HA : JS.length A = 40%nat)
    (Hhex : forallb (JS.isDigitIn 16) (JS.chars A) = true) :
  exists n,
    toBigInt ("0x" ++ A) = Ok n
    /\ "0x" ++ JS.padStart 40 "0" (JS.toString 16 n) = JS.toLowerCase ("0x" ++ A)
    /\ Config.getTokenByAddress ("0x" ++ JS.padStart 40 "0" (JS.toString 16 n))
       = Config.getTokenByAddress ("0x" ++ A).
Proof.
  destruct (hex_through_BigInt 40 A ltac:(lia) HA Hhex) as (n & Hn & Hread & Hlow).
  exists n.
  assert (E : "0x" ++ JS.padStart 40 "0" (JS.toString 16 n)
              = JS.toLowerCase ("0x" ++ A))
    by (rewrite toLowerCase_app, Hlow; reflexivity).
  split; [ unfold toBigInt; rewrite Hread; reflexivity | split; [ exact E | ] ].
  rewrite E. unfold Config.getTokenByAddress.
  rewrite toLowerCase_idempotent. reflexivity.
Qed.

(** The address of BRLA as the configuration writes it, in mixed case. *)
Lemma executeFill_rebuilds_BRLA :
  exists n,
    toBigInt (Config.address Config.BRLA) = Ok n
    /\ "0x" ++ JS.padStart 40 "0" (JS.toString 16 n)
       = "0xe6a537a407488807f0bbeb0038b79004f19dddfb"
    /\ Config.getTokenByAddress ("0x" ++ JS.padStart 40 "0" (JS.toString 16 n))
       = Some Config.BRLA.
Proof.
  destruct (executeFill_rebuilds_address
              "E6A537a407488807F0bbeb0038B79004f19DDDFb" eq_refl eq_refl)
    as (n & Hn & Hlow & Hfind).
  exists n. split; [ exact Hn | split ].
  - rewrite Hlow. vm_compute. reflexivity.
  - rewrite Hfind. vm_compute. reflexivity.
Defined.

(** X19.  For a signature of ["0x"], [R], [S] and [V], 64, 64 and 2
    hexadecimal digits, whose recovery byte is not 28,
    [parseSignatureToCompact] returns [r] as it was written and as [vs]
    the text of [s] in lower case. *)
Theorem parseSignatureToCompact_text (R S V : string) (v : Z)
    (HR : JS.length R = 64%nat) (HS : JS.length S = 64%nat)
    (HV : JS.length V = 2%nat)
    (HShex : forallb (JS.isDigitIn 16) (JS.chars S) = true)
    (Hv : hexValue V = Some v) (Hv28 : v <> 28) :
  Order.parseSignatureToCompact ("0x" ++ R ++ S ++ V)
  = Ok {| Order.r := "0x" ++ R; Order.vs := "0x" ++ JS.toLowerCase S |}.
Proof.
  unfold JS.length in HR, HS, HV.
  destruct (hex_through_BigInt 64 S ltac:(lia) HS HShex) as (n & Hn & Hread & Hlow).
  rewrite parseSignatureToCompact_body, signatureBody_0x. cbv zeta.
  unfold JS.length. rewrite !length_append, HR, HS, HV. cbn [Nat.eqb negb Nat.add].
  assert (E0 : JS.slice 0 64 (R ++ S ++ V) = R)
    by exact (slice_0_app 64 R (S ++ V) HR).
  assert (E1 : JS.slice 64 128 (R ++ S ++ V) = S)
    by exact (eq_trans (slice_app_skip 64 0 64 R (S ++ V) HR)
                       (slice_0_app 64 S V HS)).
  assert (E2 : JS.slice 128 130 (R ++ S ++ V) = V)
    by exact (eq_trans (slice_app_skip 64 64 66 R (S ++ V) HR)
                (eq_trans (slice_app_skip 64 0 2 S V HS)
                          (slice_0_all 2 V HV))).
  rewrite E0, E1, E2. unfold toBigInt. rewrite Hread. cbn [bindR].
  rewrite (parseInt16_hex2 V v HV Hv). cbn [Order.is28].
  destruct (Z.eqb_spec v 28) as [-> | _]; [ contradiction | ].
  rewrite Hlow. reflexivity.
Qed.

(** A signature written in upper case, with the recovery byte 27. *)
Lemma parseSignatureToCompact_text_example :
  Order.parseSignatureToCompact
    ("0x"
     ++ "00000000000000000000000000000000000000000000000000000000000000AA"
     ++ "00000000000000000000000000000000000000000000000000000000000000BB"
     ++ "1B")
  = Ok {| Order.r :=
            "0x00000000000000000000000000000000000000000000000000000000000000AA";
          Order.vs :=
            "0x00000000000000000000000000000000000000000000000000000000000000bb" |}.
Proof.
  apply (parseSignatureToCompact_text
           "00000000000000000000000000000000000000000000000000000000000000AA"
           "00000000000000000000000000000000000000000000000000000000000000BB"
           "1B" 27 eq_refl eq_refl eq_refl eq_refl eq_refl).
  lia.
Defined.

(** ** config.ts: amounts below zero *)

Lemma parseDigits_minus (cs : list ascii) (acc : Z) :
  In "-"%char cs -> JS.parseDigits 10 cs acc = None.
Proof.
  revert acc. induction cs as [| c cs IH]; intros acc Hin; [ destruct Hin | ].
  cbn [JS.parseDigits]. destruct Hin as [-> | Hin]; [ reflexivity | ].
  destruct (JS.digitIn 10 c); [ apply IH, Hin | reflexivity ].
Qed.

(** [dropWhileEnd] keeps what does not satisfy the test. *)
Lemma dropWhileEnd_keeps {A} (p : A -> bool) (l : list A) (x : A) :
  In x l -> p x = false -> In x (JS.dropWhileEnd p l).
Proof.
  intros Hin Hx.
  destruct (dropWhileEnd_split p l) as (suffix & E & Hsuffix).
  rewrite E in Hin. apply in_app_or in Hin. destruct Hin as [Hin | Hin].
  - exact Hin.
  - rewrite forallb_forall in Hsuffix. rewrite (Hsuffix x Hin) in Hx.
    discriminate Hx.
Qed.

Lemma toString_no_point (n : Z) :
  forallb (fun c => negb (Ascii.eqb c ".")) (JS.chars (JS.toString 10 n)) = true.
Proof.
  unfold JS.toString. destruct (n <? 0) eqn:E.
  - apply Z.ltb_lt in E.
    change (JS.chars (String "-" ?s)) with ("-"%char :: JS.chars s).
    cbn [forallb]. rewrite chars_str.
    rewrite (digitChars_no_point 10) by (lia || apply digitsOf_digits; lia).
    reflexivity.
  - apply Z.ltb_ge in E. rewrite chars_str.
    apply (digitChars_no_point 10); [ lia | apply digitsOf_digits; lia ].
Qed.

(** X20.  For an amount below zero that is no multiple of
    [10 ^ decimals], the output of [formatTokenAmount] carries a minus
    sign after the point and is no decimal number: reading it back
    fails. *)
Theorem formatTokenAmount_negative_unreadable (amount : Z) (decimals : nat)
    (Hnegative : amount < 0)
    (Hfraction : Z.rem amount (10 ^ Z.of_nat decimals) <> 0) :
  let out := Config.formatTokenAmount amount decimals None in
  (exists fraction,
     AmountReading.fractionalPart out = Some fraction
     /\ In "-"%char (JS.chars fraction))
  /\ AmountReading.parseTokenAmount out decimals = None.
Proof.
  intros out.
  set (D := 10 ^ Z.of_nat decimals) in *.
  assert (HD : 0 < D) by (apply Z.pow_pos_nonneg; lia).
  assert (Hrem : Z.rem amount D < 0).
  { pose proof (Z.rem_bound_pos_neg amount D HD ltac:(lia)). lia. }
  set (shown := JS.dropWhileEnd (Ascii.eqb "0")
                  (JS.chars (JS.padStart decimals "0"
                               (JS.toString 10 (Z.rem amount D))))).
  assert (Hminus : In "-"%char shown).
  { unfold shown. apply dropWhileEnd_keeps; [ | reflexivity ].
    unfold JS.padStart. rewrite chars_str. apply in_or_app. right.
    unfold JS.toString.
    destruct (Z.ltb_spec (Z.rem amount D) 0) as [_ | Hge]; [ | lia ].
    left. reflexivity. }
  assert (Eout : out = JS.toString 10 (Z.quot amount D) ++ "." ++ JS.str shown).
  { unfold out, Config.formatTokenAmount. fold D.
    unfold JS.stripTrailingZeros. fold shown.
    destruct shown as [| c shown']; [ destruct Hminus | reflexivity ]. }
  assert (Hsplit : AmountReading.splitDot (JS.chars out)
                   = (JS.chars (JS.toString 10 (Z.quot amount D)), Some shown)).
  { rewrite Eout, !chars_app, chars_str.
    apply splitDot_point, toString_no_point. }
  split.
  - exists (JS.str shown). unfold AmountReading.fractionalPart.
    rewrite Hsplit. cbn [snd option_map]. rewrite chars_str. split; [ reflexivity | exact Hminus ].
  - unfold AmountReading.parseTokenAmount. rewrite Hsplit.
    destruct (decimals <? List.length shown)%nat; [ reflexivity | ].
    destruct (JS.chars (JS.toString 10 (Z.quot amount D))); [ reflexivity | ].
    apply parseDigits_minus. apply in_or_app. right.
    unfold JS.padEnd. rewrite !chars_str. apply in_or_app. left. exact Hminus.
Qed.

(** Minus one and a half units of a token with six decimals. *)
Lemma formatTokenAmount_negative_example :
  Config.formatTokenAmount (-1500000) 6 None = "-1.-5"
  /\ AmountReading.parseTokenAmount
       (Config.formatTokenAmount (-1500000) 6 None) 6 = None.
Proof.
  split; [ vm_compute; reflexivity | ].
  apply (formatTokenAmount_negative_unreadable (-1500000) 6);
    [ lia | vm_compute; discriminate ].
Defined.
